(** * condaci: version classification and artifact retention

    A shallow embedding of the versioning and binstar sections of
    [condaci.py], with the properties of its specification stated and
    proved (or refuted) over that embedding.

    Python values are modelled as follows: [str] and [bytes] are
    [string]; a list is a [list]; an expression that may raise is a
    [result]; code that prints, runs a subprocess or talks to the hosting
    service lives in the monad [M] over an explicit world.  What depends
    on the host is a parameter: the major version of Python, which decides
    whether the output of git is decoded, and the module [os.path] stands
    for, [posixpath] or [ntpath]. *)

From Stdlib Require Import String Ascii List Bool Arith ZArith Lia.
From Stdlib Require Import DecimalString.
Import ListNotations.

Local Open Scope list_scope.
Local Open Scope string_scope.

(* ================================================================== *)
(** ** Python: exceptions, results, sequences and strings              *)
(* ================================================================== *)

Module Py.

(** The exceptions the modelled code can raise: Python built-ins, the
    one of [subprocess], and [Foreign cls] for whatever a library outside
    this file (the hosting client) raises.  [condaci.py] defines no
    exception class of its own. *)
Inductive exn : Type :=
| IndexError
| ValueError
| CalledProcessError (returncode : Z) (cmd : list string)
| Foreign (cls : string).

(** The name of the class of an exception. *)
Definition exn_class (e : exn) : string :=
  match e with
  | IndexError => "IndexError"
  | ValueError => "ValueError"
  | CalledProcessError _ _ => "CalledProcessError"
  | Foreign cls => cls
  end.

Inductive result (A : Type) : Type :=
| Ok (a : A)
| Raise (e : exn).
Arguments Ok {A} a.
Arguments Raise {A} e.

Definition rbind {A B : Type} (r : result A) (k : A -> result B) : result B :=
  match r with
  | Ok a => k a
  | Raise e => Raise e
  end.

(** [l[i]], with Python's negative indices. *)
Definition index {A : Type} (l : list A) (i : Z) : result A :=
  let n := Z.of_nat (List.length l) in
  let j := if (i <? 0)%Z then (n + i)%Z else i in
  if ((0 <=? j)%Z && (j <? n)%Z)%bool
  then match nth_error l (Z.to_nat j) with
       | Some a => Ok a
       | None => Raise IndexError
       end
  else Raise IndexError.

(** [a, b, c = l]: unpacking into exactly three names. *)
Definition unpack3 {A : Type} (l : list A) : result (A * A * A) :=
  match l with
  | [a; b; c] => Ok (a, b, c)
  | _ => Raise ValueError
  end.

(** [l[i] = x] on a list. *)
Fixpoint setitem {A : Type} (l : list A) (i : nat) (x : A) : result (list A) :=
  match l, i with
  | [], _ => Raise IndexError
  | _ :: t, O => Ok (x :: t)
  | h :: t, S i' => rbind (setitem t i' x) (fun t' => Ok (h :: t'))
  end.

(** [s[0]] on a string. *)
Definition first_char (s : string) : result ascii :=
  match s with
  | EmptyString => Raise IndexError
  | String c _ => Ok c
  end.

(** [s[1:]] on a string. *)
Definition tail (s : string) : string :=
  match s with
  | EmptyString => EmptyString
  | String _ s' => s'
  end.

(** [s.split(sep)] for a separator of one character, which is what
    every call site of [condaci.py] passes. *)
Fixpoint split (sep : ascii) (s : string) : list string :=
  match s with
  | EmptyString => [EmptyString]
  | String c s' =>
      if Ascii.eqb c sep then EmptyString :: split sep s'
      else match split sep s' with
           | w :: ws => String c w :: ws
           | [] => [String c EmptyString]
           end
  end.

(** [sep.join(l)]. *)
Definition join (sep : string) (l : list string) : string :=
  String.concat sep l.

(** [s.startswith(p)]. *)
Fixpoint startswith (s p : string) : bool :=
  match p, s with
  | EmptyString, _ => true
  | String _ _, EmptyString => false
  | String a p', String b s' => Ascii.eqb a b && startswith s' p'
  end.

(** [sub in s]. *)
Fixpoint contains (sub s : string) : bool :=
  startswith s sub ||
  match s with
  | EmptyString => false
  | String _ s' => contains sub s'
  end.

(** [s.replace(old, new)] for one-character [old] and [new]. *)
Fixpoint replace (old new : ascii) (s : string) : string :=
  match s with
  | EmptyString => EmptyString
  | String c s' => String (if Ascii.eqb c old then new else c) (replace old new s')
  end.

(** [c.lower()] on an ASCII character. *)
Definition lower (c : ascii) : ascii :=
  let n := nat_of_ascii c in
  if ((65 <=? n) && (n <=? 90))%nat then ascii_of_nat (n + 32) else c.

(** ASCII whitespace, as [bytes.strip()] sees it. *)
Definition isspace (c : ascii) : bool :=
  let n := nat_of_ascii c in
  ((n =? 32) || ((9 <=? n) && (n <=? 13)))%nat.

Fixpoint lstrip (s : string) : string :=
  match s with
  | EmptyString => EmptyString
  | String c s' => if isspace c then lstrip s' else s
  end.

Fixpoint rstrip (s : string) : string :=
  match s with
  | EmptyString => EmptyString
  | String c s' =>
      match rstrip s' with
      | EmptyString => if isspace c then EmptyString else String c EmptyString
      | r => String c r
      end
  end.

(** [s.strip()]. *)
Definition strip (s : string) : string := rstrip (lstrip s).

(** [str(n)] for a natural number. *)
Definition str_of_nat (n : nat) : string :=
  NilZero.string_of_uint (Nat.to_uint n).

(** [UnicodeDecodeError], carried by the name of its class. *)
Definition UnicodeDecodeError : exn := Foreign "UnicodeDecodeError".

(** The byte [c] is between [lo] and [hi]. *)
Definition byte_in (lo hi : nat) (c : ascii) : bool :=
  ((lo <=? nat_of_ascii c) && (nat_of_ascii c <=? hi))%nat.

(** The bytes are well-formed UTF-8, as the strict decoder of Python
    accepts it: no overlong form, no surrogate, nothing above U+10FFFF. *)
Fixpoint utf8_valid (s : string) : bool :=
  match s with
  | EmptyString => true
  | String a s1 =>
      if byte_in 0 127 a then utf8_valid s1
      else
        match s1 with
        | EmptyString => false
        | String b s2 =>
            if byte_in 194 223 a then byte_in 128 191 b && utf8_valid s2
            else
              match s2 with
              | EmptyString => false
              | String c s3 =>
                  if byte_in 224 239 a then
                    (if byte_in 224 224 a then byte_in 160 191 b
                     else if byte_in 237 237 a then byte_in 128 159 b
                     else byte_in 128 191 b)
                    && byte_in 128 191 c && utf8_valid s3
                  else
                    match s3 with
                    | EmptyString => false
                    | String d s4 =>
                        if byte_in 240 244 a then
                          (if byte_in 240 240 a then byte_in 144 191 b
                           else if byte_in 244 244 a then byte_in 128 143 b
                           else byte_in 128 191 b)
                          && byte_in 128 191 c && byte_in 128 191 d
                          && utf8_valid s4
                        else false
                    end
              end
        end
  end.

(** [b.decode("utf-8")].  A text of Python 3 is modelled by its UTF-8
    bytes: the code only looks for ASCII characters in it ([v], [V], [-]),
    which are never part of the encoding of another character, and [v]
    and [V] are the only characters whose lower case is [v]; so testing
    the first character, slicing it off, splitting and joining give the
    bytes of what they give on the text. *)
Definition decode (b : string) : result string :=
  if utf8_valid b then Ok b else Raise UnicodeDecodeError.

End Py.
Import Py.

Notation "x <-r e ;; k" := (rbind e (fun x => k))
  (at level 61, e at next level, right associativity).

Definition chr_slash : ascii := "/"%char.
Definition chr_backslash : ascii := "\"%char.
Definition chr_dash : ascii := "-"%char.
Definition chr_dot : ascii := "."%char.
Definition chr_plus : ascii := "+"%char.
Definition newline : string := String (ascii_of_nat 10) EmptyString.

(* ================================================================== *)
(** ** [os.path]: posixpath and ntpath                                *)
(* ================================================================== *)

Module posixpath.

(** [p[:i], p[i:]] with [i = p.rfind('/') + 1]. *)
Fixpoint cut (p : string) : string * string :=
  match p with
  | EmptyString => (EmptyString, EmptyString)
  | String c p' =>
      let (h, t) := cut p' in
      match h with
      | String _ _ => (String c h, t)
      | EmptyString =>
          if Ascii.eqb c chr_slash then (String c EmptyString, t)
          else (EmptyString, String c t)
      end
  end.

(** [head == '/' * len(head)]. *)
Fixpoint all_slashes (s : string) : bool :=
  match s with
  | EmptyString => true
  | String c s' => Ascii.eqb c chr_slash && all_slashes s'
  end.

(** [head.rstrip('/')]. *)
Fixpoint rstrip_slash (s : string) : string :=
  match s with
  | EmptyString => EmptyString
  | String c s' =>
      match rstrip_slash s' with
      | EmptyString =>
          if Ascii.eqb c chr_slash then EmptyString else String c EmptyString
      | r => String c r
      end
  end.

(** [posixpath.split(p)]: the pair (head, tail), tail being what follows
    the last slash. *)
Definition split (p : string) : string * string :=
  let (head, tail) := cut p in
  let head' :=
    match head with
    | EmptyString => head
    | _ => if all_slashes head then head else rstrip_slash head
    end in
  (head', tail).

End posixpath.

(** [ntpath], as of Python 2.7.8 and 3.4: [/] and backslash both separate,
    and a drive ([C:]) or a UNC share is set apart first.  Releases of
    Python differ on the paths that begin with two separators, and on
    those only. *)
Module ntpath.

(** [c in '\\/'] *)
Definition is_sep (c : ascii) : bool :=
  Ascii.eqb c chr_backslash || Ascii.eqb c chr_slash.

(** The index of the first separator of [s], if any. *)
Fixpoint find_sep (s : string) : option nat :=
  match s with
  | EmptyString => None
  | String c s' => if is_sep c then Some 0 else option_map S (find_sep s')
  end.

(** [s[:n]] and [s[n:]]. *)
Fixpoint take (n : nat) (s : string) : string :=
  match n, s with
  | S n', String c s' => String c (take n' s')
  | _, _ => EmptyString
  end.

Fixpoint drop (n : nat) (s : string) : string :=
  match n, s with
  | S n', String _ s' => drop n' s'
  | _, _ => s
  end.

(** [ntpath.splitdrive(p)].  With [normp] the path with [/] turned into
    backslash: a path that starts with two separators and not a third is
    a UNC path, whose drive runs up to the second separator after them
    ([index], then [index2]); otherwise a second character [:] ends a
    drive letter. *)
Definition splitdrive (p : string) : string * string :=
  match p with
  | String a (String b rest) =>
      if is_sep a && is_sep b
         && negb (match rest with
                  | String c _ => is_sep c
                  | EmptyString => false
                  end)
      then
        match find_sep rest with
        | None => (EmptyString, p)
        | Some i =>
            match find_sep (drop (S i) rest) with
            | Some O => (EmptyString, p)
            | Some j => (take (2 + S i + j) p, drop (2 + S i + j) p)
            | None => (p, EmptyString)
            end
        end
      else if Ascii.eqb b ":"%char then (String a (String b EmptyString), rest)
      else (EmptyString, p)
  | _ => (EmptyString, p)
  end.

(** [p[:i], p[i:]] with [i] just beyond the last separator of [p]. *)
Fixpoint cut (p : string) : string * string :=
  match p with
  | EmptyString => (EmptyString, EmptyString)
  | String c p' =>
      let (h, t) := cut p' in
      match h with
      | String _ _ => (String c h, t)
      | EmptyString =>
          if is_sep c then (String c EmptyString, t)
          else (EmptyString, String c t)
      end
  end.

(** [head2]: [head] without its trailing separators. *)
Fixpoint rstrip_seps (s : string) : string :=
  match s with
  | EmptyString => EmptyString
  | String c s' =>
      match rstrip_seps s' with
      | EmptyString => if is_sep c then EmptyString else String c EmptyString
      | r => String c r
      end
  end.

(** [ntpath.split(p)] *)
Definition split (p : string) : string * string :=
  let (d, p') := splitdrive p in
  let (head, tail) := cut p' in
  let head2 := rstrip_seps head in
  let head' := match head2 with
               | EmptyString => head
               | _ => head2
               end in
  (d ++ head', tail).

End ntpath.

(* ================================================================== *)
(** ** Versioning: the classifiers                                     *)
(* ================================================================== *)

(** [a and b] and [a or b] on expressions that yield booleans and may
    raise: the right operand is looked at only when the left one does not
    decide. *)
Definition py_and (a b : result bool) : result bool :=
  x <-r a ;; if x then b else Ok false.

Definition py_or (a b : result bool) : result bool :=
  x <-r a ;; if x then Ok true else b.

Definition py_not (a : result bool) : result bool :=
  x <-r a ;; Ok (negb x).

(** [same_version_different_build = lambda v1, v2:
       v2.startswith(v1.split('+')[0])] *)
Definition same_version_different_build (v1 v2 : string) : result bool :=
  base <-r index (split chr_plus v1) 0 ;;
  Ok (startswith v2 base).

(** [is_tag = lambda v: '+' not in v] *)
Definition is_tag (v : string) : result bool :=
  Ok (negb (contains "+" v)).

(** [is_dev_tag = lambda v: v.split('.')[-1].startswith('dev')] *)
Definition is_dev_tag (v : string) : result bool :=
  last_part <-r index (split chr_dot v) (-1) ;;
  Ok (startswith last_part "dev").

(** [is_rc_tag = lambda v: 'rc' in v.split('+')[0]] *)
Definition is_rc_tag (v : string) : result bool :=
  base <-r index (split chr_plus v) 0 ;;
  Ok (contains "rc" base).

(** [is_release_tag = lambda v:
       is_tag(v) and not (is_rc_tag(v) or is_dev_tag(v))] *)
Definition is_release_tag (v : string) : result bool :=
  py_and (is_tag v) (py_not (py_or (is_rc_tag v) (is_dev_tag v))).

(* ================================================================== *)
(** ** Hosted files                                                    *)
(* ================================================================== *)

Module BinstarFile.

(** [class BinstarFile]: the constructor only stores [full_name]; every
    other attribute is a property computed from it on each read. *)
Record t : Type := new { full_name : string }.

Definition user (self : t) : result string :=
  index (split chr_slash (full_name self)) 0.

Definition name (self : t) : result string :=
  index (split chr_slash (full_name self)) 1.

Definition basename (self : t) : result string :=
  Ok (join "/" (skipn 3 (split chr_slash (full_name self)))).

Definition version (self : t) : result string :=
  index (split chr_slash (full_name self)) 2.

Definition platform (self : t) : result string :=
  index (split chr_slash (replace chr_backslash chr_slash (full_name self))) 3.

Definition configuration (self : t) : result string :=
  file <-r index (split chr_slash
                    (replace chr_backslash chr_slash (full_name self))) 4 ;;
  token <-r index (split chr_dash file) 2 ;;
  index (split chr_dot token) 0.

(** [__str__] *)
Definition str (self : t) : string := full_name self.

Definition all_info (self : t) : result string :=
  u <-r user self ;;
  n <-r name self ;;
  b <-r basename self ;;
  v <-r version self ;;
  p <-r platform self ;;
  c <-r configuration self ;;
  Ok (join newline
        [ "         user: " ++ u;
          "         name: " ++ n;
          "     basename: " ++ b;
          "      version: " ++ v;
          "     platform: " ++ p;
          "configuration: " ++ c ]).

End BinstarFile.

(** [configuration_from_binstar_filename = lambda fn:
       fn.split('-')[-1].split('.')[0]] *)
Definition configuration_from_binstar_filename (fn : string) : result string :=
  token <-r index (split chr_dash fn) (-1) ;;
  index (split chr_dot token) 0.

(** [name_from_binstar_filename = lambda fn: fn.split('-')[0]] *)
Definition name_from_binstar_filename (fn : string) : result string :=
  index (split chr_dash fn) 0.

(** [version_from_binstar_filename = lambda fn: fn.split('-')[1]] *)
Definition version_from_binstar_filename (fn : string) : result string :=
  index (split chr_dash fn) 1.



(* ================================================================== *)
(** ** The world outside the process                                   *)
(* ================================================================== *)

(** What the process writes on standard output: a [print]ed line, or a
    list handed to [pprint] (its layout is left to [pprint]). *)
Inductive output : Type :=
| Line (s : string)
| Pretty (items : list string).

(** The calls made on the hosting client, in the order they are made. *)
Inductive request : Type :=
| ShowChannel (channel owner : string)
| RemoveDist (owner package release basename : string).

(** The client object [get_binstar] returns, built from [LetMeIn(key)]. *)
Record client : Type := LetMeIn { token : string }.

(** The collaborators [condaci.py] calls and does not define: running a
    command ([subprocess]), the two methods of the hosting client that are
    used, and the host-dependent path of the [binstar] executable.
    [External] is the state of everything outside the process (the git
    checkout, the hosting service).
    - [run cmd x] is the state after the command, its exit status and what
      it wrote on its standard output;
    - [show_channel b channel owner x] is the [full_name] of each entry of
      [b.show_channel(channel, owner)['files']];
    - [remove_dist b owner package release basename x] is the effect of
      [b.remove_dist(...)];
    - [python3] is [sys.version_info.major == 3];
    - [windows] tells which module [os.path] is on the host: [ntpath] on
      Windows, [posixpath] elsewhere. *)
Class Outside : Type := {
  External : Type;
  run : list string -> External -> External * (Z * string);
  show_channel : client -> string -> string -> External -> result (list string);
  remove_dist : client -> string -> string -> string -> string ->
                External -> External * result unit;
  binstar : string -> string;
  python3 : bool;
  windows : bool
}.

(** [import os.path as p]: the module of the host. *)
Module os_path.

Definition split {O : Outside} (p : string) : string * string :=
  if windows then ntpath.split p else posixpath.split p.

End os_path.

(** [platform_from_binstar_filepath = lambda fp:
       p.split(p.split(fp)[0])[-1]] *)
Definition platform_from_binstar_filepath {O : Outside} (fp : string)
  : result string :=
  Ok (snd (os_path.split (fst (os_path.split fp)))).

Section Effects.

Context {O : Outside}.

Record World : Type := mkWorld {
  external : External;
  stdout : list output;
  requests : list request
}.

(** Computations that change the world and may raise; what was done
    before an exception stays done. *)
Definition M (A : Type) : Type := World -> World * result A.

Definition ret {A : Type} (a : A) : M A := fun w => (w, Ok a).

Definition raise {A : Type} (e : exn) : M A := fun w => (w, Raise e).

Definition bind {A B : Type} (m : M A) (k : A -> M B) : M B :=
  fun w =>
    let (w', r) := m w in
    match r with
    | Ok a => k a w'
    | Raise e => (w', Raise e)
    end.

Definition lift {A : Type} (r : result A) : M A := fun w => (w, r).

(** [try: m  except <the classes h accepts> as e: h e] *)
Definition try_except {A : Type} (m : M A) (h : exn -> option (M A)) : M A :=
  fun w =>
    let (w', r) := m w in
    match r with
    | Ok a => (w', Ok a)
    | Raise e =>
        match h e with
        | Some handler => handler w'
        | None => (w', Raise e)
        end
    end.

Definition print (s : string) : M unit :=
  fun w => (mkWorld (external w) (stdout w ++ [Line s])%list (requests w), Ok tt).

Definition pprint (items : list string) : M unit :=
  fun w => (mkWorld (external w) (stdout w ++ [Pretty items])%list (requests w), Ok tt).

Definition set_external (x : External) (w : World) : World :=
  mkWorld x (stdout w) (requests w).

Definition log_request (q : request) (w : World) : World :=
  mkWorld (external w) (stdout w) (requests w ++ [q])%list.

(** [check = partial(subprocess.check_call, stderr=subprocess.STDOUT)] *)
Definition check (cmd : list string) : M unit :=
  fun w =>
    let '(x, (status, _)) := run cmd (external w) in
    (set_external x w,
     if (status =? 0)%Z then Ok tt else Raise (CalledProcessError status cmd)).

(** [subprocess.check_output(cmd)] *)
Definition check_output (cmd : list string) : M string :=
  fun w =>
    let '(x, (status, out)) := run cmd (external w) in
    (set_external x w,
     if (status =? 0)%Z then Ok out else Raise (CalledProcessError status cmd)).

(** [b.show_channel(channel, user)], keeping the [full_name]s. *)
Definition call_show_channel (b : client) (channel user : string)
  : M (list string) :=
  fun w => (log_request (ShowChannel channel user) w,
            show_channel b channel user (external w)).

(** [b.remove_dist(owner, package, release, basename)] *)
Definition call_remove_dist (b : client)
           (owner package release base : string) : M unit :=
  fun w =>
    let (x, r) := remove_dist b owner package release base (external w) in
    (set_external x (log_request (RemoveDist owner package release base) w), r).

(** [for x in l: body(x)] *)
Fixpoint for_each {A : Type} (l : list A) (body : A -> M unit) : M unit :=
  match l with
  | [] => ret tt
  | x :: xs => bind (body x) (fun _ => for_each xs body)
  end.

End Effects.

Notation "x <- e ;; k" := (bind e (fun x => k))
  (at level 61, e at next level, right associativity).
Notation "e ;;; k" := (bind e (fun _ => k))
  (at level 61, right associativity).

(** [[f(x) for x in l if cond(x)]] when [cond] and [f] may raise: the
    elements are visited in order, [cond] before [f]. *)
Fixpoint comprehension {A B : Type}
         (f : A -> result B) (cond : A -> result bool) (l : list A)
  : result (list B) :=
  match l with
  | [] => Ok []
  | x :: xs =>
      c <-r cond x ;;
      if c then
        y <-r f x ;;
        ys <-r comprehension f cond xs ;;
        Ok (y :: ys)
      else comprehension f cond xs
  end.

(** [a == b] on two strings, the left one possibly raising. *)
Definition eq_str (a : result string) (b : string) : result bool :=
  x <-r a ;; Ok (String.eqb x b).

Definition ne_str (a : result string) (b : string) : result bool :=
  x <-r a ;; Ok (negb (String.eqb x b)).

(* ================================================================== *)
(** ** Versioning: the git fallback                                    *)
(* ================================================================== *)

(** The warning of [version_from_git_tags]. *)
Definition git_warning : string :=
  "warning - could not interpret version string from git - you "
  ++ "may have a non-PEP440 version string".

Section Versioning.

Context {O : Outside}.

(** [version_from_git_tags()] *)
Definition version_from_git_tags : M string :=
  out <- check_output ["git"; "describe"; "--tags"] ;;
  let raw := strip out in
  raw <- (if python3 then lift (decode raw) else ret raw) ;;
  c <- lift (first_char raw) ;;
  let raw := if Ascii.eqb (lower c) "v"%char then tail raw else raw in
  match unpack3 (split chr_dash raw) with
  | Raise ValueError => print git_warning ;;; ret raw
  | Raise e => raise e
  | Ok (v, n_commits, sha) => ret (v ++ "+" ++ n_commits ++ "." ++ sha)
  end.

End Versioning.

(* ================================================================== *)
(** ** Binstar integration                                             *)
(* ================================================================== *)

Section Binstar.

Context {O : Outside}.

(** [login_to_binstar_with_key(key)] *)
Definition login_to_binstar_with_key (key : string) : M client :=
  ret (LetMeIn key).

(** [binstar_files_on_channel(b, user, channel)] *)
Definition binstar_files_on_channel (b : client) (user channel : string)
  : M (list BinstarFile.t) :=
  info <- call_show_channel b channel user ;;
  ret (map BinstarFile.new info).

(** [binstar_remove_file(b, bfile)] *)
Definition binstar_remove_file (b : client) (bfile : BinstarFile.t) : M unit :=
  u <- lift (BinstarFile.user bfile) ;;
  n <- lift (BinstarFile.name bfile) ;;
  v <- lift (BinstarFile.version bfile) ;;
  base <- lift (BinstarFile.basename bfile) ;;
  call_remove_dist b u n v base.

(** The condition of the comprehension [files_to_remove] returns. *)
Definition to_remove_cond (name configuration platform_ version : string)
           (f : BinstarFile.t) : result bool :=
  py_and (eq_str (BinstarFile.name f) name)
 (py_and (eq_str (BinstarFile.configuration f) configuration)
 (py_and (eq_str (BinstarFile.platform f) platform_)
 (py_and (ne_str (BinstarFile.version f) version)
 (py_and (py_not (v <-r BinstarFile.version f ;; is_release_tag v))
         (v <-r BinstarFile.version f ;;
          same_version_different_build version v))))).

(** [files_to_remove(b, user, channel, filepath)] *)
Definition files_to_remove (b : client) (user channel filepath : string)
  : M (list BinstarFile.t) :=
  platform_ <- lift (platform_from_binstar_filepath filepath) ;;
  let filename := snd (os_path.split filepath) in
  name <- lift (name_from_binstar_filename filename) ;;
  version <- lift (version_from_binstar_filename filename) ;;
  configuration <- lift (configuration_from_binstar_filename filename) ;;
  all_files <- binstar_files_on_channel b user channel ;;
  print ("Removing old releases matching:" ++ newline
         ++ "name: " ++ name ++ newline
         ++ "configuration: " ++ configuration ++ newline
         ++ "platform: " ++ platform_ ++ newline
         ++ "version: " ++ version) ;;;
  print "candidate releases with same name are:" ;;;
  infos <- lift (comprehension BinstarFile.all_info
                   (fun f => eq_str (BinstarFile.name f) name) all_files) ;;
  pprint infos ;;;
  lift (comprehension (fun f => Ok f)
          (to_remove_cond name configuration platform_ version) all_files).

(** [purge_old_binstar_files(b, user, channel, filepath)] *)
Definition purge_old_binstar_files (b : client) (user channel filepath : string)
  : M unit :=
  to_remove <- files_to_remove b user channel filepath ;;
  print ("Found " ++ str_of_nat (List.length to_remove)
         ++ " releases to remove") ;;;
  for_each to_remove (fun old_file =>
    print ("Removing '" ++ BinstarFile.str old_file ++ "'") ;;;
    binstar_remove_file b old_file).

(** The command line [binstar_upload_unchecked] passes to [check]. *)
Definition upload_command (mc key user channel path : string) : list string :=
  [binstar mc; "-t"; key; "upload"; "--force"; "-u"; user; "-c"; channel; path].

(** [binstar_upload_unchecked(mc, key, user, channel, path)] *)
Definition binstar_upload_unchecked (mc key user channel path : string)
  : M unit :=
  try_except
    (check (upload_command mc key user channel path))
    (fun e =>
       match e with
       | CalledProcessError returncode cmd =>
           Some (cmd' <- lift (setitem cmd 2 "BINSTAR_KEY") ;;
                 raise (CalledProcessError returncode cmd'))
       | _ => None
       end).

(** [binstar_upload_and_purge(mc, key, user, channel, filepath)] *)
Definition binstar_upload_and_purge (mc key user channel filepath : string)
  : M unit :=
  print ("Uploading to " ++ user ++ "/" ++ channel) ;;;
  binstar_upload_unchecked mc key user channel filepath ;;;
  b <- login_to_binstar_with_key key ;;
  if negb (String.eqb channel "main") then
    print ("Purging old releases from channel '" ++ channel ++ "'") ;;;
    purge_old_binstar_files b user channel filepath
  else
    print "On main channel - no purging of releases will be done.".

End Binstar.

(* ================================================================== *)
(** ** An in-memory hosting service, to run the model on               *)
(* ================================================================== *)

Module Memory.

(** The outside is the list of [full_name]s hosted on the one channel
    looked at.  [git describe] succeeds and prints [describe]; any other
    command (the upload) exits with [upload_status] and changes nothing;
    [remove_dist] drops the entries it names. *)
Definition names_dist (owner package release base full : string) : bool :=
  let f := BinstarFile.new full in
  match BinstarFile.user f, BinstarFile.name f,
        BinstarFile.version f, BinstarFile.basename f with
  | Ok u, Ok n, Ok v, Ok b =>
      String.eqb u owner && String.eqb n package
      && String.eqb v release && String.eqb b base
  | _, _, _, _ => false
  end.

Definition host (py3 nt : bool) (describe : string) (upload_status : Z)
  : Outside := {|
  External := list string;
  run := fun cmd x =>
    match cmd with
    | "git" :: _ => (x, (0%Z, describe))
    | _ => (x, (upload_status, ""))
    end;
  show_channel := fun _ _ _ x => Ok x;
  remove_dist := fun _ owner package release base x =>
    (filter (fun full => negb (names_dist owner package release base full)) x,
     Ok tt);
  binstar := fun mc => mc ++ "/bin/binstar";
  python3 := py3;
  windows := nt
|}.

(** A Linux host with Python 3, and a Windows host with Python 2. *)
Definition outside (describe : string) (upload_status : Z) : Outside :=
  host true false describe upload_status.

Definition windows_outside (describe : string) (upload_status : Z) : Outside :=
  host false true describe upload_status.

Definition world (O : Outside) (x : @External O) : @World O :=
  mkWorld x [] [].

End Memory.

(** The retention scenario of the specification: the files hosted on the
    channel, and the path of the new artifact. *)
Definition hosted_example : list string :=
  [ "acme/widget/1.2.0+9.aaa/linux-64/widget-1.2.0+9.aaa-py27.tar.bz2";
    "acme/widget/1.3.0+1.ccc/linux-64/widget-1.3.0+1.ccc-py27.tar.bz2";
    "acme/widget/1.3.0+1.ccc/linux-64/widget-1.3.0+1.ccc-py36.tar.bz2";
    "acme/widget/1.3.0/linux-64/widget-1.3.0-py27.tar.bz2" ].

Definition filepath_example : string :=
  "/home/ci/miniconda/conda-bld/linux-64/widget-1.3.0+2.def-py27.tar.bz2".

(** The same scenario on a Windows host, whose build paths have a drive
    and backslashes. *)
Definition windows_hosted_example : list string :=
  [ "acme/widget/1.3.0+1.ccc/win-64/widget-1.3.0+1.ccc-py27.tar.bz2";
    "acme/widget/1.3.0+1.ccc/linux-64/widget-1.3.0+1.ccc-py27.tar.bz2";
    "acme/widget/1.3.0/win-64/widget-1.3.0-py27.tar.bz2" ].

Definition windows_filepath_example : string :=
  "C:\Miniconda\conda-bld\win-64\widget-1.3.0+2.def-py27.tar.bz2".

(** A package whose name has a [-]: the build that precedes the new one
    on the channel, and the path of the new one. *)
Definition scikit_learn_hosted : list string :=
  [ "acme/scikit-learn/0.15+1.abc/linux-64/scikit-learn-0.15+1.abc-py27.tar.bz2" ].

Definition scikit_learn_filepath : string :=
  "/home/ci/miniconda/conda-bld/linux-64/scikit-learn-0.15+2.def-py27.tar.bz2".

(** Hosted identifiers with a backslash in their fourth segment. *)
Definition shifted_identifier : string :=
  "acme/widget/1.0/win\64/widget-1.0-py27.tar.bz2".

Definition backslash_identifier : string :=
  "acme/widget/1.0/win\widget-1.0-py27.tar.bz2/extra".

(** A hosted identifier whose file name has a single [-]. *)
Definition two_token_identifier : string :=
  "acme/widget/1.0/linux-64/widget-1.0.tar.bz2".

(** Outputs of [git describe --tags]: three commits after the tag
    [v1.2.0], exactly at it, and after a tag whose name is not UTF-8 (its
    last byte is 0xFF). *)
Definition describe_after_tag : string := "v1.2.0-3-gabc1234" ++ newline.
Definition describe_at_tag : string := "v1.2.0" ++ newline.
Definition describe_not_utf8 : string :=
  "v1.2." ++ String (ascii_of_nat 255) newline.


(* ================================================================== *)
(** ** The vocabulary of the specification                             *)
(* ================================================================== *)

(** The specification speaks of "the pre-[+] portion" of a version, of its
    "last [.]-delimited component", of a string "containing" a character.
    These are defined here directly on strings, without [split], so that
    the code can be compared with them. *)
Module Spec.

(** [c] occurs in [s]. *)
Fixpoint has_char (c : ascii) (s : string) : bool :=
  match s with
  | EmptyString => false
  | String a s' => Ascii.eqb a c || has_char c s'
  end.

(** The number of occurrences of [c] in [s]. *)
Fixpoint count (c : ascii) (s : string) : nat :=
  match s with
  | EmptyString => 0
  | String a s' => (if Ascii.eqb a c then 1 else 0) + count c s'
  end.

(** The portion of [s] before the first [c] (all of [s] without one). *)
Fixpoint before_first (c : ascii) (s : string) : string :=
  match s with
  | EmptyString => EmptyString
  | String a s' => if Ascii.eqb a c then EmptyString
                   else String a (before_first c s')
  end.

(** The portion of [s] after the last [c] (all of [s] without one). *)
Fixpoint after_last (c : ascii) (s : string) : string :=
  match s with
  | EmptyString => EmptyString
  | String a s' =>
      if has_char c s' then after_last c s'
      else if Ascii.eqb a c then s' else s
  end.

(** The portion of [s] after the first [c] (nothing without one). *)
Fixpoint after_first (c : ascii) (s : string) : string :=
  match s with
  | EmptyString => EmptyString
  | String a s' => if Ascii.eqb a c then s' else after_first c s'
  end.

(** The [k]-th [c]-delimited token of [s], counted from 0, when [s] has
    that many. *)
Fixpoint token (c : ascii) (k : nat) (s : string) : option string :=
  match k with
  | O => Some (before_first c s)
  | S k' => if has_char c s then token c k' (after_first c s) else None
  end.

(** [sub] occurs in [s] as a substring. *)
Definition substring_of (sub s : string) : Prop :=
  exists pre post, s = pre ++ sub ++ post.

(** [s] starts with [p]. *)
Definition starts_with (s p : string) : Prop :=
  exists rest, s = p ++ rest.

(** [s] without one leading [v] or [V]. *)
Definition strip_v (s : string) : string :=
  match s with
  | String c s' =>
      if Ascii.eqb c "v"%char || Ascii.eqb c "V"%char then s' else s
  | EmptyString => EmptyString
  end.

(** A release tag: a tag that is neither a release candidate nor a
    development tag. *)
Definition release (v : string) : bool :=
  negb (has_char chr_plus v)
  && negb (contains "rc" (before_first chr_plus v)
           || startswith (after_last chr_dot v) "dev").

(** A field of a record was read and is [s]. *)
Definition field_is (r : result string) (s : string) : bool :=
  match r with
  | Ok x => String.eqb x s
  | Raise _ => false
  end.

(** The hosted record [f] is superseded by a new artifact with the given
    name, configuration, platform and version: same name, configuration
    and platform, a different version that is not a release tag and is on
    the release line of the new version. *)
Definition superseded (name configuration platform_ version : string)
           (f : BinstarFile.t) : bool :=
  field_is (BinstarFile.name f) name
  && field_is (BinstarFile.configuration f) configuration
  && field_is (BinstarFile.platform f) platform_
  && match BinstarFile.version f with
     | Ok v => negb (String.eqb v version)
               && negb (release v)
               && startswith v (before_first chr_plus version)
     | Raise _ => false
     end.

(** The [/]-delimited segments of a hosted identifier, and those of the
    identifier with its backslashes turned into [/]. *)
Definition segments (full_name : string) : list string :=
  split chr_slash full_name.

Definition normalized_segments (full_name : string) : list string :=
  split chr_slash (replace chr_backslash chr_slash full_name).

(** The segments of a hosted identifier delimited by [/] or by a
    backslash, either of them ending a segment. *)
Definition slash_or_backslash (c : ascii) : bool :=
  Ascii.eqb c chr_slash || Ascii.eqb c chr_backslash.

Fixpoint segments_either (full_name : string) : list string :=
  match full_name with
  | EmptyString => [EmptyString]
  | String c s' =>
      if slash_or_backslash c then EmptyString :: segments_either s'
      else match segments_either s' with
           | w :: ws => String c w :: ws
           | [] => [String c EmptyString]
           end
  end.

(** The configuration as the specification words it: the third
    [-]-delimited token of segment 4 of the [/]-delimited identifier, cut
    at its first [.]. *)
Definition configuration_of_segment_4 (full_name : string) : option string :=
  option_map (before_first chr_dot)
             (token chr_dash 2 (nth 4 (segments full_name) EmptyString)).

(** Every field of the hosted identifier can be read: it denotes an
    artifact record. *)
Definition is_record (full_name : string) : Prop :=
  exists info, BinstarFile.all_info (BinstarFile.new full_name) = Ok info.

(** A Windows path that begins with two separators names a network
    share; the others begin with a drive letter and [:], or with
    neither. *)
Definition begins_with_two_separators (path : string) : bool :=
  match path with
  | String a (String b _) => slash_or_backslash a && slash_or_backslash b
  | _ => false
  end.

(** [path] is the path of the file [filename] in a directory named
    [platform], on a host whose paths are Windows paths ([nt]) or POSIX
    paths.  On POSIX, [/] alone separates.  On Windows, [/] and backslash
    both do, a directory name holds no [:], and the paths of network
    shares are left out. *)
Definition is_build_path (nt : bool) (path platform filename : string)
  : Prop :=
  platform <> EmptyString
  /\ has_char chr_slash platform = false
  /\ has_char chr_slash filename = false
  /\ if nt then
       has_char chr_backslash platform = false
       /\ has_char ":"%char platform = false
       /\ has_char chr_backslash filename = false
       /\ begins_with_two_separators path = false
       /\ exists (dir : string) (s1 s2 : ascii),
           slash_or_backslash s1 = true
           /\ slash_or_backslash s2 = true
           /\ path = dir ++ String s1 (platform ++ String s2 filename)
     else
       exists dir : string, path = dir ++ "/" ++ platform ++ "/" ++ filename.

(** The fields of a new artifact, read from the name of its file
    [name-version-configuration.ext]: the name is what precedes the first
    [-], the version the second [-]-delimited token, the configuration
    what follows the last [-], cut at its first [.]. *)
Definition name_of_filename (filename : string) : string :=
  before_first chr_dash filename.

Definition version_of_filename (filename : string) : string :=
  before_first chr_dash (after_first chr_dash filename).

Definition configuration_of_filename (filename : string) : string :=
  before_first chr_dot (after_last chr_dash filename).

End Spec.

(* ================================================================== *)
(** ** Lemmas on the Python primitives                                 *)
(* ================================================================== *)

(* ================================================================== *)
(** ** The rest of [condaci.py] that can be embedded                   *)
(* ================================================================== *)

(** [KeyError], which a missing dictionary key raises, carried by the
    name of its class. *)
Definition KeyError : exn := Foreign "KeyError".

(** A dictionary literal with string keys and values, and [d[k]]. *)
Fixpoint getitem (d : list (string * string)) (k : string) : result string :=
  match d with
  | [] => Raise KeyError
  | (k', v) :: d' => if String.eqb k' k then Ok v else getitem d' k
  end.

(** [os.environ], read by name: the functions below take it as an argument
    where the source reads the global. *)
Definition environ : Type := string -> option string.

(** [k in os.environ] *)
Definition env_has (env : environ) (k : string) : bool :=
  match env k with
  | Some _ => true
  | None => false
  end.

(** [os.environ[k]] *)
Definition env_get (env : environ) (k : string) : result string :=
  match env k with
  | Some v => Ok v
  | None => Raise KeyError
  end.

(** [os.environ[k] = v] *)
Definition env_set (env : environ) (k v : string) : environ :=
  fun k' => if String.eqb k' k then Some v else env k'.

(** [str(b)] for a boolean, as [format] prints it. *)
Definition str_of_bool (b : bool) : string := if b then "True" else "False".

(** [host_arch()], with [stdplatform.system()] and
    [stdplatform.architecture()[0]] given.  On an unrecognised [PLATFORM]
    the argument of [print] is ['...{}'.format()], a replacement field
    with no argument to fill it: the formatting raises [IndexError] and
    nothing is printed. *)
Definition host_arch (system architecture : string) (env : environ)
  : result string :=
  let arch := architecture in
  if String.eqb system "Windows" then
    if env_has env "APPVEYOR" then
      av_platform <-r env_get env "PLATFORM" ;;
      if String.eqb av_platform "x86" then Ok "32bit"
      else if String.eqb av_platform "x64" then Ok "64bit"
      else Raise IndexError
    else Ok arch
  else Ok arch.

(** [url_for_platform_version(platform, py_version, arch)] *)
Definition url_for_platform_version (platform py_version arch : string)
  : result string :=
  let version := "latest" in
  let base_url := "http://repo.continuum.io/miniconda/Miniconda" in
  let platform_str := [("Linux", "Linux"); ("Darwin", "MacOSX");
                       ("Windows", "Windows")] in
  let arch_str := [("64bit", "x86_64"); ("32bit", "x86")] in
  let ext := [("Linux", ".sh"); ("Darwin", ".sh"); ("Windows", ".exe")] in
  base_url <-r (if String.eqb py_version "3.4" then Ok (base_url ++ "3")
                else if negb (String.eqb py_version "2.7") then Raise ValueError
                else Ok base_url) ;;
  p <-r getitem platform_str platform ;;
  a <-r getitem arch_str arch ;;
  e <-r getitem ext platform ;;
  Ok (join "-" [base_url; version; p; a] ++ e).

(** The keys of the dictionaries of [url_for_platform_version], and the
    Python versions it accepts. *)
Definition known_platform (platform : string) : Prop :=
  platform = "Linux" \/ platform = "Darwin" \/ platform = "Windows".

Definition known_arch (arch : string) : Prop :=
  arch = "64bit" \/ arch = "32bit".

Definition known_python (py_version : string) : Prop :=
  py_version = "2.7" \/ py_version = "3.4".

(** [is_on_appveyor = lambda: 'APPVEYOR' in os.environ] *)
Definition is_on_appveyor (env : environ) : bool := env_has env "APPVEYOR".

(** [is_on_travis = lambda: 'TRAVIS' in os.environ] *)
Definition is_on_travis (env : environ) : bool := env_has env "TRAVIS".

(** [is_pr_from_travis = lambda:
       os.environ['TRAVIS_PULL_REQUEST'] != 'false'] *)
Definition is_pr_from_travis (env : environ) : result bool :=
  ne_str (env_get env "TRAVIS_PULL_REQUEST") "false".

(** [is_pr_from_appveyor = lambda:
       'APPVEYOR_PULL_REQUEST_NUMBER' in os.environ] *)
Definition is_pr_from_appveyor (env : environ) : bool :=
  env_has env "APPVEYOR_PULL_REQUEST_NUMBER".

(** [branch_from_appveyor = lambda: os.environ['APPVEYOR_REPO_BRANCH']] *)
Definition branch_from_appveyor (env : environ) : result string :=
  env_get env "APPVEYOR_REPO_BRANCH".

(** [is_pr_on_ci()] *)
Definition is_pr_on_ci (env : environ) : result bool :=
  if is_on_travis env then is_pr_from_travis env
  else if is_on_appveyor env then Ok (is_pr_from_appveyor env)
  else Raise ValueError.

Definition travis_tag_warning : string :=
  "WARNING - on travis and TRAVIS_TAG == TRAVIS_BRANCH. This "
  ++ "suggests that we are building a tag.".

Definition dquote : string := String (ascii_of_nat 34) EmptyString.

Definition travis_master_warning : string :=
  "Travis obscures the branch in this scenario, so we assume that"
  ++ " the branch is " ++ dquote ++ "master" ++ dquote.

Definition versioneer_warning : string :=
  "WARNING: found no or multiple versioneer _version.py files - "
  ++ "falling back to interrogate git manually for version".

Section ContinuousIntegration.

Context {O : Outside}.

(** [branch_from_travis()] *)
Definition branch_from_travis (env : environ) : M string :=
  tag <- lift (env_get env "TRAVIS_TAG") ;;
  branch <- lift (env_get env "TRAVIS_BRANCH") ;;
  if String.eqb tag branch then
    print travis_tag_warning ;;;
    print travis_master_warning ;;;
    ret "master"
  else ret branch.

(** [branch_from_ci()] *)
Definition branch_from_ci (env : environ) : M string :=
  if is_on_travis env then branch_from_travis env
  else if is_on_appveyor env then lift (branch_from_appveyor env)
  else raise ValueError.

(** [resolve_can_upload_from_ci()] *)
Definition resolve_can_upload_from_ci (env : environ) : M bool :=
  pr <- lift (is_pr_on_ci env) ;;
  let can_upload := negb pr in
  print ("Can we can upload? : " ++ str_of_bool can_upload) ;;;
  ret can_upload.

(** [versions_from_versioneer()], consumed by [list].  What importing a
    [_version.py] gives cannot be embedded; [found] holds, for each
    directory with such a file, in the order of [os.walk], the version
    the module reports ([inl]) or the message of the exception the
    attempt raised ([inr]), which the generator prints and skips. *)
Fixpoint versions_from_versioneer (found : list (string + string))
  : M (list string) :=
  match found with
  | [] => ret []
  | inl v :: rest =>
      vs <- versions_from_versioneer rest ;;
      ret (v :: vs)
  | inr message :: rest =>
      print message ;;;
      versions_from_versioneer rest
  end.

(** [get_version()] *)
Definition get_version (found : list (string + string)) : M string :=
  versions <- versions_from_versioneer found ;;
  if Nat.eqb (List.length versions) 1 then
    version <- lift (index versions 0) ;;
    print ("found single unambiguous versioneer version: " ++ version) ;;;
    ret version
  else
    print versioneer_warning ;;;
    version_from_git_tags.

(** [set_condaci_version()]; the result is [os.environ] afterwards. *)
Definition set_condaci_version (found : list (string + string))
           (env : environ) : M environ :=
  try_except
    (v <- get_version found ;; ret (env_set env "CONDACI_VERSION" v))
    (fun e =>
       match e with
       | CalledProcessError _ _ =>
           Some (print "Warning - unable to set CONDACI_VERSION" ;;; ret env)
       | _ => None
       end).

(** [binstar_channel_from_ci()] *)
Definition binstar_channel_from_ci (found : list (string + string))
           (env : environ) : M string :=
  v <- get_version found ;;
  release <- lift (is_release_tag v) ;;
  if release then
    v' <- get_version found ;;
    print ("current head is a tagged release (" ++ v' ++ "), "
           ++ "uploading to 'main' channel") ;;;
    ret "main"
  else
    print ("current head is not a release - interrogating CI to decide on "
           ++ "channel to upload to (based on branch)") ;;;
    branch_from_ci env.

(** [binstar_upload_if_appropriate(mc, path, user, key, channel=None)].
    [None] is [None]; [get_conda_build_path], which asks [conda_build] for
    the path of the package built from the recipe, is given. *)
Definition binstar_upload_if_appropriate
           (get_conda_build_path : string -> result string)
           (found : list (string + string)) (env : environ)
           (mc path : string) (user key channel : option string) : M unit :=
  (match key with
   | None => print "No binstar key provided"
   | Some _ => ret tt
   end) ;;;
  (match user with
   | None => print "No binstar user provided"
   | Some _ => ret tt
   end) ;;;
  match user, key with
  | Some user, Some key =>
      print ("Have a user (" ++ user ++ ") and key - can upload if suitable") ;;;
      can_upload <- resolve_can_upload_from_ci env ;;
      if can_upload then
        channel <- (match channel with
                    | None =>
                        print ("No upload channel provided - auto resolving "
                               ++ "channel based on release type and CI status") ;;;
                        binstar_channel_from_ci found env
                    | Some c => ret c
                    end) ;;
        print ("Fit to upload to channel '" ++ channel ++ "'") ;;;
        filepath <- lift (get_conda_build_path path) ;;
        binstar_upload_and_purge mc key user channel filepath
      else
        print "Cannot upload to binstar - must be a PR."
  | _, _ => print "-> Unable to upload to binstar"
  end.

End ContinuousIntegration.

(** The versions the attempts of [found] report, and the messages of those
    that fail. *)
Definition versions_of (found : list (string + string)) : list string :=
  flat_map (fun a => match a with inl v => [v] | inr _ => [] end) found.

Definition messages_of (found : list (string + string)) : list output :=
  flat_map (fun a => match a with inl _ => [] | inr m => [Line m] end) found.

(** The environment of a Travis build, of an AppVeyor build, and of
    neither, for the examples. *)
Definition env_of (vars : list (string * string)) : environ :=
  fun k => match getitem vars k with Ok v => Some v | Raise _ => None end.

(** The names of an artifact as the specification lays them out: the
    file [name-version-configuration.ext] and the identifier it is hosted
    under. *)
Definition artifact_filename (name version configuration ext : string) : string :=
  name ++ "-" ++ version ++ "-" ++ configuration ++ "." ++ ext.

Definition hosted_identifier (user name version platform filename : string)
  : string :=
  user ++ "/" ++ name ++ "/" ++ version ++ "/" ++ platform ++ "/" ++ filename.

(** A string that can be a segment of an identifier (no [/], no
    backslash), and one that can be a token of a filename (no [-]
    either). *)
Definition segment_ok (s : string) : Prop :=
  Spec.has_char chr_slash s = false /\ Spec.has_char chr_backslash s = false.

Definition token_ok (s : string) : Prop :=
  segment_ok s /\ Spec.has_char chr_dash s = false.

Definition artifact_ok (user name version configuration ext platform : string)
  : Prop :=
  segment_ok user /\ token_ok name /\ token_ok version
  /\ token_ok configuration /\ Spec.has_char chr_dot configuration = false
  /\ token_ok ext /\ segment_ok platform /\ platform <> EmptyString.

(** The identifier splits into the given segments, with or without the
    normalization of backslashes. *)
Definition normalized_and_plain_segments_agree
           (full_name : string) (segs : list string) : Prop :=
  Spec.segments full_name = segs /\ Spec.normalized_segments full_name = segs.

(** A Travis build of the tag [v1.2.0] that is not a pull request, one of
    the branch [develop], and an AppVeyor build of a pull request. *)
Definition travis_tag_build : environ :=
  env_of [("TRAVIS", "true"); ("TRAVIS_PULL_REQUEST", "false");
          ("TRAVIS_TAG", "v1.2.0"); ("TRAVIS_BRANCH", "v1.2.0")].

Definition travis_branch_build : environ :=
  env_of [("TRAVIS", "true"); ("TRAVIS_PULL_REQUEST", "false");
          ("TRAVIS_TAG", ""); ("TRAVIS_BRANCH", "develop")].

Definition appveyor_pull_request : environ :=
  env_of [("APPVEYOR", "True"); ("APPVEYOR_PULL_REQUEST_NUMBER", "12");
          ("APPVEYOR_REPO_BRANCH", "master")].

(** The request [binstar_remove_file] makes for a record. *)
Definition field (r : result string) : string :=
  match r with
  | Ok s => s
  | Raise _ => EmptyString
  end.

Definition removal_request (f : BinstarFile.t) : request :=
  RemoveDist (field (BinstarFile.user f)) (field (BinstarFile.name f))
             (field (BinstarFile.version f)) (field (BinstarFile.basename f)).

(** The deletions of the records [l], asked one after the other of the
    hosting service in the state [x], all return normally. *)
Fixpoint deletions_succeed {O : Outside} (b : client)
         (l : list BinstarFile.t) (x : External) : Prop :=
  match l with
  | [] => True
  | f :: l' =>
      snd (remove_dist b (field (BinstarFile.user f))
             (field (BinstarFile.name f)) (field (BinstarFile.version f))
             (field (BinstarFile.basename f)) x) = Ok tt
      /\ deletions_succeed b l'
           (fst (remove_dist b (field (BinstarFile.user f))
                   (field (BinstarFile.name f)) (field (BinstarFile.version f))
                   (field (BinstarFile.basename f)) x))
  end.

(** Closes a conjunction of equations that hold by evaluation. *)
Ltac by_evaluation := repeat apply conj; reflexivity.

Section IndexLemmas.

Context {A : Type}.
Implicit Types (l : list A) (k : nat).

Lemma index_nat l k :
  index l (Z.of_nat k) =
  match nth_error l k with
  | Some a => Ok a
  | None => Raise IndexError
  end.
Proof.
  unfold index.
  destruct (Z.ltb_spec (Z.of_nat k) 0) as [Hneg | _]; [lia |].
  destruct (Nat.lt_ge_cases k (List.length l)) as [Hlt | Hge].
  - replace (0 <=? Z.of_nat k)%Z with true by (symmetry; apply Z.leb_le; lia).
    replace (Z.of_nat k <? Z.of_nat (List.length l))%Z with true
      by (symmetry; apply Z.ltb_lt; lia).
    simpl. now rewrite Nat2Z.id.
  - replace (Z.of_nat k <? Z.of_nat (List.length l))%Z with false
      by (symmetry; apply Z.ltb_ge; lia).
    rewrite andb_false_r.
    apply nth_error_None in Hge. now rewrite Hge.
Qed.

Lemma index_in_range l k d :
  k < List.length l -> index l (Z.of_nat k) = Ok (nth k l d).
Proof.
  intros Hlt. rewrite index_nat.
  now rewrite (nth_error_nth' l d Hlt).
Qed.

Lemma index_out_of_range l k :
  List.length l <= k -> index l (Z.of_nat k) = Raise IndexError.
Proof.
  intros Hge. rewrite index_nat.
  apply nth_error_None in Hge. now rewrite Hge.
Qed.

Lemma index_zero l :
  index l 0 = match l with x :: _ => Ok x | [] => Raise IndexError end.
Proof. change 0%Z with (Z.of_nat 0). rewrite index_nat. now destruct l. Qed.

Lemma nth_error_last l d :
  l <> [] -> nth_error l (List.length l - 1) = Some (last l d).
Proof.
  induction l as [| x [| y t] IH]; intros Hne.
  - contradiction.
  - reflexivity.
  - specialize (IH ltac:(discriminate)).
    simpl in IH |- *. now rewrite Nat.sub_0_r in IH.
Qed.

Lemma index_minus_one l d :
  l <> [] -> index l (-1) = Ok (last l d).
Proof.
  intros Hne. unfold index.
  assert (Hlen : 0 < List.length l) by (destruct l; [contradiction | simpl; lia]).
  change (-1 <? 0)%Z with true. cbv iota.
  replace (0 <=? Z.of_nat (List.length l) + -1)%Z with true
    by (symmetry; apply Z.leb_le; lia).
  replace (Z.of_nat (List.length l) + -1 <? Z.of_nat (List.length l))%Z with true
    by (symmetry; apply Z.ltb_lt; lia).
  simpl andb. cbv iota.
  replace (Z.to_nat (Z.of_nat (List.length l) + -1)) with (List.length l - 1) by lia.
  now rewrite (nth_error_last l d Hne).
Qed.

End IndexLemmas.

Section SplitLemmas.

Variable sep : ascii.

Lemma split_cons s : exists w ws, split sep s = w :: ws.
Proof.
  destruct s as [| c s']; simpl.
  - now exists EmptyString, [].
  - destruct (Ascii.eqb c sep).
    + now exists EmptyString, (split sep s').
    + destruct (split sep s') as [| w ws].
      * now exists (String c EmptyString), [].
      * now exists (String c w), ws.
Qed.

Lemma split_not_nil s : split sep s <> [].
Proof. destruct (split_cons s) as (w & ws & ->). discriminate. Qed.

Lemma length_split s : List.length (split sep s) = S (Spec.count sep s).
Proof.
  induction s as [| c s' IH]; simpl; [reflexivity |].
  destruct (Ascii.eqb c sep); simpl.
  - now rewrite IH.
  - destruct (split_cons s') as (w & ws & E). rewrite E in IH |- *.
    exact IH.
Qed.

Lemma has_char_count s : Spec.has_char sep s = negb (Nat.eqb (Spec.count sep s) 0).
Proof.
  induction s as [| c s' IH]; simpl; [reflexivity |].
  destruct (Ascii.eqb c sep); simpl; [reflexivity | exact IH].
Qed.

Lemma split_no_sep s : Spec.has_char sep s = false -> split sep s = [s].
Proof.
  induction s as [| c s' IH]; simpl; [reflexivity |].
  destruct (Ascii.eqb c sep); simpl; [discriminate |].
  intros H. now rewrite (IH H).
Qed.

Lemma split_with_sep s :
  Spec.has_char sep s = true -> exists w x ws, split sep s = w :: x :: ws.
Proof.
  intros H.
  pose proof (length_split s) as L.
  rewrite has_char_count in H.
  destruct (Spec.count sep s) as [| n]; [discriminate |].
  destruct (split sep s) as [| w [| x ws]]; try discriminate.
  now exists w, x, ws.
Qed.

(** [split] peels off what precedes the first separator. *)
Lemma split_unfold s :
  split sep s
  = Spec.before_first sep s
    :: (if Spec.has_char sep s then split sep (Spec.after_first sep s)
        else []).
Proof.
  induction s as [| c s' IH]; [reflexivity |].
  cbn [split Spec.before_first Spec.has_char Spec.after_first].
  destruct (Ascii.eqb c sep); [reflexivity |].
  cbn [orb]. now rewrite IH.
Qed.

Lemma nth_error_split k : forall s,
  nth_error (split sep s) k = Spec.token sep k s.
Proof.
  induction k as [| k IH]; intros s; rewrite split_unfold; [reflexivity |].
  cbn [nth_error Spec.token].
  destruct (Spec.has_char sep s); [apply IH | now destruct k].
Qed.

Lemma hd_split s : hd EmptyString (split sep s) = Spec.before_first sep s.
Proof.
  induction s as [| c s' IH]; simpl; [reflexivity |].
  destruct (Ascii.eqb c sep); [reflexivity |].
  destruct (split_cons s') as (w & ws & E). rewrite E in IH |- *.
  simpl in IH |- *. now rewrite IH.
Qed.

Lemma last_split s : last (split sep s) EmptyString = Spec.after_last sep s.
Proof.
  induction s as [| c s' IH]; [reflexivity |].
  cbn [split Spec.after_last].
  destruct (Spec.has_char sep s') eqn:Hhas.
  - destruct (split_with_sep s' Hhas) as (w & x & ws & E).
    rewrite E in IH |- *.
    destruct (Ascii.eqb c sep); exact IH.
  - rewrite (split_no_sep s' Hhas).
    destruct (Ascii.eqb c sep); reflexivity.
Qed.

(** [s.split(sep)[0]] is the portion of [s] before the first [sep]. *)
Lemma index_split_first s :
  index (split sep s) 0 = Ok (Spec.before_first sep s).
Proof.
  rewrite index_zero, <- hd_split.
  destruct (split_cons s) as (w & ws & ->). reflexivity.
Qed.

(** [s.split(sep)[-1]] is the portion of [s] after the last [sep]. *)
Lemma index_split_token k s :
  index (split sep s) (Z.of_nat k)
  = match Spec.token sep k s with
    | Some t => Ok t
    | None => Raise IndexError
    end.
Proof. now rewrite index_nat, nth_error_split. Qed.

Lemma index_split_last s :
  index (split sep s) (-1) = Ok (Spec.after_last sep s).
Proof.
  rewrite (index_minus_one _ EmptyString (split_not_nil s)).
  now rewrite last_split.
Qed.

(** Joining the parts gives the string back. *)
Lemma join_split s : join (String sep EmptyString) (split sep s) = s.
Proof.
  unfold join.
  induction s as [| c s' IH]; [reflexivity |].
  cbn [split].
  destruct (Ascii.eqb_spec c sep) as [-> | Hne].
  - destruct (split_cons s') as (w & ws & E). rewrite E in IH |- *.
    change (String.concat (String sep EmptyString) (EmptyString :: w :: ws))
      with (String sep (String.concat (String sep EmptyString) (w :: ws))).
    now rewrite IH.
  - destruct (split_cons s') as (w & ws & E). rewrite E in IH |- *.
    destruct ws as [| x ws].
    + simpl in IH |- *. now rewrite IH.
    + change (String.concat (String sep EmptyString) (String c w :: x :: ws))
        with (String c (String.concat (String sep EmptyString) (w :: x :: ws))).
      now rewrite IH.
Qed.

Lemma split_app_sep x r :
  Spec.has_char sep x = false ->
  split sep (x ++ String sep r) = x :: split sep r.
Proof.
  induction x as [| c x' IH]; simpl.
  - intros _. now rewrite Ascii.eqb_refl.
  - destruct (Ascii.eqb c sep); simpl; [discriminate |].
    intros H. now rewrite (IH H).
Qed.

(** Parts without [sep], joined and split again, are the same parts. *)
Lemma split_join l :
  l <> [] ->
  Forall (fun x => Spec.has_char sep x = false) l ->
  split sep (join (String sep EmptyString) l) = l.
Proof.
  unfold join.
  induction l as [| x [| y t] IH]; intros Hne Hall.
  - contradiction.
  - simpl. apply split_no_sep. now inversion Hall.
  - inversion Hall as [| ? ? Hx Ht]; subst.
    change (String.concat (String sep EmptyString) (x :: y :: t))
      with (x ++ String sep (String.concat (String sep EmptyString) (y :: t))).
    rewrite (split_app_sep _ _ Hx).
    now rewrite (IH ltac:(discriminate) Ht).
Qed.

(** What [Spec.before_first] and [Spec.after_last] are. *)
Lemma before_first_spec s :
  Spec.has_char sep (Spec.before_first sep s) = false
  /\ (s = Spec.before_first sep s
      \/ exists rest, s = Spec.before_first sep s ++ String sep rest).
Proof.
  induction s as [| c s' [IH1 IH2]]; simpl.
  - split; [reflexivity | now left].
  - destruct (Ascii.eqb_spec c sep) as [-> | Hne]; simpl.
    + split; [reflexivity |]. right. now exists s'.
    + apply Ascii.eqb_neq in Hne. rewrite Hne. split; [exact IH1 |].
      destruct IH2 as [E | (rest & E)].
      * left. now rewrite <- E.
      * right. exists rest. now rewrite <- E.
Qed.

Lemma after_last_no_sep s :
  Spec.has_char sep s = false -> Spec.after_last sep s = s.
Proof.
  destruct s as [| c s']; simpl; [reflexivity |].
  destruct (Ascii.eqb c sep); simpl; [discriminate |].
  now intros ->.
Qed.

Lemma after_last_spec s :
  Spec.has_char sep (Spec.after_last sep s) = false
  /\ (s = Spec.after_last sep s
      \/ exists pre, s = pre ++ String sep (Spec.after_last sep s)).
Proof.
  induction s as [| c s' [IH1 IH2]].
  - split; [reflexivity | now left].
  - cbn [Spec.after_last].
    destruct (Spec.has_char sep s') eqn:Hhas.
    + split; [exact IH1 |]. right.
      destruct IH2 as [E | (pre & E)].
      * rewrite <- E in IH1. congruence.
      * exists (String c pre). simpl. now rewrite <- E.
    + destruct (Ascii.eqb_spec c sep) as [-> | Hne].
      * split; [exact Hhas |]. right. now exists EmptyString.
      * split; [| now left].
        simpl. apply Ascii.eqb_neq in Hne. now rewrite Hne.
Qed.

End SplitLemmas.

Lemma startswith_iff s p : startswith s p = true <-> Spec.starts_with s p.
Proof.
  unfold Spec.starts_with. revert s.
  induction p as [| a p' IH]; intros s.
  - destruct s; simpl; (split; [intros _; now eexists | reflexivity]).
  - destruct s as [| b s']; simpl.
    + split; [discriminate | intros (rest & E); discriminate].
    + rewrite andb_true_iff, IH. split.
      * intros [Hab (rest & ->)]. apply Ascii.eqb_eq in Hab. subst.
        now exists rest.
      * intros (rest & E). injection E as -> ->.
        split; [apply Ascii.eqb_refl | now exists rest].
Qed.

Lemma startswith_refl s : startswith s s = true.
Proof. apply startswith_iff. exists EmptyString. induction s; simpl; congruence. Qed.

Lemma startswith_app p rest : startswith (p ++ rest) p = true.
Proof. apply startswith_iff. now exists rest. Qed.

Lemma contains_iff sub s : contains sub s = true <-> Spec.substring_of sub s.
Proof.
  unfold Spec.substring_of.
  induction s as [| a s' IH].
  - cbn [contains]. rewrite orb_false_r, startswith_iff. split.
    + intros (rest & E). now exists EmptyString, rest.
    + intros (pre & post & E). destruct pre; [| discriminate].
      now exists post.
  - cbn [contains]. rewrite orb_true_iff, startswith_iff, IH. split.
    + intros [(rest & E) | (pre & post & E)].
      * now exists EmptyString, rest.
      * exists (String a pre), post. simpl. now rewrite E.
    + intros (pre & post & E). destruct pre as [| b pre'].
      * left. now exists post.
      * right. simpl in E. injection E as _ E. now exists pre', post.
Qed.

(** ['+' in v]: [contains] with a one-character string is occurrence of
    that character. *)
Lemma contains_char c s :
  contains (String c EmptyString) s = Spec.has_char c s.
Proof.
  induction s as [| a s' IH]; [reflexivity |].
  cbn [contains Spec.has_char startswith]. rewrite IH.
  replace (startswith s' EmptyString) with true by now destruct s'.
  now rewrite andb_true_r, Ascii.eqb_sym.
Qed.

Lemma has_char_In c s :
  Spec.has_char c s = true <-> In c (list_ascii_of_string s).
Proof.
  induction s as [| a s' IH]; simpl.
  - split; [discriminate | contradiction].
  - rewrite orb_true_iff, IH, Ascii.eqb_eq. reflexivity.
Qed.

Lemma lower_is_v c :
  Ascii.eqb (lower c) "v"%char
  = (Ascii.eqb c "v"%char || Ascii.eqb c "V"%char).
Proof. destruct c as [[] [] [] [] [] [] [] []]; reflexivity. Qed.

Lemma count_replace_backslash s :
  Spec.count chr_slash s
  <= Spec.count chr_slash (replace chr_backslash chr_slash s).
Proof.
  induction s as [| a s' IH]; simpl; [lia |].
  destruct (Ascii.eqb_spec a chr_backslash) as [-> | Hne].
  - simpl. lia.
  - destruct (Ascii.eqb a chr_slash); simpl; lia.
Qed.

Lemma replace_no_backslash s :
  Spec.has_char chr_backslash s = false ->
  replace chr_backslash chr_slash s = s.
Proof.
  induction s as [| a s' IH]; simpl; [reflexivity |].
  destruct (Ascii.eqb a chr_backslash); simpl; [discriminate |].
  intros H. now rewrite (IH H).
Qed.

Section ComprehensionLemmas.

Context {A B : Type}.

Lemma comprehension_filter (cond : A -> result bool) (p : A -> bool) l :
  (forall x, In x l -> cond x = Ok (p x)) ->
  comprehension (fun x => Ok x) cond l = Ok (filter p l).
Proof.
  induction l as [| x xs IH]; intros H; simpl; [reflexivity |].
  rewrite (H x (or_introl eq_refl)). simpl.
  rewrite (IH (fun y Hy => H y (or_intror Hy))).
  now destruct (p x).
Qed.

Lemma comprehension_ok (f : A -> result B) (cond : A -> result bool) l :
  (forall x, In x l ->
     exists c, cond x = Ok c /\ (c = true -> exists y, f x = Ok y)) ->
  exists ys, comprehension f cond l = Ok ys.
Proof.
  induction l as [| x xs IH]; intros H; simpl; [now eexists |].
  destruct (H x (or_introl eq_refl)) as (c & -> & Hf).
  destruct (IH (fun y Hy => H y (or_intror Hy))) as (ys & Eys).
  destruct c; simpl.
  - destruct (Hf eq_refl) as (y & ->). simpl. rewrite Eys. simpl. now eexists.
  - now exists ys.
Qed.

End ComprehensionLemmas.

(* ================================================================== *)
(** ** The classifiers                                                 *)
(* ================================================================== *)

Lemma is_tag_eq v : is_tag v = Ok (negb (Spec.has_char chr_plus v)).
Proof. unfold is_tag. now rewrite <- (contains_char chr_plus v). Qed.

Lemma is_rc_tag_eq v :
  is_rc_tag v = Ok (contains "rc" (Spec.before_first chr_plus v)).
Proof. unfold is_rc_tag. now rewrite index_split_first. Qed.

Lemma is_dev_tag_eq v :
  is_dev_tag v = Ok (startswith (Spec.after_last chr_dot v) "dev").
Proof. unfold is_dev_tag. now rewrite index_split_last. Qed.

Lemma is_release_tag_eq v : is_release_tag v = Ok (Spec.release v).
Proof.
  unfold is_release_tag, Spec.release.
  rewrite is_tag_eq, is_rc_tag_eq, is_dev_tag_eq. simpl.
  destruct (Spec.has_char chr_plus v); simpl; [reflexivity |].
  destruct (contains "rc" (Spec.before_first chr_plus v)); reflexivity.
Qed.

Lemma same_version_different_build_eq v1 v2 :
  same_version_different_build v1 v2
  = Ok (startswith v2 (Spec.before_first chr_plus v1)).
Proof. unfold same_version_different_build. now rewrite index_split_first. Qed.

Lemma before_first_prefix c s : startswith s (Spec.before_first c s) = true.
Proof.
  destruct (before_first_spec c s) as [_ [E | (rest & E)]].
  - rewrite E at 1. apply startswith_refl.
  - rewrite E at 1. apply startswith_app.
Qed.

Lemma is_tag_iff v :
  is_tag v = Ok true <-> ~ In chr_plus (list_ascii_of_string v).
Proof.
  rewrite is_tag_eq, <- has_char_In.
  destruct (Spec.has_char chr_plus v); simpl; split.
  - discriminate.
  - intros H. now contradiction H.
  - intros _. discriminate.
  - reflexivity.
Qed.

Lemma is_rc_tag_iff v :
  is_rc_tag v = Ok true
  <-> Spec.substring_of "rc" (Spec.before_first chr_plus v).
Proof.
  rewrite is_rc_tag_eq, <- contains_iff. split; congruence.
Qed.

Lemma is_dev_tag_iff v :
  is_dev_tag v = Ok true
  <-> Spec.starts_with (Spec.after_last chr_dot v) "dev".
Proof.
  rewrite is_dev_tag_eq, <- startswith_iff. split; congruence.
Qed.

Lemma is_release_tag_iff v :
  is_release_tag v = Ok true
  <-> is_tag v = Ok true
      /\ ~ (is_rc_tag v = Ok true \/ is_dev_tag v = Ok true).
Proof.
  rewrite is_release_tag_eq, is_tag_eq, is_rc_tag_eq, is_dev_tag_eq.
  unfold Spec.release.
  destruct (Spec.has_char chr_plus v),
           (contains "rc" (Spec.before_first chr_plus v)),
           (startswith (Spec.after_last chr_dot v) "dev"); simpl;
    intuition congruence.
Qed.

(** C2. For every version string [v]: [is_tag(v)] is true iff [v] contains
    no [+]; [is_rc_tag(v)] is true iff the portion of [v] before the first
    [+] contains the substring [rc]; [is_dev_tag(v)] is true iff the last
    [.]-delimited component of [v] starts with [dev]; and
    [is_release_tag(v)] is true iff [is_tag(v)] holds and neither
    [is_rc_tag(v)] nor [is_dev_tag(v)] does.  In particular ["1.2.0"] is a
    release tag while ["1.2.0rc1"], ["1.2.0.dev3"] and ["1.2.0+5.abcdef"]
    are not. *)
Theorem release_tag_classification :
  (forall v : string,
      (is_tag v = Ok true <-> ~ In chr_plus (list_ascii_of_string v))
      /\ (is_rc_tag v = Ok true
          <-> Spec.substring_of "rc" (Spec.before_first chr_plus v))
      /\ (is_dev_tag v = Ok true
          <-> Spec.starts_with (Spec.after_last chr_dot v) "dev")
      /\ (is_release_tag v = Ok true
          <-> is_tag v = Ok true
              /\ ~ (is_rc_tag v = Ok true \/ is_dev_tag v = Ok true)))
  /\ is_release_tag "1.2.0" = Ok true
  /\ is_release_tag "1.2.0rc1" = Ok false
  /\ is_release_tag "1.2.0.dev3" = Ok false
  /\ is_release_tag "1.2.0+5.abcdef" = Ok false.
Proof.
  split.
  - intros v.
    exact (conj (is_tag_iff v)
             (conj (is_rc_tag_iff v)
                (conj (is_dev_tag_iff v) (is_release_tag_iff v)))).
  - by_evaluation.
Qed.

Lemma same_version_different_build_iff v1 v2 :
  same_version_different_build v1 v2 = Ok true
  <-> Spec.starts_with v2 (Spec.before_first chr_plus v1).
Proof.
  rewrite same_version_different_build_eq, <- startswith_iff.
  split; congruence.
Qed.

(** C3. For every pair of version strings [v1] and [v2],
    [same_release_line(v1, v2)] (in the code,
    [same_version_different_build]) returns a boolean, which is true iff
    [v2] starts with the portion of [v1] before the first [+]; it is true
    of ["1.2.0"] and ["1.2.0+5.abcdef"], false of ["1.2.0"] and
    ["1.3.0+1.abc"]. *)
Theorem same_release_line_prefix :
  (forall v1 v2 : string,
      (exists b, same_version_different_build v1 v2 = Ok b)
      /\ (same_version_different_build v1 v2 = Ok true
          <-> Spec.starts_with v2 (Spec.before_first chr_plus v1)))
  /\ same_version_different_build "1.2.0" "1.2.0+5.abcdef" = Ok true
  /\ same_version_different_build "1.2.0" "1.3.0+1.abc" = Ok false.
Proof.
  split; [| split; reflexivity].
  intros v1 v2. split.
  - rewrite same_version_different_build_eq. now eexists.
  - apply same_version_different_build_iff.
Qed.

(** C8. For every string [v], the empty one and those without [+] or [.]
    included, each of [is_tag(v)], [is_dev_tag(v)], [is_rc_tag(v)] and
    [is_release_tag(v)] returns a boolean and does not raise: [split]
    never yields an empty list, so the indexings [[0]] and [[-1]] are
    always in range. *)
Theorem classifiers_total :
  (forall v : string,
      (exists b, is_tag v = Ok b)
      /\ (exists b, is_dev_tag v = Ok b)
      /\ (exists b, is_rc_tag v = Ok b)
      /\ (exists b, is_release_tag v = Ok b))
  /\ (forall (sep : ascii) (v : string), split sep v <> [])
  /\ is_release_tag "" = Ok true
  /\ is_dev_tag "" = Ok false
  /\ is_rc_tag "" = Ok false
  /\ is_tag "" = Ok true
  /\ is_dev_tag "devel" = Ok true
  /\ is_release_tag "devel" = Ok false.
Proof.
  split; [| split; [exact split_not_nil |]].
  - intros v.
    rewrite is_tag_eq, is_dev_tag_eq, is_rc_tag_eq, is_release_tag_eq.
    split; [| split; [| split]]; eexists; reflexivity.
  - by_evaluation.
Qed.

(* ================================================================== *)
(** ** Hosted identifiers                                              *)
(* ================================================================== *)

Lemma normalized_segments_length full_name :
  List.length (Spec.segments full_name)
  <= List.length (Spec.normalized_segments full_name).
Proof.
  unfold Spec.segments, Spec.normalized_segments. rewrite !length_split.
  apply le_n_S, count_replace_backslash.
Qed.

Lemma field_at (l : list string) (k : nat) (z : Z) :
  z = Z.of_nat k -> k < List.length l ->
  index l z = Ok (nth k l EmptyString).
Proof. intros -> H. now apply index_in_range. Qed.

Lemma field_missing (l : list string) (k : nat) (z : Z) :
  z = Z.of_nat k -> List.length l <= k ->
  index l z = Raise IndexError.
Proof. intros -> H. now apply index_out_of_range. Qed.

Lemma third_token (l : list string) :
  index l 2 = match l with
              | _ :: _ :: token :: _ => Ok token
              | _ => Raise IndexError
              end.
Proof.
  change 2%Z with (Z.of_nat 2). rewrite index_nat.
  destruct l as [| a [| b [| c t]]]; reflexivity.
Qed.

Lemma configuration_eq full_name :
  4 < List.length (Spec.normalized_segments full_name) ->
  BinstarFile.configuration (BinstarFile.new full_name)
  = match split chr_dash (nth 4 (Spec.normalized_segments full_name) EmptyString) with
    | _ :: _ :: token :: _ => Ok (Spec.before_first chr_dot token)
    | _ => Raise IndexError
    end.
Proof.
  intros H. unfold BinstarFile.configuration. cbn [BinstarFile.full_name].
  fold (Spec.normalized_segments full_name).
  rewrite (field_at _ 4 4 eq_refl H). cbn [rbind].
  rewrite third_token.
  destruct (split chr_dash _) as [| a [| b [| c t]]]; try reflexivity.
  cbn [rbind]. apply index_split_first.
Qed.

Lemma normalized_segments_either full_name :
  Spec.normalized_segments full_name = Spec.segments_either full_name.
Proof.
  unfold Spec.normalized_segments.
  induction full_name as [| a s IH]; [reflexivity |].
  cbn [replace split Spec.segments_either]. unfold Spec.slash_or_backslash.
  destruct (Ascii.eqb a chr_backslash).
  - change (Ascii.eqb chr_slash chr_slash) with true.
    now rewrite orb_true_r, IH.
  - now rewrite orb_false_r, IH.
Qed.

Lemma configuration_token full_name :
  4 < List.length (Spec.segments_either full_name) ->
  BinstarFile.configuration (BinstarFile.new full_name)
  = match Spec.token chr_dash 2
            (nth 4 (Spec.segments_either full_name) EmptyString) with
    | Some token => Ok (Spec.before_first chr_dot token)
    | None => Raise IndexError
    end.
Proof.
  intros H. unfold BinstarFile.configuration. cbn [BinstarFile.full_name].
  fold (Spec.normalized_segments full_name).
  rewrite normalized_segments_either.
  rewrite (field_at _ 4 4 eq_refl H). cbn [rbind].
  change 2%Z with (Z.of_nat 2). rewrite index_split_token.
  destruct (Spec.token chr_dash 2 _); [| reflexivity].
  cbn [rbind]. apply index_split_first.
Qed.

(** C4, as the code has it.  For every hosted identifier with at least
    five [/]-delimited segments, [user] is segment 0, [name] segment 1 and
    [version] segment 2 of the identifier; [platform] is segment 3 and
    [configuration] is read from segment 4 of the identifier split at
    every [/] and at every backslash (the [/]-delimited segments when it
    has no backslash): the third [-]-delimited token of that segment, cut
    at its first [.]; reading it raises [IndexError] when that segment has
    fewer than three tokens.  On
    ["acme/widget/1.2.0+5.abc/linux-64/widget-1.2.0+5.abc-py27.tar.bz2"]
    the fields are [acme], [widget], [1.2.0+5.abc], [linux-64], [py27]. *)
Theorem hosted_identifier_fields :
  (forall full_name : string,
      5 <= List.length (Spec.segments full_name) ->
      let f := BinstarFile.new full_name in
      let either := Spec.segments_either full_name in
      BinstarFile.user f = Ok (nth 0 (Spec.segments full_name) EmptyString)
      /\ BinstarFile.name f = Ok (nth 1 (Spec.segments full_name) EmptyString)
      /\ BinstarFile.version f = Ok (nth 2 (Spec.segments full_name) EmptyString)
      /\ 5 <= List.length either
      /\ BinstarFile.platform f = Ok (nth 3 either EmptyString)
      /\ BinstarFile.configuration f
         = match Spec.token chr_dash 2 (nth 4 either EmptyString) with
           | Some token => Ok (Spec.before_first chr_dot token)
           | None => Raise IndexError
           end
      /\ (Spec.has_char chr_backslash full_name = false ->
          either = Spec.segments full_name))
  /\ (let f := BinstarFile.new
         "acme/widget/1.2.0+5.abc/linux-64/widget-1.2.0+5.abc-py27.tar.bz2" in
      BinstarFile.user f = Ok "acme"
      /\ BinstarFile.name f = Ok "widget"
      /\ BinstarFile.version f = Ok "1.2.0+5.abc"
      /\ BinstarFile.platform f = Ok "linux-64"
      /\ BinstarFile.configuration f = Ok "py27").
Proof.
  split.
  - intros full_name Hlen f either. subst f either.
    pose proof (normalized_segments_length full_name) as Hn.
    rewrite normalized_segments_either in Hn.
    split; [| split; [| split; [| split; [| split; [| split]]]]].
    + apply (field_at (Spec.segments full_name) 0 0 eq_refl). lia.
    + apply (field_at (Spec.segments full_name) 1 1 eq_refl). lia.
    + apply (field_at (Spec.segments full_name) 2 2 eq_refl). lia.
    + lia.
    + unfold BinstarFile.platform. cbn [BinstarFile.full_name].
      fold (Spec.normalized_segments full_name).
      rewrite normalized_segments_either.
      apply (field_at (Spec.segments_either full_name) 3 3 eq_refl). lia.
    + apply configuration_token. lia.
    + intros Hno. rewrite <- normalized_segments_either.
      unfold Spec.normalized_segments, Spec.segments.
      now rewrite replace_no_backslash.
  - cbv zeta. by_evaluation.
Qed.

Lemma hosted_identifier_fields_witness :
  5 <= List.length (Spec.segments backslash_identifier)
  /\ BinstarFile.name (BinstarFile.new backslash_identifier) = Ok "widget"
  /\ BinstarFile.platform (BinstarFile.new backslash_identifier) = Ok "win"
  /\ BinstarFile.configuration (BinstarFile.new backslash_identifier)
     = Ok "py27".
Proof.
  assert (H : 5 <= List.length (Spec.segments backslash_identifier))
    by (vm_compute; lia).
  split; [exact H |].
  destruct (proj1 hosted_identifier_fields _ H)
    as (_ & Hname & _ & _ & Hplat & Hconf & _).
  split; [exact Hname |]. split; [exact Hplat | exact Hconf].
Defined.

(** C4, as the specification states it, fails.  The identifier
    [acme/widget/1.0/win\64/widget-1.0-py27.tar.bz2] has five
    [/]-delimited segments, and the third [-]-delimited token of its
    segment 4, cut at its first [.], is [py27]; but the code, which splits
    the identifier at the backslash too, reads the platform [win], looks
    for the configuration in [64] and raises [IndexError]: it gives no
    configuration at all.  Nor does it, without any backslash, on
    [acme/widget/1.0/linux-64/widget-1.0.tar.bz2], whose segment 4 has no
    third token. *)
Lemma hosted_identifier_configuration_not_of_segment_4 :
  (5 <= List.length (Spec.segments shifted_identifier)
   /\ nth 3 (Spec.segments shifted_identifier) EmptyString = "win\64"
   /\ nth 4 (Spec.segments shifted_identifier) EmptyString
      = "widget-1.0-py27.tar.bz2"
   /\ Spec.configuration_of_segment_4 shifted_identifier = Some "py27"
   /\ BinstarFile.platform (BinstarFile.new shifted_identifier) = Ok "win"
   /\ BinstarFile.configuration (BinstarFile.new shifted_identifier)
      = Raise IndexError)
  /\ (5 <= List.length (Spec.segments two_token_identifier)
      /\ Spec.configuration_of_segment_4 two_token_identifier = None
      /\ BinstarFile.configuration (BinstarFile.new two_token_identifier)
         = Raise IndexError).
Proof.
  split; (split; [vm_compute; lia | by_evaluation]).
Qed.

(** C6, as the code has it.  For every [full_name] with fewer than three
    [/]-delimited Spec.segments, building the record succeeds (it only stores
    the string), reading [user] and [basename] succeeds, and reading
    [version], and so reading all the fields with [all_info], raises
    Python's [IndexError]: the code has no [MalformedIdentifier] class. *)
Theorem short_identifier_raises_IndexError :
  forall full_name : string,
    List.length (Spec.segments full_name) < 3 ->
    let f := BinstarFile.new full_name in
    BinstarFile.full_name f = full_name
    /\ (exists u, BinstarFile.user f = Ok u)
    /\ (exists b, BinstarFile.basename f = Ok b)
    /\ BinstarFile.version f = Raise IndexError
    /\ BinstarFile.all_info f = Raise IndexError
    /\ exn_class IndexError <> "MalformedIdentifier".
Proof.
  intros full_name Hlen f. subst f.
  set (f := BinstarFile.new full_name).
  assert (Hv : BinstarFile.version f = Raise IndexError).
  { apply (field_missing (Spec.segments full_name) 2 2 eq_refl). lia. }
  assert (Hu : exists u, BinstarFile.user f = Ok u).
  { unfold BinstarFile.user. rewrite index_split_first. now eexists. }
  split; [reflexivity |].
  split; [exact Hu |].
  split; [now eexists |].
  split; [exact Hv |].
  split; [| discriminate].
  unfold BinstarFile.all_info. destruct Hu as (u & ->). cbn [rbind].
  destruct (Nat.lt_ge_cases 1 (List.length (Spec.segments full_name))) as [H1 | H1].
  - replace (BinstarFile.name f)
      with (Ok (nth 1 (Spec.segments full_name) EmptyString))
      by (symmetry; apply (field_at (Spec.segments full_name) 1 1 eq_refl H1)).
    cbn [rbind]. unfold BinstarFile.basename at 1. cbn [rbind].
    now rewrite Hv.
  - replace (BinstarFile.name f) with (@Raise string IndexError)
      by (symmetry; apply (field_missing (Spec.segments full_name) 1 1 eq_refl H1)).
    reflexivity.
Qed.

Lemma short_identifier_witness :
  List.length (Spec.segments "acme/widget") < 3
  /\ BinstarFile.all_info (BinstarFile.new "acme/widget") = Raise IndexError.
Proof.
  assert (H : List.length (Spec.segments "acme/widget") < 3) by (vm_compute; lia).
  split; [exact H |].
  exact (proj1 (proj2 (proj2 (proj2 (proj2
           (short_identifier_raises_IndexError "acme/widget" H)))))).
Defined.

(** C6, as the specification states it, fails: ["acme/widget"] has two
    Spec.segments and reading its fields raises [IndexError], whose class is
    not [MalformedIdentifier]. *)
Lemma short_identifier_not_MalformedIdentifier :
  ~ (forall full_name : string,
        List.length (Spec.segments full_name) < 3 ->
        exists e, BinstarFile.all_info (BinstarFile.new full_name) = Raise e
                  /\ exn_class e = "MalformedIdentifier").
Proof.
  intros H.
  destruct (H "acme/widget" ltac:(vm_compute; lia)) as (e & Hraise & Hclass).
  vm_compute in Hraise. injection Hraise as <-. discriminate Hclass.
Qed.

(** C10. The two configuration extractors agree on filenames with exactly
    three [-]-delimited tokens: when [fn] is the segment the hosted parser
    reads (segment 4 of the normalized identifier) and splits into exactly
    three tokens, [BinstarFile.configuration] and
    [configuration_from_binstar_filename] return the same value.  With four
    tokens they can differ: on [scikit-learn-0.15-py27.tar.bz2] the hosted
    parser yields the third token cut at its first dot, [0], and the
    filename parser the last one, [py27].  The retention condition compares
    the one with the other, so an older build of
    [widget-...-np19-py27.tar.bz2] is not selected. *)
Theorem configuration_extractors_agree_on_three_tokens :
  (forall full_name fn : string,
      index (Spec.normalized_segments full_name) 4 = Ok fn ->
      List.length (split chr_dash fn) = 3 ->
      exists c,
        BinstarFile.configuration (BinstarFile.new full_name) = Ok c
        /\ configuration_from_binstar_filename fn = Ok c)
  /\ (let fn := "scikit-learn-0.15-py27.tar.bz2" in
      let full_name := "acme/scikit-learn/0.15/linux-64/" ++ fn in
      index (Spec.normalized_segments full_name) 4 = Ok fn
      /\ List.length (split chr_dash fn) = 4
      /\ BinstarFile.configuration (BinstarFile.new full_name) = Ok "0"
      /\ configuration_from_binstar_filename fn = Ok "py27")
  /\ (let fn := "widget-1.3.0+2.def-np19-py27.tar.bz2" in
      let hosted :=
        BinstarFile.new
          "acme/widget/1.3.0+1.ccc/linux-64/widget-1.3.0+1.ccc-np19-py27.tar.bz2" in
      name_from_binstar_filename fn = Ok "widget"
      /\ version_from_binstar_filename fn = Ok "1.3.0+2.def"
      /\ configuration_from_binstar_filename fn = Ok "py27"
      /\ BinstarFile.configuration hosted = Ok "np19"
      /\ to_remove_cond "widget" "py27" "linux-64" "1.3.0+2.def" hosted
         = Ok false
      /\ to_remove_cond "widget" "np19" "linux-64" "1.3.0+2.def" hosted
         = Ok true).
Proof.
  split; [| split].
  - intros full_name fn Hfn Hlen.
    unfold BinstarFile.configuration, configuration_from_binstar_filename.
    cbn [BinstarFile.full_name]. fold (Spec.normalized_segments full_name).
    rewrite Hfn. cbn [rbind].
    rewrite third_token.
    rewrite (index_minus_one _ EmptyString (split_not_nil chr_dash fn)).
    destruct (split chr_dash fn) as [| a [| b [| c [| d t]]]];
      try discriminate Hlen.
    cbn [rbind last]. rewrite index_split_first. now eexists.
  - cbv zeta. by_evaluation.
  - cbv zeta. by_evaluation.
Qed.

Lemma configuration_extractors_witness :
  exists c,
    BinstarFile.configuration
      (BinstarFile.new
         "acme/widget/1.2.0+5.abc/linux-64/widget-1.2.0+5.abc-py27.tar.bz2")
    = Ok c
    /\ configuration_from_binstar_filename "widget-1.2.0+5.abc-py27.tar.bz2"
       = Ok c.
Proof.
  apply (proj1 configuration_extractors_agree_on_three_tokens
           "acme/widget/1.2.0+5.abc/linux-64/widget-1.2.0+5.abc-py27.tar.bz2"
           "widget-1.2.0+5.abc-py27.tar.bz2").
  - reflexivity.
  - reflexivity.
Defined.

Lemma identical_version_not_selected name configuration platform_ version f :
  BinstarFile.version f = Ok version ->
  to_remove_cond name configuration platform_ version f <> Ok true.
Proof.
  intros Hv. unfold to_remove_cond, py_and, eq_str, ne_str.
  rewrite Hv. cbn [rbind]. rewrite String.eqb_refl. cbn [negb].
  destruct (BinstarFile.name f) as [n |]; cbn [rbind]; [| discriminate].
  destruct (String.eqb n name); [| discriminate].
  destruct (BinstarFile.configuration f) as [c |]; cbn [rbind]; [| discriminate].
  destruct (String.eqb c configuration); [| discriminate].
  destruct (BinstarFile.platform f) as [p |]; cbn [rbind]; [| discriminate].
  destruct (String.eqb p platform_); discriminate.
Qed.

(** C9. The same-release-line relation is reflexive: for every version
    string [v], [same_version_different_build(v, v)] is true.  So a hosted
    record whose version is the new artifact's is kept out of the removal
    list by the condition [f.version != version] alone: such a record is
    never selected, although (as for the hosted copy of the new artifact
    itself) every other condition of the filter may hold. *)
Theorem same_release_line_reflexive :
  (forall v : string, same_version_different_build v v = Ok true)
  /\ (forall (name configuration platform_ version : string)
             (f : BinstarFile.t),
         BinstarFile.version f = Ok version ->
         ne_str (BinstarFile.version f) version = Ok false
         /\ to_remove_cond name configuration platform_ version f <> Ok true)
  /\ (let f := BinstarFile.new
         "acme/widget/1.3.0+2.def/linux-64/widget-1.3.0+2.def-py27.tar.bz2" in
      eq_str (BinstarFile.name f) "widget" = Ok true
      /\ eq_str (BinstarFile.configuration f) "py27" = Ok true
      /\ eq_str (BinstarFile.platform f) "linux-64" = Ok true
      /\ py_not (is_release_tag "1.3.0+2.def") = Ok true
      /\ same_version_different_build "1.3.0+2.def" "1.3.0+2.def" = Ok true
      /\ ne_str (BinstarFile.version f) "1.3.0+2.def" = Ok false
      /\ to_remove_cond "widget" "py27" "linux-64" "1.3.0+2.def" f = Ok false).
Proof.
  split; [| split].
  - intros v. rewrite same_version_different_build_eq.
    now rewrite before_first_prefix.
  - intros name configuration platform_ version f Hv. split.
    + unfold ne_str. rewrite Hv. cbn [rbind]. now rewrite String.eqb_refl.
    + now apply identical_version_not_selected.
  - cbv zeta.
    by_evaluation.
Qed.

Lemma same_release_line_reflexive_witness :
  to_remove_cond "widget" "py27" "linux-64" "1.3.0"
    (BinstarFile.new "acme/widget/1.3.0/linux-64/widget-1.3.0-py27.tar.bz2")
  <> Ok true.
Proof.
  apply (proj1 (proj2 same_release_line_reflexive)
           "widget" "py27" "linux-64" "1.3.0"
           (BinstarFile.new "acme/widget/1.3.0/linux-64/widget-1.3.0-py27.tar.bz2")).
  reflexivity.
Defined.

(* ================================================================== *)
(** ** The git fallback                                                *)
(* ================================================================== *)

Lemma unpack3_not_three {A : Type} (l : list A) :
  List.length l <> 3 -> unpack3 l = Raise ValueError.
Proof.
  destruct l as [| a [| b [| c [| d t]]]]; simpl; intros H;
    try reflexivity.
  now contradiction H.
Qed.

(** The marker is not a [-]: removing it keeps the number of parts. *)
Lemma length_split_strip_v s :
  List.length (split chr_dash (Spec.strip_v s))
  = List.length (split chr_dash s).
Proof.
  rewrite !length_split. f_equal.
  destruct s as [| c s']; [reflexivity |].
  unfold Spec.strip_v.
  destruct (Ascii.eqb c "v"%char || Ascii.eqb c "V"%char) eqn:E;
    [| reflexivity].
  apply orb_true_iff in E.
  destruct E as [E | E]; apply Ascii.eqb_eq in E; subst; reflexivity.
Qed.

Lemma strip_v_eq c s :
  (if Ascii.eqb (lower c) "v"%char then tail (String c s) else String c s)
  = Spec.strip_v (String c s).
Proof. unfold Spec.strip_v. now rewrite lower_is_v. Qed.

Section GitFallback.

Context {O : Outside}.

(** The decoding step, when it succeeds, hands the stripped output on. *)
Lemma decode_step {A : Type} (raw : string) (k : string -> M A) (w : World) :
  python3 = false \/ utf8_valid raw = true ->
  bind (if python3 then lift (decode raw) else ret raw) k w = k raw w.
Proof.
  intros [H | H].
  - now rewrite H.
  - destruct python3; [| reflexivity].
    unfold bind, lift, decode. now rewrite H.
Qed.

(** What [version_from_git_tags] does once [git describe --tags] has
    succeeded with a non-empty output. *)
Lemma version_from_git_tags_eq (w : World) (x : External) (out : string) :
  run ["git"; "describe"; "--tags"] (external w) = (x, (0%Z, out)) ->
  strip out <> EmptyString ->
  python3 = false \/ utf8_valid (strip out) = true ->
  version_from_git_tags w =
  match unpack3 (split chr_dash (Spec.strip_v (strip out))) with
  | Ok (v, n_commits, sha) =>
      (set_external x w, Ok (v ++ "+" ++ n_commits ++ "." ++ sha))
  | Raise ValueError =>
      (mkWorld x (stdout w ++ [Line git_warning])%list (requests w),
       Ok (Spec.strip_v (strip out)))
  | Raise e => (set_external x w, Raise e)
  end.
Proof.
  intros Hrun Hne Hdec.
  unfold version_from_git_tags, bind at 1, check_output.
  rewrite Hrun. cbn [Z.eqb].
  rewrite (decode_step (strip out) _ _ Hdec).
  destruct (strip out) as [| c s] eqn:Hraw; [contradiction |].
  unfold bind at 1, lift, first_char.
  rewrite strip_v_eq.
  destruct (unpack3 (split chr_dash (Spec.strip_v (String c s))))
    as [[[v n] sha] | e]; [reflexivity |].
  destruct e; reflexivity.
Qed.

(** On Python 3 an output that is not UTF-8 is not decoded: the error of
    [decode] is raised before anything is printed. *)
Lemma version_from_git_tags_undecodable
      (w : World) (x : External) (out : string) :
  run ["git"; "describe"; "--tags"] (external w) = (x, (0%Z, out)) ->
  python3 = true ->
  utf8_valid (strip out) = false ->
  version_from_git_tags w = (set_external x w, Raise UnicodeDecodeError).
Proof.
  intros Hrun Hpy Hbad.
  unfold version_from_git_tags, bind at 1, check_output.
  rewrite Hrun. cbn [Z.eqb].
  rewrite Hpy. unfold bind, lift, decode. now rewrite Hbad.
Qed.

Lemma version_from_git_tags_fails (w : World) (x : External)
      (status : Z) (out : string) :
  run ["git"; "describe"; "--tags"] (external w) = (x, (status, out)) ->
  status <> 0%Z ->
  version_from_git_tags w
  = (set_external x w,
     Raise (CalledProcessError status ["git"; "describe"; "--tags"])).
Proof.
  intros Hrun Hstatus. unfold version_from_git_tags, bind, check_output.
  rewrite Hrun. apply Z.eqb_neq in Hstatus. now rewrite Hstatus.
Qed.

Lemma version_from_git_tags_empty (w : World) (x : External) (out : string) :
  run ["git"; "describe"; "--tags"] (external w) = (x, (0%Z, out)) ->
  strip out = EmptyString ->
  version_from_git_tags w = (set_external x w, Raise IndexError).
Proof.
  intros Hrun Hempty. unfold version_from_git_tags, bind, check_output, lift.
  rewrite Hrun. change (0 =? 0)%Z with true. cbv beta iota zeta.
  rewrite Hempty. destruct python3; reflexivity.
Qed.

(** C5, as the code has it.  Let [raw] be the output of a successful
    [git describe --tags], stripped of surrounding whitespace.  On
    Python 3, where [raw] is decoded, a [raw] that is not well-formed UTF-8
    raises [UnicodeDecodeError].  An empty [raw] raises [IndexError].
    Otherwise (Python 2, or a [raw] that is well-formed UTF-8): if [raw],
    after one leading [v] or [V] is removed, is [BASE-NCOMMITS-SHA], three
    parts without [-], the resolver returns [BASE+NCOMMITS.SHA]; and if
    [raw] is not empty and does not split into exactly three [-]-delimited
    parts, the resolver prints a warning and returns [raw] without its
    leading [v] or [V] (so [raw] itself when it has none). *)
Theorem version_from_git_tags_rewrites
        (w : World) (x : External) (out : string) :
  run ["git"; "describe"; "--tags"] (external w) = (x, (0%Z, out)) ->
  let raw := strip out in
  (python3 = true -> utf8_valid raw = false ->
   version_from_git_tags w = (set_external x w, Raise UnicodeDecodeError))
  /\ (raw = EmptyString ->
      version_from_git_tags w = (set_external x w, Raise IndexError))
  /\ (python3 = false \/ utf8_valid raw = true ->
      (forall base n_commits sha : string,
          Spec.has_char chr_dash base = false ->
          Spec.has_char chr_dash n_commits = false ->
          Spec.has_char chr_dash sha = false ->
          Spec.strip_v raw = base ++ "-" ++ n_commits ++ "-" ++ sha ->
          version_from_git_tags w
          = (set_external x w, Ok (base ++ "+" ++ n_commits ++ "." ++ sha)))
      /\ (raw <> EmptyString ->
          List.length (split chr_dash raw) <> 3 ->
          version_from_git_tags w
          = (mkWorld x (stdout w ++ [Line git_warning])%list (requests w),
             Ok (Spec.strip_v raw))))
  /\ (forall (c : ascii) (s : string),
      raw = String c s -> c <> "v"%char -> c <> "V"%char ->
      Spec.strip_v raw = raw).
Proof.
  intros Hrun raw. split; [| split; [| split]].
  - intros Hpy Hbad.
    exact (version_from_git_tags_undecodable w x out Hrun Hpy Hbad).
  - intros Hempty. exact (version_from_git_tags_empty w x out Hrun Hempty).
  - intros Hdec. split.
    + intros base n_commits sha Hb Hn Hs Hform.
      assert (Hne : strip out <> EmptyString).
      { intros E. subst raw. rewrite E in Hform. simpl in Hform.
        destruct base; discriminate. }
      rewrite (version_from_git_tags_eq w x out Hrun Hne Hdec).
      fold raw. rewrite Hform.
      change (base ++ "-" ++ n_commits ++ "-" ++ sha)
        with (join (String chr_dash EmptyString) [base; n_commits; sha]).
      rewrite split_join; [reflexivity | discriminate |].
      repeat constructor; assumption.
    + intros Hne Hlen.
      rewrite (version_from_git_tags_eq w x out Hrun Hne Hdec).
      fold raw. rewrite <- length_split_strip_v in Hlen.
      now rewrite (unpack3_not_three _ Hlen).
  - intros c s -> Hv HV. unfold Spec.strip_v.
    apply Ascii.eqb_neq in Hv, HV. now rewrite Hv, HV.
Qed.

End GitFallback.

(* ================================================================== *)
(** ** Paths                                                           *)
(* ================================================================== *)

Lemma append_assoc' (a b c : string) : (a ++ b) ++ c = a ++ b ++ c.
Proof. induction a as [| x a IH]; simpl; [reflexivity | now rewrite IH]. Qed.

Lemma has_char_app c a b :
  Spec.has_char c (a ++ b) = Spec.has_char c a || Spec.has_char c b.
Proof.
  induction a as [| x a IH]; simpl; [reflexivity |].
  now rewrite IH, orb_assoc.
Qed.

Lemma before_first_app c x r :
  Spec.has_char c x = false ->
  Spec.before_first c (x ++ String c r) = x.
Proof.
  induction x as [| a x IH]; simpl.
  - intros _. now rewrite Ascii.eqb_refl.
  - destruct (Ascii.eqb a c); simpl; [discriminate |].
    intros H. now rewrite (IH H).
Qed.

Lemma append_nil_r (a : string) : a ++ EmptyString = a.
Proof. induction a as [| x a IH]; simpl; [reflexivity | now rewrite IH]. Qed.

Section PosixPathLemmas.

Lemma cut_no_slash t :
  Spec.has_char chr_slash t = false -> posixpath.cut t = (EmptyString, t).
Proof.
  induction t as [| c t IH]; simpl; [reflexivity |].
  destruct (Ascii.eqb c chr_slash); simpl; [discriminate |].
  intros H. now rewrite (IH H).
Qed.

Lemma cut_app h t :
  Spec.has_char chr_slash t = false ->
  posixpath.cut (h ++ String chr_slash t) = (h ++ String chr_slash EmptyString, t).
Proof.
  intros Ht. induction h as [| c h IH]; simpl.
  - now rewrite (cut_no_slash t Ht).
  - rewrite IH. now destruct h.
Qed.

Lemma all_slashes_app a b :
  posixpath.all_slashes (a ++ b)
  = posixpath.all_slashes a && posixpath.all_slashes b.
Proof.
  induction a as [| c a IH]; simpl; [reflexivity |].
  now rewrite IH, andb_assoc.
Qed.

Lemma all_slashes_no_slash p :
  p <> EmptyString -> Spec.has_char chr_slash p = false ->
  posixpath.all_slashes p = false.
Proof.
  destruct p as [| c p]; [contradiction |]. simpl. intros _ H.
  apply orb_false_iff in H. destruct H as [H _]. now rewrite H.
Qed.

Lemma rstrip_slash_snoc s :
  posixpath.rstrip_slash (s ++ String chr_slash EmptyString)
  = posixpath.rstrip_slash s.
Proof.
  induction s as [| c s IH]; [reflexivity |].
  simpl. now rewrite IH.
Qed.

Lemma rstrip_slash_no_slash p :
  Spec.has_char chr_slash p = false -> posixpath.rstrip_slash p = p.
Proof.
  induction p as [| c p IH]; simpl; [reflexivity |].
  intros H. apply orb_false_iff in H. destruct H as [Hc Hp].
  rewrite (IH Hp), Hc. now destruct p.
Qed.

Lemma rstrip_slash_app a b :
  posixpath.rstrip_slash b <> EmptyString ->
  posixpath.rstrip_slash (a ++ b) = a ++ posixpath.rstrip_slash b.
Proof.
  intros Hb. induction a as [| c a IH]; [reflexivity |].
  simpl. rewrite IH.
  destruct (a ++ posixpath.rstrip_slash b) eqn:E; [| reflexivity].
  destruct a; [simpl in E; contradiction | discriminate].
Qed.

(** [posixpath.split] of [h/t], [t] without a slash. *)
Lemma posix_split_tail h t :
  Spec.has_char chr_slash t = false ->
  snd (posixpath.split (h ++ String chr_slash t)) = t.
Proof.
  intros Ht. unfold posixpath.split. now rewrite (cut_app h t Ht).
Qed.

Lemma posix_split_head d p t :
  p <> EmptyString ->
  Spec.has_char chr_slash p = false ->
  Spec.has_char chr_slash t = false ->
  fst (posixpath.split ((d ++ String chr_slash p) ++ String chr_slash t))
  = d ++ String chr_slash p.
Proof.
  intros Hne Hp Ht. unfold posixpath.split. rewrite (cut_app _ t Ht).
  cbn [fst].
  assert (Hall : posixpath.all_slashes
                   ((d ++ String chr_slash p) ++ String chr_slash EmptyString)
                 = false).
  { rewrite !all_slashes_app. change (String chr_slash p)
      with (String chr_slash EmptyString ++ p).
    rewrite all_slashes_app, (all_slashes_no_slash p Hne Hp).
    now rewrite !andb_false_r. }
  rewrite Hall, rstrip_slash_snoc.
  assert (Hstrip : posixpath.rstrip_slash (d ++ String chr_slash p)
                   = d ++ String chr_slash p).
  { change (String chr_slash p) with (String chr_slash EmptyString ++ p).
    rewrite <- append_assoc'.
    rewrite rstrip_slash_app; rewrite (rstrip_slash_no_slash p Hp);
      [reflexivity | exact Hne]. }
  rewrite Hstrip.
  destruct ((d ++ String chr_slash p) ++ String chr_slash EmptyString) eqn:E;
    [| reflexivity].
  destruct d; discriminate E.
Qed.

End PosixPathLemmas.

Section NtPathLemmas.

Lemma is_sep_eq c : ntpath.is_sep c = Spec.slash_or_backslash c.
Proof. unfold ntpath.is_sep, Spec.slash_or_backslash. apply orb_comm. Qed.

(** A character of a string without [/] and without backslash is not a
    separator. *)
Lemma no_sep_cons c t :
  Spec.has_char chr_slash (String c t) = false ->
  Spec.has_char chr_backslash (String c t) = false ->
  ntpath.is_sep c = false
  /\ Spec.has_char chr_slash t = false
  /\ Spec.has_char chr_backslash t = false.
Proof.
  simpl. intros H1 H2.
  apply orb_false_iff in H1, H2. destruct H1 as [H1 H1'], H2 as [H2 H2'].
  unfold ntpath.is_sep. now rewrite H1, H2.
Qed.

Lemma nt_cut_no_sep t :
  Spec.has_char chr_slash t = false ->
  Spec.has_char chr_backslash t = false ->
  ntpath.cut t = (EmptyString, t).
Proof.
  induction t as [| c t IH]; [reflexivity |].
  intros H1 H2. destruct (no_sep_cons c t H1 H2) as (Hc & H1' & H2').
  simpl. now rewrite (IH H1' H2'), Hc.
Qed.

Lemma nt_cut_app h s t :
  ntpath.is_sep s = true ->
  Spec.has_char chr_slash t = false ->
  Spec.has_char chr_backslash t = false ->
  ntpath.cut (h ++ String s t) = (h ++ String s EmptyString, t).
Proof.
  intros Hs H1 H2. induction h as [| c h IH]; simpl.
  - now rewrite (nt_cut_no_sep t H1 H2), Hs.
  - rewrite IH. now destruct h.
Qed.

Lemma nt_rstrip_snoc x s :
  ntpath.is_sep s = true ->
  ntpath.rstrip_seps (x ++ String s EmptyString) = ntpath.rstrip_seps x.
Proof.
  intros Hs. induction x as [| c x IH]; simpl.
  - now rewrite Hs.
  - now rewrite IH.
Qed.

Lemma nt_rstrip_no_sep p :
  Spec.has_char chr_slash p = false ->
  Spec.has_char chr_backslash p = false ->
  ntpath.rstrip_seps p = p.
Proof.
  induction p as [| c p IH]; [reflexivity |].
  intros H1 H2. destruct (no_sep_cons c p H1 H2) as (Hc & H1' & H2').
  simpl. rewrite (IH H1' H2'), Hc. now destruct p.
Qed.

Lemma nt_rstrip_app a b :
  ntpath.rstrip_seps b <> EmptyString ->
  ntpath.rstrip_seps (a ++ b) = a ++ ntpath.rstrip_seps b.
Proof.
  intros Hb. induction a as [| c a IH]; [reflexivity |].
  simpl. rewrite IH.
  destruct (a ++ ntpath.rstrip_seps b) eqn:E; [| reflexivity].
  destruct a; [simpl in E; contradiction | discriminate].
Qed.

(** The drive of a path that does not begin with two separators is its
    drive letter and [:], if it has them, and is a prefix of the
    directory the platform's directory is in. *)
Lemma nt_splitdrive_prefix dir s1 platform :
  platform <> EmptyString ->
  Spec.has_char chr_slash platform = false ->
  Spec.has_char chr_backslash platform = false ->
  Spec.has_char ":"%char platform = false ->
  ntpath.is_sep s1 = true ->
  Spec.begins_with_two_separators (dir ++ String s1 platform) = false ->
  exists d dir',
    dir = d ++ dir'
    /\ forall rest : string,
        ntpath.splitdrive (dir ++ String s1 (platform ++ rest))
        = (d, dir' ++ String s1 (platform ++ rest)).
Proof.
  intros Hne Hs Hb Hcolon Hs1 Hunc.
  destruct platform as [| c platform]; [contradiction |].
  destruct (no_sep_cons c platform Hs Hb) as (Hc & _ & _).
  assert (Hcc : Ascii.eqb c ":"%char = false).
  { simpl in Hcolon. now apply orb_false_iff in Hcolon. }
  assert (Hs1c : Ascii.eqb s1 ":"%char = false).
  { destruct (Ascii.eqb_spec s1 ":"%char) as [-> |]; [discriminate Hs1 |].
    reflexivity. }
  destruct dir as [| a [| b dir]].
  - exists EmptyString, EmptyString. split; [reflexivity |].
    intros rest. cbn [append ntpath.splitdrive].
    now rewrite Hc, andb_false_r, Hcc.
  - exists EmptyString, (String a EmptyString). split; [reflexivity |].
    intros rest. cbn [append ntpath.splitdrive].
    cbn [append Spec.begins_with_two_separators] in Hunc.
    rewrite <- !is_sep_eq in Hunc. now rewrite Hunc, Hs1c.
  - cbn [append Spec.begins_with_two_separators] in Hunc.
    rewrite <- !is_sep_eq in Hunc.
    destruct (Ascii.eqb b ":"%char) eqn:Hbc.
    + exists (String a (String b EmptyString)), dir. split; [reflexivity |].
      intros rest. cbn [append ntpath.splitdrive].
      now rewrite Hunc, Hbc.
    + exists EmptyString, (String a (String b dir)). split; [reflexivity |].
      intros rest. cbn [append ntpath.splitdrive].
      now rewrite Hunc, Hbc.
Qed.

(** What begins a path is in its first two characters. *)
Lemma begins_with_two_separators_prefix dir s1 platform rest :
  platform <> EmptyString ->
  Spec.begins_with_two_separators (dir ++ String s1 (platform ++ rest))
  = Spec.begins_with_two_separators (dir ++ String s1 platform).
Proof.
  intros Hne. destruct platform as [| c platform]; [contradiction |].
  destruct dir as [| a [| b dir]]; reflexivity.
Qed.

(** [ntpath.split] of [dir\platform\filename] and of [dir\platform]. *)
Lemma nt_split_build_path dir s1 s2 platform filename :
  platform <> EmptyString ->
  Spec.has_char chr_slash platform = false ->
  Spec.has_char chr_backslash platform = false ->
  Spec.has_char ":"%char platform = false ->
  Spec.has_char chr_slash filename = false ->
  Spec.has_char chr_backslash filename = false ->
  ntpath.is_sep s1 = true ->
  ntpath.is_sep s2 = true ->
  Spec.begins_with_two_separators
    (dir ++ String s1 (platform ++ String s2 filename)) = false ->
  ntpath.split (dir ++ String s1 (platform ++ String s2 filename))
  = (dir ++ String s1 platform, filename)
  /\ snd (ntpath.split (dir ++ String s1 platform)) = platform.
Proof.
  intros Hne Hps Hpb Hpc Hfs Hfb Hs1 Hs2 Hunc.
  rewrite (begins_with_two_separators_prefix _ _ _ _ Hne) in Hunc.
  destruct (nt_splitdrive_prefix dir s1 platform Hne Hps Hpb Hpc Hs1 Hunc)
    as (d & dir' & -> & Hdrive).
  split.
  - unfold ntpath.split. rewrite (Hdrive (String s2 filename)).
    assert (E : dir' ++ String s1 (platform ++ String s2 filename)
                = (dir' ++ String s1 platform) ++ String s2 filename).
    { rewrite append_assoc'. reflexivity. }
    rewrite E, (nt_cut_app _ s2 filename Hs2 Hfs Hfb).
    rewrite (nt_rstrip_snoc _ s2 Hs2).
    assert (Hstrip : ntpath.rstrip_seps (dir' ++ String s1 platform)
                     = dir' ++ String s1 platform).
    { change (String s1 platform) with (String s1 EmptyString ++ platform).
      rewrite <- append_assoc'.
      rewrite nt_rstrip_app; rewrite (nt_rstrip_no_sep platform Hps Hpb);
        [reflexivity | exact Hne]. }
    rewrite Hstrip.
    destruct (dir' ++ String s1 platform) eqn:E'.
    + destruct dir'; discriminate E'.
    + rewrite <- E'. now rewrite append_assoc'.
  - unfold ntpath.split.
    pose proof (Hdrive EmptyString) as H0. rewrite !append_nil_r in H0.
    rewrite H0, (nt_cut_app dir' s1 platform Hs1 Hps Hpb). reflexivity.
Qed.

End NtPathLemmas.

Section HostPathLemmas.

Context {O : Outside}.

(** On either host, the path of a file in the directory of its platform
    splits into that file and that platform. *)
Lemma build_path_fields path platform filename :
  Spec.is_build_path windows path platform filename ->
  snd (os_path.split path) = filename
  /\ platform_from_binstar_filepath path = Ok platform.
Proof.
  unfold Spec.is_build_path, platform_from_binstar_filepath, os_path.split.
  intros (Hne & Hps & Hfs & H). destruct windows.
  - destruct H as (Hpb & Hpc & Hfb & Hunc & dir & s1 & s2 & Hs1 & Hs2 & ->).
    rewrite <- is_sep_eq in Hs1, Hs2.
    destruct (nt_split_build_path dir s1 s2 platform filename
                Hne Hps Hpb Hpc Hfs Hfb Hs1 Hs2 Hunc) as [E1 E2].
    rewrite E1. cbn [fst snd]. now rewrite E2.
  - destruct H as (dir & ->).
    assert (E : dir ++ "/" ++ platform ++ "/" ++ filename
                = (dir ++ String chr_slash platform) ++ String chr_slash filename).
    { now rewrite append_assoc'. }
    rewrite E. split.
    + now apply posix_split_tail.
    + rewrite (posix_split_head dir platform filename Hne Hps Hfs).
      now rewrite (posix_split_tail dir platform Hps).
Qed.

End HostPathLemmas.

(* ================================================================== *)
(** ** Retention                                                       *)
(* ================================================================== *)

Lemma all_info_fields f info :
  BinstarFile.all_info f = Ok info ->
  exists n v p c,
    BinstarFile.name f = Ok n /\ BinstarFile.version f = Ok v
    /\ BinstarFile.platform f = Ok p /\ BinstarFile.configuration f = Ok c.
Proof.
  unfold BinstarFile.all_info.
  destruct (BinstarFile.user f) as [u |]; cbn [rbind]; [| discriminate].
  destruct (BinstarFile.name f) as [n |]; cbn [rbind]; [| discriminate].
  destruct (BinstarFile.basename f) as [b |]; cbn [rbind]; [| discriminate].
  destruct (BinstarFile.version f) as [v |]; cbn [rbind]; [| discriminate].
  destruct (BinstarFile.platform f) as [p |]; cbn [rbind]; [| discriminate].
  destruct (BinstarFile.configuration f) as [c |]; cbn [rbind]; [| discriminate].
  intros _. now exists n, v, p, c.
Qed.

Lemma is_record_fields full_name :
  Spec.is_record full_name ->
  exists n v p c,
    BinstarFile.name (BinstarFile.new full_name) = Ok n
    /\ BinstarFile.version (BinstarFile.new full_name) = Ok v
    /\ BinstarFile.platform (BinstarFile.new full_name) = Ok p
    /\ BinstarFile.configuration (BinstarFile.new full_name) = Ok c.
Proof. intros (info & H). exact (all_info_fields _ _ H). Qed.

(** On a record, the condition of the comprehension is the
    specification's. *)
Lemma to_remove_cond_eq name configuration platform_ version full_name :
  Spec.is_record full_name ->
  to_remove_cond name configuration platform_ version (BinstarFile.new full_name)
  = Ok (Spec.superseded name configuration platform_ version
          (BinstarFile.new full_name)).
Proof.
  intros Hrec.
  destruct (is_record_fields _ Hrec) as (n & v & p & c & Hn & Hv & Hp & Hc).
  unfold to_remove_cond, Spec.superseded, Spec.field_is,
    py_and, py_not, eq_str, ne_str.
  rewrite Hn, Hv, Hp, Hc. cbn [rbind].
  rewrite is_release_tag_eq, same_version_different_build_eq. cbn [rbind].
  destruct (String.eqb n name), (String.eqb c configuration),
    (String.eqb p platform_), (String.eqb v version), (Spec.release v);
    reflexivity.
Qed.

Lemma superseded_iff name configuration platform_ version f :
  Spec.superseded name configuration platform_ version f = true
  <-> BinstarFile.name f = Ok name
      /\ BinstarFile.configuration f = Ok configuration
      /\ BinstarFile.platform f = Ok platform_
      /\ exists v, BinstarFile.version f = Ok v
                   /\ v <> version
                   /\ is_release_tag v = Ok false
                   /\ same_version_different_build version v = Ok true.
Proof.
  unfold Spec.superseded, Spec.field_is. split.
  - intros H.
    apply andb_true_iff in H. destruct H as [H Hv].
    apply andb_true_iff in H. destruct H as [H Hp].
    apply andb_true_iff in H. destruct H as [Hn Hc].
    destruct (BinstarFile.name f) as [n |]; [| discriminate].
    destruct (BinstarFile.configuration f) as [c |]; [| discriminate].
    destruct (BinstarFile.platform f) as [p |]; [| discriminate].
    destruct (BinstarFile.version f) as [v |]; [| discriminate].
    apply String.eqb_eq in Hn, Hc, Hp. subst.
    apply andb_true_iff in Hv. destruct Hv as [Hv Hline].
    apply andb_true_iff in Hv. destruct Hv as [Hne Hrel].
    apply negb_true_iff in Hne, Hrel. apply String.eqb_neq in Hne.
    repeat (split; [reflexivity |]).
    exists v. rewrite is_release_tag_eq, same_version_different_build_eq.
    rewrite Hrel, Hline. now repeat split.
  - intros (-> & -> & -> & v & -> & Hne & Hrel & Hline).
    rewrite is_release_tag_eq in Hrel.
    rewrite same_version_different_build_eq in Hline.
    injection Hrel as ->. injection Hline as ->.
    apply String.eqb_neq in Hne. rewrite Hne.
    now rewrite !String.eqb_refl.
Qed.

Lemma candidates_info_ok name hosted :
  Forall Spec.is_record hosted ->
  exists infos,
    comprehension BinstarFile.all_info
      (fun f => eq_str (BinstarFile.name f) name)
      (map BinstarFile.new hosted) = Ok infos.
Proof.
  intros Hall. apply comprehension_ok.
  intros f Hin. apply in_map_iff in Hin. destruct Hin as (full & <- & Hin).
  rewrite Forall_forall in Hall. specialize (Hall full Hin).
  destruct (is_record_fields _ Hall) as (n & _ & _ & _ & Hn & _).
  unfold eq_str. rewrite Hn. cbn [rbind]. eexists. split; [reflexivity |].
  intros _. destruct Hall as (info & Hinfo). now exists info.
Qed.

Section Retention.

Context {O : Outside}.

(** [files_to_remove] when the new artifact's filename has a version
    token and every hosted identifier is a record. *)
Lemma files_to_remove_eq (b : client) (user channel filepath : string)
      (w : World) (hosted : list string)
      (name version configuration platform_ : string) :
  show_channel b channel user (external w) = Ok hosted ->
  Forall Spec.is_record hosted ->
  name_from_binstar_filename (snd (os_path.split filepath)) = Ok name ->
  version_from_binstar_filename (snd (os_path.split filepath)) = Ok version ->
  configuration_from_binstar_filename (snd (os_path.split filepath))
  = Ok configuration ->
  platform_from_binstar_filepath filepath = Ok platform_ ->
  snd (files_to_remove b user channel filepath w)
  = Ok (filter (Spec.superseded name configuration platform_ version)
          (map BinstarFile.new hosted))
  /\ external (fst (files_to_remove b user channel filepath w)) = external w
  /\ requests (fst (files_to_remove b user channel filepath w))
     = (requests w ++ [ShowChannel channel user])%list.
Proof.
  intros Hshow Hall Hname Hversion Hconf Hplat.
  destruct (candidates_info_ok name hosted Hall) as (infos & Hinfos).
  assert (Hsel :
    comprehension (fun f => Ok f)
      (to_remove_cond name configuration platform_ version)
      (map BinstarFile.new hosted)
    = Ok (filter (Spec.superseded name configuration platform_ version)
            (map BinstarFile.new hosted))).
  { apply comprehension_filter. intros f Hin.
    apply in_map_iff in Hin. destruct Hin as (full & <- & Hin).
    rewrite Forall_forall in Hall. now apply to_remove_cond_eq, Hall. }
  unfold files_to_remove, binstar_files_on_channel, call_show_channel,
    bind, lift, print, pprint, ret.
  rewrite Hplat, Hname, Hversion, Hconf. cbn -[comprehension os_path.split].
  rewrite Hshow. cbn -[comprehension os_path.split].
  rewrite Hinfos. cbn -[comprehension os_path.split].
  rewrite Hsel. now repeat split.
Qed.

(** The filename-only parser reads the fields the specification names. *)
Lemma filename_parsers filename :
  Spec.has_char chr_dash filename = true ->
  name_from_binstar_filename filename = Ok (Spec.name_of_filename filename)
  /\ version_from_binstar_filename filename
     = Ok (Spec.version_of_filename filename)
  /\ configuration_from_binstar_filename filename
     = Ok (Spec.configuration_of_filename filename).
Proof.
  intros Hdash.
  unfold name_from_binstar_filename, version_from_binstar_filename,
    configuration_from_binstar_filename, Spec.name_of_filename,
    Spec.version_of_filename, Spec.configuration_of_filename.
  split; [apply index_split_first |]. split.
  - change 1%Z with (Z.of_nat 1). rewrite index_split_token.
    cbn [Spec.token]. now rewrite Hdash.
  - rewrite index_split_last. cbn [rbind]. apply index_split_first.
Qed.

(** [files_to_remove] on the path of a file in the directory of its
    platform, on either host. *)
Lemma files_to_remove_build_path (b : client) (user channel filepath : string)
      (w : World) (hosted : list string) (platform_ filename : string) :
  Spec.is_build_path windows filepath platform_ filename ->
  Spec.has_char chr_dash filename = true ->
  show_channel b channel user (external w) = Ok hosted ->
  Forall Spec.is_record hosted ->
  snd (files_to_remove b user channel filepath w)
  = Ok (filter (Spec.superseded (Spec.name_of_filename filename)
                  (Spec.configuration_of_filename filename) platform_
                  (Spec.version_of_filename filename))
          (map BinstarFile.new hosted))
  /\ external (fst (files_to_remove b user channel filepath w)) = external w
  /\ requests (fst (files_to_remove b user channel filepath w))
     = (requests w ++ [ShowChannel channel user])%list.
Proof.
  intros Hpath Hdash Hshow Hall.
  destruct (build_path_fields filepath platform_ filename Hpath)
    as [Hfile Hplat].
  destruct (filename_parsers filename Hdash) as (Hn & Hv & Hc).
  apply (files_to_remove_eq b user channel filepath w hosted);
    try assumption; now rewrite Hfile.
Qed.

End Retention.

Section RetentionTheorems.

Context {O : Outside}.

(** C1. Let the new artifact be the file [filename], whose name has a
    [-], in a directory named [platform_] ([filepath] is
    [dir/platform_/filename], with the separators of the host), and let
    its name be what precedes the first [-] of [filename], its version the
    second [-]-delimited token and its configuration what follows the last
    [-], cut at its first [.].  For every list of hosted artifact records,
    [files_to_remove] returns exactly the hosted records that have the
    name, the configuration and the platform of the new artifact, a
    version different from its version, that is not a release tag, and
    that is on the release line of the new version; and it changes nothing
    outside.  On the example of the specification (new artifact
    [widget-1.3.0+2.def-py27.tar.bz2] in [linux-64]) it returns exactly
    the record of [widget-1.3.0+1.ccc-py27]. *)
Theorem files_to_remove_selects_superseded
        (b : client) (user channel : string) (w : World) :
  (forall (filepath platform_ filename : string) (hosted : list string),
      Spec.is_build_path windows filepath platform_ filename ->
      Spec.has_char chr_dash filename = true ->
      show_channel b channel user (external w) = Ok hosted ->
      Forall Spec.is_record hosted ->
      let name := Spec.name_of_filename filename in
      let version := Spec.version_of_filename filename in
      let configuration := Spec.configuration_of_filename filename in
      exists removed : list BinstarFile.t,
        snd (files_to_remove b user channel filepath w) = Ok removed
        /\ external (fst (files_to_remove b user channel filepath w))
           = external w
        /\ removed
           = filter (Spec.superseded name configuration platform_ version)
               (map BinstarFile.new hosted)
        /\ forall f : BinstarFile.t,
            In f removed <->
            In f (map BinstarFile.new hosted)
            /\ BinstarFile.name f = Ok name
            /\ BinstarFile.configuration f = Ok configuration
            /\ BinstarFile.platform f = Ok platform_
            /\ exists v,
                BinstarFile.version f = Ok v
                /\ v <> version
                /\ is_release_tag v = Ok false
                /\ same_version_different_build version v = Ok true)
  /\ (forall filepath : string,
      Spec.is_build_path windows filepath
        "linux-64" "widget-1.3.0+2.def-py27.tar.bz2" ->
      show_channel b channel user (external w) = Ok hosted_example ->
      snd (files_to_remove b user channel filepath w)
      = Ok [BinstarFile.new
              "acme/widget/1.3.0+1.ccc/linux-64/widget-1.3.0+1.ccc-py27.tar.bz2"]).
Proof.
  split.
  - intros filepath platform_ filename hosted Hpath Hdash Hshow Hall.
    cbv zeta.
    destruct (files_to_remove_build_path b user channel filepath w hosted
                platform_ filename Hpath Hdash Hshow Hall) as (Hres & Hext & _).
    eexists. split; [exact Hres |]. split; [exact Hext |].
    split; [reflexivity |].
    intros f. rewrite filter_In, superseded_iff. reflexivity.
  - intros filepath Hpath Hshow.
    assert (Hall : Forall Spec.is_record hosted_example)
      by (repeat constructor; eexists; reflexivity).
    destruct (files_to_remove_build_path b user channel filepath w
                hosted_example _ _ Hpath eq_refl Hshow Hall) as (Hres & _).
    rewrite Hres. reflexivity.
Qed.

(** C7. For every path of a new artifact and every state of the hosting
    service, [binstar_upload_and_purge] on the channel ["main"] makes no
    call on the hosting client (no listing, no deletion): what is left
    outside, and so what the service lists, is what the upload command
    left, whatever [files_to_remove] would have computed.  It returns
    normally when the upload succeeds and raises the upload's error, key
    masked, otherwise. *)
Theorem main_channel_never_purged
        (mc key user filepath : string) (w : World) :
  let cmd := upload_command mc key user "main" filepath in
  let after_upload := run cmd (external w) in
  let r := binstar_upload_and_purge mc key user "main" filepath w in
  requests (fst r) = requests w
  /\ external (fst r) = fst after_upload
  /\ (forall (b : client) (channel owner : string),
      show_channel b channel owner (external (fst r))
      = show_channel b channel owner (fst after_upload))
  /\ snd r
     = (if (fst (snd after_upload) =? 0)%Z then Ok tt
        else Raise (CalledProcessError (fst (snd after_upload))
                      (upload_command mc "BINSTAR_KEY" user "main" filepath))).
Proof.
  cbv zeta.
  unfold binstar_upload_and_purge, binstar_upload_unchecked, try_except,
    check, login_to_binstar_with_key, bind, print, ret, raise, lift,
    upload_command.
  cbn -[run Z.eqb].
  destruct (run _ (external w)) as [x [status out]].
  cbn -[Z.eqb].
  destruct (status =? 0)%Z; cbn; repeat apply conj; reflexivity.
Qed.

End RetentionTheorems.

(* ================================================================== *)
(** ** Runs on the in-memory hosting service                           *)
(* ================================================================== *)

Lemma hosted_example_records : Forall Spec.is_record hosted_example.
Proof. repeat constructor; eexists; reflexivity. Qed.

Lemma filepath_example_is_build_path :
  Spec.is_build_path false filepath_example
    "linux-64" "widget-1.3.0+2.def-py27.tar.bz2".
Proof.
  split; [discriminate |]. split; [reflexivity |]. split; [reflexivity |].
  now exists "/home/ci/miniconda/conda-bld".
Qed.

Lemma windows_filepath_example_is_build_path :
  Spec.is_build_path true windows_filepath_example
    "win-64" "widget-1.3.0+2.def-py27.tar.bz2".
Proof.
  split; [discriminate |]. split; [reflexivity |]. split; [reflexivity |].
  repeat (split; [reflexivity |]).
  exists "C:\Miniconda\conda-bld", chr_backslash, chr_backslash.
  by_evaluation.
Qed.

Lemma files_to_remove_witness :
  let O := Memory.outside "" 0 in
  snd (@files_to_remove O (LetMeIn "key") "acme" "dev" filepath_example
         (Memory.world O hosted_example))
  = Ok [BinstarFile.new
          "acme/widget/1.3.0+1.ccc/linux-64/widget-1.3.0+1.ccc-py27.tar.bz2"].
Proof.
  cbv zeta.
  destruct (proj1 (@files_to_remove_selects_superseded (Memory.outside "" 0)
                     (LetMeIn "key") "acme" "dev"
                     (Memory.world (Memory.outside "" 0) hosted_example))
              filepath_example "linux-64" "widget-1.3.0+2.def-py27.tar.bz2"
              hosted_example
              filepath_example_is_build_path eq_refl eq_refl
              hosted_example_records)
    as (removed & Hres & _ & Hfilter & _).
  rewrite Hres, Hfilter. reflexivity.
Defined.

Lemma version_from_git_tags_witness :
  (let O := Memory.outside describe_after_tag 0 in
   snd (@version_from_git_tags O (Memory.world O [])) = Ok "1.2.0+3.gabc1234")
  /\ (let O := Memory.outside describe_at_tag 0 in
      @version_from_git_tags O (Memory.world O [])
      = (@mkWorld O [] [Line git_warning] [], Ok "1.2.0"))
  /\ (let O := Memory.outside describe_not_utf8 0 in
      snd (@version_from_git_tags O (Memory.world O []))
      = Raise UnicodeDecodeError)
  /\ (let O := Memory.outside newline 0 in
      snd (@version_from_git_tags O (Memory.world O [])) = Raise IndexError).
Proof.
  split; [| split; [| split]]; cbv zeta.
  - rewrite (proj1 (proj1 (proj2 (proj2 (@version_from_git_tags_rewrites
                      (Memory.outside describe_after_tag 0)
                      (Memory.world (Memory.outside describe_after_tag 0) [])
                      [] describe_after_tag eq_refl)))
                      (or_intror eq_refl))
               "1.2.0" "3" "gabc1234" eq_refl eq_refl eq_refl eq_refl).
    reflexivity.
  - apply (proj2 (proj1 (proj2 (proj2 (@version_from_git_tags_rewrites
                           (Memory.outside describe_at_tag 0)
                           (Memory.world (Memory.outside describe_at_tag 0) [])
                           [] describe_at_tag eq_refl)))
                           (or_intror eq_refl))).
    + discriminate.
    + vm_compute. discriminate.
  - rewrite (proj1 (@version_from_git_tags_rewrites
                      (Memory.outside describe_not_utf8 0)
                      (Memory.world (Memory.outside describe_not_utf8 0) [])
                      [] describe_not_utf8 eq_refl) eq_refl eq_refl).
    reflexivity.
  - rewrite (proj1 (proj2 (@version_from_git_tags_rewrites
                      (Memory.outside newline 0)
                      (Memory.world (Memory.outside newline 0) [])
                      [] newline eq_refl)) eq_refl).
    reflexivity.
Defined.

(** C5, as the specification states it, fails: at a commit tagged
    [v1.2.0], [git describe --tags] prints [v1.2.0], which is not of three
    parts, and the resolver returns [1.2.0], not the output unchanged. *)
Lemma version_from_git_tags_not_verbatim :
  ~ (forall (O : Outside) (w : @World O) (x : @External O) (out : string),
        run ["git"; "describe"; "--tags"] (external w) = (x, (0%Z, out)) ->
        List.length (split chr_dash (strip out)) <> 3 ->
        snd (version_from_git_tags w) = Ok (strip out)).
Proof.
  intros H.
  specialize (H (Memory.outside "v1.2.0" 0)
                (Memory.world (Memory.outside "v1.2.0" 0) [])
                [] "v1.2.0" eq_refl).
  assert (Hparts : List.length (split chr_dash (strip "v1.2.0")) <> 3)
    by (vm_compute; discriminate).
  specialize (H Hparts). vm_compute in H. discriminate H.
Qed.

(** On a channel other than ["main"] the purge runs: the superseded build
    is listed, then deleted. *)
Example purge_on_other_channel :
  let O := Memory.outside "" 0 in
  let w := fst (@binstar_upload_and_purge O "/mc" "key" "acme" "dev"
                  filepath_example (Memory.world O hosted_example)) in
  requests w
  = [ShowChannel "dev" "acme";
     RemoveDist "acme" "widget" "1.3.0+1.ccc"
       "linux-64/widget-1.3.0+1.ccc-py27.tar.bz2"]
  /\ List.length (external w) = 3.
Proof. split; reflexivity. Qed.

Example no_purge_on_main :
  let O := Memory.outside "" 0 in
  let w := fst (@binstar_upload_and_purge O "/mc" "key" "acme" "main"
                  filepath_example (Memory.world O hosted_example)) in
  requests w = [] /\ external w = hosted_example.
Proof. split; reflexivity. Qed.

(** A filename without [-] has no version token, and a hosted identifier
    that is not a record cannot be compared: [files_to_remove] raises. *)
Example files_to_remove_raises_without_version :
  let O := Memory.outside "" 0 in
  snd (@files_to_remove O (LetMeIn "key") "acme" "dev" "/bld/linux-64/widget"
         (Memory.world O hosted_example))
  = Raise IndexError.
Proof. reflexivity. Qed.

Example files_to_remove_raises_on_malformed_identifier :
  let O := Memory.outside "" 0 in
  snd (@files_to_remove O (LetMeIn "key") "acme" "dev" filepath_example
         (Memory.world O ["acme"]))
  = Raise IndexError.
Proof. reflexivity. Qed.

(** With no output at all, [raw[0]] raises. *)
Example version_from_git_tags_empty_output :
  let O := Memory.outside "" 0 in
  snd (@version_from_git_tags O (Memory.world O [])) = Raise IndexError.
Proof. reflexivity. Qed.

(** The name of a tag that is not UTF-8 stops Python 3 and not Python 2,
    which does not decode. *)
Example version_from_git_tags_not_utf8 :
  (let O := Memory.host true false describe_not_utf8 0 in
   snd (@version_from_git_tags O (Memory.world O []))
   = Raise UnicodeDecodeError)
  /\ (let O := Memory.host false false describe_not_utf8 0 in
      @version_from_git_tags O (Memory.world O [])
      = (@mkWorld O [] [Line git_warning] [],
         Ok ("1.2." ++ String (ascii_of_nat 255) EmptyString))).
Proof. split; reflexivity. Qed.

(** [os.path.split] is the host's.  On Windows the path of a build has a
    drive and backslashes; the same string on a POSIX host is one file
    name, in no directory. *)
Example split_on_either_host :
  ntpath.split windows_filepath_example
  = ("C:\Miniconda\conda-bld\win-64", "widget-1.3.0+2.def-py27.tar.bz2")
  /\ posixpath.split windows_filepath_example
     = (EmptyString, windows_filepath_example)
  /\ ntpath.split "\\host\share\f" = ("\\host\share\", "f")
  /\ ntpath.split "C:\f" = ("C:\", "f")
  /\ ntpath.split filepath_example
     = ("/home/ci/miniconda/conda-bld/linux-64",
        "widget-1.3.0+2.def-py27.tar.bz2")
  /\ posixpath.split "/f" = ("/", "f").
Proof. by_evaluation. Qed.

Example platform_on_either_host :
  @platform_from_binstar_filepath (Memory.windows_outside "" 0)
    windows_filepath_example = Ok "win-64"
  /\ @platform_from_binstar_filepath (Memory.outside "" 0)
       windows_filepath_example = Ok EmptyString
  /\ @platform_from_binstar_filepath (Memory.outside "" 0)
       "widget-1.3.0+2.def-py27.tar.bz2" = Ok EmptyString.
Proof. by_evaluation. Qed.

(** The retention scenario on a Windows host. *)
Example purge_on_windows :
  let O := Memory.windows_outside "" 0 in
  let w := fst (@binstar_upload_and_purge O "C:\Miniconda" "key" "acme" "dev"
                  windows_filepath_example
                  (Memory.world O windows_hosted_example)) in
  requests w
  = [ShowChannel "dev" "acme";
     RemoveDist "acme" "widget" "1.3.0+1.ccc"
       "win-64/widget-1.3.0+1.ccc-py27.tar.bz2"]
  /\ List.length (external w) = 2.
Proof. split; reflexivity. Qed.

(** The name of the new artifact is what precedes the first [-] of its
    file name: the builds of a package whose name has a [-] are compared
    under a name no hosted record has, and none is ever superseded. *)
Example files_to_remove_with_dash_in_name :
  let O := Memory.outside "" 0 in
  Spec.name_of_filename "scikit-learn-0.15+2.def-py27.tar.bz2" = "scikit"
  /\ Spec.version_of_filename "scikit-learn-0.15+2.def-py27.tar.bz2" = "learn"
  /\ BinstarFile.name
       (BinstarFile.new
          "acme/scikit-learn/0.15+1.abc/linux-64/scikit-learn-0.15+1.abc-py27.tar.bz2")
     = Ok "scikit-learn"
  /\ snd (@files_to_remove O (LetMeIn "key") "acme" "dev"
            scikit_learn_filepath (Memory.world O scikit_learn_hosted))
     = Ok [].
Proof. cbv zeta. by_evaluation. Qed.

(* ================================================================== *)
(** ** Miniconda: the installer's address and the host                 *)
(* ================================================================== *)

Lemma known_python_dec py_version :
  known_python py_version \/ (py_version <> "2.7" /\ py_version <> "3.4").
Proof.
  unfold known_python.
  destruct (String.eqb_spec py_version "2.7"); [now left; left |].
  destruct (String.eqb_spec py_version "3.4"); [now left; right |].
  now right.
Qed.

Lemma known_platform_dec platform :
  known_platform platform
  \/ getitem [("Linux", "Linux"); ("Darwin", "MacOSX"); ("Windows", "Windows")]
       platform = Raise KeyError.
Proof.
  unfold known_platform, getitem.
  destruct (String.eqb_spec "Linux" platform); [now left; left |].
  destruct (String.eqb_spec "Darwin" platform); [now left; right; left |].
  destruct (String.eqb_spec "Windows" platform); [now left; right; right |].
  now right.
Qed.

Lemma known_arch_dec arch :
  known_arch arch
  \/ getitem [("64bit", "x86_64"); ("32bit", "x86")] arch = Raise KeyError.
Proof.
  unfold known_arch, getitem.
  destruct (String.eqb_spec "64bit" arch); [now left; left |].
  destruct (String.eqb_spec "32bit" arch); [now left; right |].
  now right.
Qed.

Lemma url_ok_inv platform py_version arch url :
  url_for_platform_version platform py_version arch = Ok url ->
  known_platform platform /\ known_python py_version /\ known_arch arch.
Proof.
  intros H.
  destruct (known_python_dec py_version) as [Hv | [H27 H34]].
  - destruct (known_platform_dec platform) as [Hp | Hp].
    + destruct (known_arch_dec arch) as [Ha | Ha]; [now repeat split |].
      exfalso. unfold url_for_platform_version in H. cbv zeta in H.
      rewrite Ha in H.
      destruct Hv as [-> | ->], Hp as [-> | [-> | ->]]; discriminate H.
    + exfalso. unfold url_for_platform_version in H. cbv zeta in H.
      rewrite Hp in H. destruct Hv as [-> | ->]; discriminate H.
  - exfalso. unfold url_for_platform_version in H. cbv zeta in H.
    apply String.eqb_neq in H27, H34. rewrite H27, H34 in H. discriminate H.
Qed.

Lemma url_defined platform py_version arch :
  known_platform platform -> known_python py_version -> known_arch arch ->
  exists url, url_for_platform_version platform py_version arch = Ok url.
Proof.
  intros [-> | [-> | ->]] [-> | ->] [-> | ->]; eexists; reflexivity.
Qed.

(** X1. [url_for_platform_version] returns an address exactly for the
    three platforms, the two Python versions and the two architectures it
    knows.  A Python version other than 2.7 and 3.4 raises [ValueError],
    whatever the platform and the architecture; with a known Python
    version, an unknown platform or architecture raises [KeyError]. *)
Theorem url_for_platform_version_domain :
  forall platform py_version arch : string,
    ((exists url, url_for_platform_version platform py_version arch = Ok url)
     <-> known_platform platform /\ known_python py_version /\ known_arch arch)
    /\ (py_version <> "2.7" -> py_version <> "3.4" ->
        url_for_platform_version platform py_version arch = Raise ValueError)
    /\ (known_python py_version ->
        ~ (known_platform platform /\ known_arch arch) ->
        url_for_platform_version platform py_version arch = Raise KeyError).
Proof.
  intros platform py_version arch. split; [split |].
  - intros (url & H). exact (url_ok_inv _ _ _ _ H).
  - intros (Hp & Hv & Ha). now apply url_defined.
  - split.
    + intros H27 H34. unfold url_for_platform_version. cbv zeta.
      apply String.eqb_neq in H27, H34. now rewrite H27, H34.
    + intros Hv Hno. unfold url_for_platform_version. cbv zeta.
      destruct (known_platform_dec platform) as [Hp | Hp].
      * destruct (known_arch_dec arch) as [Ha | Ha];
          [exfalso; apply Hno; now split |].
        rewrite Ha.
        destruct Hv as [-> | ->], Hp as [-> | [-> | ->]]; reflexivity.
      * rewrite Hp. destruct Hv as [-> | ->]; reflexivity.
Qed.

Lemma url_for_platform_version_domain_witness :
  url_for_platform_version "Linux" "3.5" "64bit" = Raise ValueError
  /\ url_for_platform_version "FreeBSD" "3.4" "64bit" = Raise KeyError.
Proof.
  split.
  - apply (proj1 (proj2 (url_for_platform_version_domain "Linux" "3.5" "64bit")));
      discriminate.
  - apply (proj2 (proj2 (url_for_platform_version_domain "FreeBSD" "3.4" "64bit"))).
    + now right.
    + intros [[H | [H | H]] _]; discriminate H.
Defined.

(** X2. Two requests that get the same installer address are the same
    request: on its domain [url_for_platform_version] is injective in the
    platform, the Python version and the architecture. *)
Theorem url_for_platform_version_injective :
  forall (platform py_version arch platform' py_version' arch' url : string),
    url_for_platform_version platform py_version arch = Ok url ->
    url_for_platform_version platform' py_version' arch' = Ok url ->
    platform = platform' /\ py_version = py_version' /\ arch = arch'.
Proof.
  intros platform py_version arch platform' py_version' arch' url H H'.
  destruct (url_ok_inv _ _ _ _ H) as (Hp & Hv & Ha).
  destruct (url_ok_inv _ _ _ _ H') as (Hp' & Hv' & Ha').
  rewrite <- H' in H. clear H'.
  destruct Hp as [-> | [-> | ->]], Hv as [-> | ->], Ha as [-> | ->],
           Hp' as [-> | [-> | ->]], Hv' as [-> | ->], Ha' as [-> | ->];
    first [ now repeat split | vm_compute in H; discriminate H ].
Qed.

Lemma url_for_platform_version_injective_witness :
  "Darwin" = "Darwin" /\ "2.7" = "2.7" /\ "64bit" = "64bit".
Proof.
  apply (url_for_platform_version_injective
           "Darwin" "2.7" "64bit" "Darwin" "2.7" "64bit"
           "http://repo.continuum.io/miniconda/Miniconda-latest-MacOSX-x86_64.sh");
    reflexivity.
Defined.

(** X3. On Windows under AppVeyor [host_arch] is decided by the variable
    [PLATFORM] alone, not by the interpreter: [x86] gives [32bit], [x64]
    gives [64bit], a missing variable raises [KeyError] and any other
    value raises [IndexError] (from the format with no argument).
    Anywhere else it is the interpreter's architecture.  So whenever it
    returns on AppVeyor, the installer address exists for both Python
    versions. *)
Theorem host_arch_on_appveyor :
  forall (system architecture : string) (env : environ),
    (system <> "Windows" \/ env "APPVEYOR" = None ->
     host_arch system architecture env = Ok architecture)
    /\ (system = "Windows" -> env "APPVEYOR" <> None ->
        host_arch system architecture env
        = match env "PLATFORM" with
          | None => Raise KeyError
          | Some av_platform =>
              if String.eqb av_platform "x86" then Ok "32bit"
              else if String.eqb av_platform "x64" then Ok "64bit"
              else Raise IndexError
          end)
    /\ (system = "Windows" -> env "APPVEYOR" <> None ->
        forall arch py_version,
          host_arch system architecture env = Ok arch ->
          known_python py_version ->
          exists url, url_for_platform_version system py_version arch = Ok url).
Proof.
  intros system architecture env.
  assert (Hwin : system = "Windows" -> env "APPVEYOR" <> None ->
                 host_arch system architecture env
                 = match env "PLATFORM" with
                   | None => Raise KeyError
                   | Some av_platform =>
                       if String.eqb av_platform "x86" then Ok "32bit"
                       else if String.eqb av_platform "x64" then Ok "64bit"
                       else Raise IndexError
                   end).
  { intros -> Hav. unfold host_arch, env_has, env_get.
    rewrite String.eqb_refl.
    destruct (env "APPVEYOR"); [| contradiction].
    destruct (env "PLATFORM"); reflexivity. }
  split; [| split; [exact Hwin |]].
  - intros [Hsys | Hav]; unfold host_arch, env_has.
    + apply String.eqb_neq in Hsys. now rewrite Hsys.
    + rewrite Hav. now destruct (String.eqb system "Windows").
  - intros Hsys Hav arch py_version Harch Hpy.
    rewrite (Hwin Hsys Hav) in Harch. subst system.
    apply url_defined; [now right; right | exact Hpy |].
    destruct (env "PLATFORM") as [av |]; [| discriminate].
    destruct (String.eqb av "x86"); [injection Harch as <-; now right |].
    destruct (String.eqb av "x64"); [injection Harch as <-; now left |].
    discriminate.
Qed.

Lemma host_arch_on_appveyor_witness :
  let env := fun k => if String.eqb k "APPVEYOR" then Some "True"
                      else if String.eqb k "PLATFORM" then Some "x64"
                      else None in
  host_arch "Windows" "32bit" env = Ok "64bit"
  /\ exists url, url_for_platform_version "Windows" "3.4" "64bit" = Ok url.
Proof.
  cbv zeta.
  set (env := fun k => if String.eqb k "APPVEYOR" then Some "True"
                       else if String.eqb k "PLATFORM" then Some "x64"
                       else None).
  assert (Hav : env "APPVEYOR" <> None) by discriminate.
  destruct (host_arch_on_appveyor "Windows" "32bit" env) as (_ & Hwin & Hurl).
  split.
  - rewrite (Hwin eq_refl Hav). reflexivity.
  - apply (Hurl eq_refl Hav "64bit" "3.4").
    + rewrite (Hwin eq_refl Hav). reflexivity.
    + now right.
Defined.

(* ================================================================== *)
(** ** Continuous integration: pull requests and branches              *)
(* ================================================================== *)

Lemma env_has_true env k : env_has env k = true <-> env k <> None.
Proof. unfold env_has. destruct (env k); split; congruence. Qed.

Lemma env_has_false env k : env_has env k = false <-> env k = None.
Proof. unfold env_has. destruct (env k); split; congruence. Qed.

Section ContinuousIntegrationLemmas.

Context {O : Outside}.

Lemma resolve_can_upload_from_ci_eq env (w : World) :
  resolve_can_upload_from_ci env w
  = match is_pr_on_ci env with
    | Ok pr =>
        (mkWorld (external w)
           (stdout w ++ [Line ("Can we can upload? : " ++ str_of_bool (negb pr))])%list
           (requests w),
         Ok (negb pr))
    | Raise e => (w, Raise e)
    end.
Proof.
  unfold resolve_can_upload_from_ci, bind, lift, print, ret.
  destruct (is_pr_on_ci env); reflexivity.
Qed.

(** X4. Uploading is allowed exactly when the build is not a pull request
    as the provider in charge tells it: on Travis (asked first, whatever
    AppVeyor's variables say) when [TRAVIS_PULL_REQUEST] is exactly
    [false]; else on AppVeyor when [APPVEYOR_PULL_REQUEST_NUMBER] is not
    set.  With neither provider the question raises [ValueError]; on
    Travis without [TRAVIS_PULL_REQUEST] it raises [KeyError].  Nothing
    outside is touched. *)
Theorem can_upload_iff_not_pull_request :
  forall (env : environ) (w : World),
    (snd (resolve_can_upload_from_ci env w) = Ok true
     <-> (env "TRAVIS" <> None /\ env "TRAVIS_PULL_REQUEST" = Some "false")
         \/ (env "TRAVIS" = None /\ env "APPVEYOR" <> None
             /\ env "APPVEYOR_PULL_REQUEST_NUMBER" = None))
    /\ (snd (resolve_can_upload_from_ci env w) = Raise ValueError
        <-> env "TRAVIS" = None /\ env "APPVEYOR" = None)
    /\ (env "TRAVIS" <> None -> env "TRAVIS_PULL_REQUEST" = None ->
        snd (resolve_can_upload_from_ci env w) = Raise KeyError)
    /\ external (fst (resolve_can_upload_from_ci env w)) = external w
    /\ requests (fst (resolve_can_upload_from_ci env w)) = requests w.
Proof.
  intros env w. rewrite resolve_can_upload_from_ci_eq.
  unfold is_pr_on_ci, is_on_travis, is_on_appveyor, is_pr_from_travis,
    is_pr_from_appveyor, ne_str, env_get, env_has.
  destruct (env "TRAVIS") as [t |].
  - destruct (env "TRAVIS_PULL_REQUEST") as [pr |]; cbn [rbind fst snd].
    + destruct (String.eqb_spec pr "false") as [-> | Hne]; cbn [negb].
      * repeat apply conj; try reflexivity; try discriminate.
        -- intros _. left. split; [discriminate | reflexivity].
        -- intros [H _]. discriminate H.
      * repeat apply conj; try reflexivity; try discriminate.
        -- intros [[_ H] | [H _]]; [| discriminate H].
           injection H as H. contradiction.
        -- intros [H _]. discriminate H.
    + repeat apply conj; try reflexivity; try discriminate.
      * intros [[_ H] | [H _]]; discriminate H.
      * intros [H _]. discriminate H.
  - destruct (env "APPVEYOR") as [a |]; cbn [fst snd].
    + destruct (env "APPVEYOR_PULL_REQUEST_NUMBER") as [n |]; cbn [negb].
      * repeat apply conj; try reflexivity; try discriminate.
        -- intros [[H _] | [_ [_ H]]]; [now contradiction H | discriminate H].
        -- intros [_ H]. discriminate H.
        -- intros H. now contradiction H.
      * repeat apply conj; try reflexivity; try discriminate.
        -- intros _. right. repeat split. discriminate.
        -- intros [_ H]. discriminate H.
        -- intros H. now contradiction H.
    + repeat apply conj; try reflexivity; try discriminate.
      * intros [[H _] | [_ [H _]]]; now contradiction H.
      * intros _. now split.
      * intros H. now contradiction H.
Qed.

Lemma branch_from_travis_eq env (w : World) :
  branch_from_travis env w
  = match env "TRAVIS_TAG", env "TRAVIS_BRANCH" with
    | Some tag, Some branch =>
        if String.eqb tag branch
        then (mkWorld (external w)
                (stdout w ++ [Line travis_tag_warning;
                              Line travis_master_warning])%list
                (requests w), Ok "master")
        else (w, Ok branch)
    | _, _ => (w, Raise KeyError)
    end.
Proof.
  unfold branch_from_travis, bind, lift, print, ret, env_get.
  destruct (env "TRAVIS_TAG") as [tag |]; [| reflexivity].
  destruct (env "TRAVIS_BRANCH") as [branch |]; [| reflexivity].
  destruct (String.eqb tag branch); [| reflexivity].
  cbn. now rewrite <- app_assoc.
Qed.

(** What [branch_from_ci] returns does not depend on the world, and it
    touches nothing outside. *)
Lemma branch_from_ci_frame env (w : World) :
  external (fst (branch_from_ci env w)) = external w
  /\ requests (fst (branch_from_ci env w)) = requests w.
Proof.
  unfold branch_from_ci, lift, raise.
  destruct (is_on_travis env).
  - rewrite branch_from_travis_eq.
    destruct (env "TRAVIS_TAG") as [t |], (env "TRAVIS_BRANCH") as [b |];
      try (destruct (String.eqb t b)); split; reflexivity.
  - destruct (is_on_appveyor env); split; reflexivity.
Qed.

Lemma branch_from_ci_result env (w w' : World) :
  snd (branch_from_ci env w) = snd (branch_from_ci env w').
Proof.
  unfold branch_from_ci, lift, raise.
  destruct (is_on_travis env).
  - rewrite !branch_from_travis_eq.
    destruct (env "TRAVIS_TAG") as [t |], (env "TRAVIS_BRANCH") as [b |];
      try (destruct (String.eqb t b)); reflexivity.
  - destruct (is_on_appveyor env); reflexivity.
Qed.

(** X5. The branch a CI build reports.  On Travis (asked first), a build
    whose [TRAVIS_TAG] differs from its [TRAVIS_BRANCH] reports
    [TRAVIS_BRANCH] and prints nothing; one whose [TRAVIS_TAG] equals its
    [TRAVIS_BRANCH] prints two warnings and reports [master]; one that
    lacks either variable raises [KeyError].  Without Travis, on AppVeyor,
    the build reports [APPVEYOR_REPO_BRANCH], and raises [KeyError] without
    it.  With neither provider it raises [ValueError].  So on Travis the
    name of the tag being built is never reported as a branch, unless it
    is [master]. *)
Theorem branch_from_ci_never_a_tag :
  forall (env : environ) (w : World),
    (env "TRAVIS" <> None ->
     (forall tag branch : string,
         env "TRAVIS_TAG" = Some tag -> env "TRAVIS_BRANCH" = Some branch ->
         (tag <> branch -> branch_from_ci env w = (w, Ok branch))
         /\ (tag = branch ->
             branch_from_ci env w
             = (mkWorld (external w)
                  (stdout w ++ [Line travis_tag_warning;
                                Line travis_master_warning])%list
                  (requests w), Ok "master")))
     /\ (env "TRAVIS_TAG" = None \/ env "TRAVIS_BRANCH" = None ->
         branch_from_ci env w = (w, Raise KeyError))
     /\ (forall b : string,
            snd (branch_from_ci env w) = Ok b ->
            env "TRAVIS_TAG" = Some b -> b = "master"))
    /\ (env "TRAVIS" = None -> env "APPVEYOR" <> None ->
        (forall branch : string,
            env "APPVEYOR_REPO_BRANCH" = Some branch ->
            branch_from_ci env w = (w, Ok branch))
        /\ (env "APPVEYOR_REPO_BRANCH" = None ->
            branch_from_ci env w = (w, Raise KeyError)))
    /\ (env "TRAVIS" = None -> env "APPVEYOR" = None ->
        branch_from_ci env w = (w, Raise ValueError)).
Proof.
  intros env w.
  unfold branch_from_ci, is_on_travis, is_on_appveyor, branch_from_appveyor,
    env_has, env_get, lift, raise.
  destruct (env "TRAVIS") as [tr |].
  - rewrite branch_from_travis_eq. split; [intros _ | split; intros H; discriminate H].
    split; [| split].
    + intros tag branch -> ->. split.
      * intros Hne. apply String.eqb_neq in Hne. now rewrite Hne.
      * intros ->. now rewrite String.eqb_refl.
    + intros [-> | ->]; [reflexivity |].
      now destruct (env "TRAVIS_TAG").
    + intros b Hb Htag. rewrite Htag in Hb.
      destruct (env "TRAVIS_BRANCH") as [br |]; [| discriminate Hb].
      destruct (String.eqb_spec b br) as [-> | Hne].
      * now injection Hb as <-.
      * injection Hb as <-. now contradiction Hne.
  - split; [intros H; now contradiction H |]. split.
    + intros _ Happ.
      destruct (env "APPVEYOR") as [a |]; [| now contradiction Happ].
      split; [now intros branch -> | now intros ->].
    + now intros _ ->.
Qed.

End ContinuousIntegrationLemmas.

(* ================================================================== *)
(** ** The version of the checkout and the channel it goes to          *)
(* ================================================================== *)

Section VersionAndChannel.

Context {O : Outside}.

Lemma world_eta (w : World) :
  mkWorld (external w) (stdout w) (requests w) = w.
Proof. now destruct w. Qed.

Lemma versions_from_versioneer_eq found (w : World) :
  versions_from_versioneer found w
  = (mkWorld (external w) (stdout w ++ messages_of found)%list (requests w),
     Ok (versions_of found)).
Proof.
  revert w. induction found as [| [v | m] rest IH]; intros w.
  - cbn. now rewrite app_nil_r, world_eta.
  - cbn [versions_from_versioneer]. unfold bind, ret. rewrite IH. reflexivity.
  - cbn [versions_from_versioneer]. unfold bind, print. rewrite IH.
    cbn. now rewrite <- app_assoc.
Qed.

Lemma get_version_single found v (w : World) :
  versions_of found = [v] ->
  get_version found w
  = (mkWorld (external w)
       (stdout w ++ messages_of found
        ++ [Line ("found single unambiguous versioneer version: " ++ v)])%list
       (requests w),
     Ok v).
Proof.
  intros Hv. unfold get_version, bind at 1.
  rewrite versions_from_versioneer_eq, Hv.
  cbn. now rewrite <- app_assoc.
Qed.

Lemma get_version_fallback found (w : World) :
  List.length (versions_of found) <> 1 ->
  get_version found w
  = version_from_git_tags
      (mkWorld (external w)
         (stdout w ++ messages_of found ++ [Line versioneer_warning])%list
         (requests w)).
Proof.
  intros Hlen. unfold get_version, bind at 1.
  rewrite versions_from_versioneer_eq.
  apply Nat.eqb_neq in Hlen. rewrite Hlen.
  unfold bind at 1, print. cbn [external stdout requests].
  now rewrite <- app_assoc.
Qed.


(** X7. [binstar_channel_from_ci] sends a release tag to [main] and
    anything else to the branch of the CI build.  For a release tag the
    version is read a second time, for the message, and an error of that
    second reading is raised. *)
Theorem binstar_channel_from_ci_release_to_main :
  forall (found : list (string + string)) (env : environ)
         (w w1 : World) (v : string),
    get_version found w = (w1, Ok v) ->
    (is_release_tag v = Ok true ->
     snd (binstar_channel_from_ci found env w)
     = match snd (get_version found w1) with
       | Ok _ => Ok "main"
       | Raise e => Raise e
       end)
    /\ (is_release_tag v = Ok false ->
        snd (binstar_channel_from_ci found env w) = snd (branch_from_ci env w)).
Proof.
  intros found env w w1 v Hget. split; intros Hrel.
  - unfold binstar_channel_from_ci, bind at 1. rewrite Hget.
    unfold bind at 1, lift. rewrite Hrel.
    unfold bind at 1.
    destruct (get_version found w1) as [w2 [v' |]]; reflexivity.
  - unfold binstar_channel_from_ci, bind at 1. rewrite Hget.
    unfold bind at 1, lift. rewrite Hrel.
    unfold bind at 1, print.
    apply branch_from_ci_result.
Qed.

(** On [main], [binstar_upload_and_purge] asks nothing of the hosting
    client. *)
Lemma upload_and_purge_main_frame (mc key user filepath : string) (w : World) :
  requests (fst (binstar_upload_and_purge mc key user "main" filepath w))
  = requests w
  /\ external (fst (binstar_upload_and_purge mc key user "main" filepath w))
     = fst (run (upload_command mc key user "main" filepath) (external w)).
Proof.
  unfold binstar_upload_and_purge, binstar_upload_unchecked, try_except,
    check, login_to_binstar_with_key, bind, print, ret, raise, lift,
    upload_command.
  cbn -[run Z.eqb].
  destruct (run _ (external w)) as [x [status out]].
  cbn -[Z.eqb].
  destruct (status =? 0)%Z; cbn; split; reflexivity.
Qed.

Lemma binstar_channel_single_release found env v (w : World) :
  versions_of found = [v] ->
  is_release_tag v = Ok true ->
  snd (binstar_channel_from_ci found env w) = Ok "main"
  /\ external (fst (binstar_channel_from_ci found env w)) = external w
  /\ requests (fst (binstar_channel_from_ci found env w)) = requests w.
Proof.
  intros Hv Hrel.
  destruct (binstar_channel_from_ci found env w) as [w' res] eqn:E.
  unfold binstar_channel_from_ci, bind at 1 in E.
  rewrite (get_version_single found v _ Hv) in E.
  unfold bind at 1, lift in E. rewrite Hrel in E.
  unfold bind at 1 in E. rewrite (get_version_single found v _ Hv) in E.
  unfold bind, print, ret in E. cbn [fst snd external requests] in E.
  injection E as <- <-. repeat apply conj; reflexivity.
Qed.

(** X8. [binstar_upload_if_appropriate] does nothing outside (no command
    run, nothing asked of the hosting client) and returns normally when
    the user or the key is missing, whatever the environment, and when
    the build is a pull request. *)
Theorem no_upload_without_credentials_or_on_pull_request :
  forall (get_conda_build_path : string -> result string)
         (found : list (string + string)) (env : environ)
         (mc path : string) (user key channel : option string) (w : World),
    user = None \/ key = None \/ is_pr_on_ci env = Ok true ->
    let r := binstar_upload_if_appropriate get_conda_build_path found env
               mc path user key channel w in
    snd r = Ok tt
    /\ external (fst r) = external w
    /\ requests (fst r) = requests w.
Proof.
  intros gp found env mc path user key channel w H. cbv zeta.
  destruct (binstar_upload_if_appropriate gp found env mc path
              user key channel w) as [w' res] eqn:E.
  unfold binstar_upload_if_appropriate in E.
  destruct user as [u |], key as [k |];
    try (unfold bind, print, ret in E; cbn [fst snd external requests] in E;
         injection E as <- <-; repeat apply conj; reflexivity).
  destruct H as [H | [H | Hpr]]; try discriminate H.
  unfold bind at 1, ret in E. unfold bind at 1 in E.
  unfold bind at 1, print in E.
  unfold bind at 1 in E. rewrite resolve_can_upload_from_ci_eq, Hpr in E.
  cbn [negb external stdout requests] in E.
  injection E as <- <-. repeat apply conj; reflexivity.
Qed.

(** X9. A release never deletes.  With a user and a key, off a pull
    request, no channel given and versioneer reporting a single version
    that is a release tag, [binstar_upload_if_appropriate] uploads to
    [main]: it runs the upload command for [main] and asks nothing of the
    hosting client, neither a listing nor a deletion.  The same holds
    when the channel [main] is given, whatever the version. *)
Theorem release_upload_never_purges :
  forall (get_conda_build_path : string -> result string)
         (found : list (string + string)) (env : environ)
         (mc path user key filepath : string) (channel : option string)
         (w : World),
    is_pr_on_ci env = Ok false ->
    get_conda_build_path path = Ok filepath ->
    channel = Some "main"
    \/ (channel = None
        /\ exists v, versions_of found = [v] /\ is_release_tag v = Ok true) ->
    let r := binstar_upload_if_appropriate get_conda_build_path found env
               mc path (Some user) (Some key) channel w in
    requests (fst r) = requests w
    /\ external (fst r)
       = fst (run (upload_command mc key user "main" filepath) (external w)).
Proof.
  intros gp found env mc path user key filepath channel w Hpr Hpath Hmain.
  cbv zeta.
  destruct (binstar_upload_if_appropriate gp found env mc path
              (Some user) (Some key) channel w) as [w' res] eqn:E.
  unfold binstar_upload_if_appropriate in E.
  unfold bind at 1, ret in E. unfold bind at 1 in E.
  unfold bind at 1, print in E.
  unfold bind at 1 in E. rewrite resolve_can_upload_from_ci_eq, Hpr in E.
  cbn [negb] in E. unfold bind at 1 in E.
  destruct Hmain as [-> | [-> (v & Hv & Hrel)]].
  - unfold bind, print, ret, lift in E. rewrite Hpath in E.
    match type of E with
    | binstar_upload_and_purge mc key user "main" filepath ?w0 = _ =>
        destruct (upload_and_purge_main_frame mc key user filepath w0)
          as [Hreq Hext]
    end.
    rewrite E in Hreq, Hext. cbn [fst external requests] in Hreq, Hext.
    split; assumption.
  - unfold bind at 1, print in E.
    match type of E with
    | context [binstar_channel_from_ci found env ?w0] =>
        destruct (binstar_channel_single_release found env v w0 Hv Hrel)
          as (Hres & Hext0 & Hreq0);
        destruct (binstar_channel_from_ci found env w0) as [w1 c]
    end.
    cbn [fst snd external requests] in Hres, Hext0, Hreq0.
    subst c.
    unfold bind, print, ret, lift in E. rewrite Hpath in E.
    match type of E with
    | binstar_upload_and_purge mc key user "main" filepath ?w0 = _ =>
        destruct (upload_and_purge_main_frame mc key user filepath w0)
          as [Hreq Hext]
    end.
    rewrite E in Hreq, Hext. cbn [fst external requests] in Hreq, Hext.
    cbn [fst]. rewrite Hreq, Hext, Hreq0, Hext0. split; reflexivity.
Qed.

End VersionAndChannel.

(* ================================================================== *)
(** ** Deleting hosted files                                           *)
(* ================================================================== *)

Lemma four_segments_fields full_name :
  4 <= List.length (Spec.segments full_name) ->
  exists u n v b,
    BinstarFile.user (BinstarFile.new full_name) = Ok u
    /\ BinstarFile.name (BinstarFile.new full_name) = Ok n
    /\ BinstarFile.version (BinstarFile.new full_name) = Ok v
    /\ BinstarFile.basename (BinstarFile.new full_name) = Ok b
    /\ u ++ "/" ++ n ++ "/" ++ v ++ "/" ++ b = full_name.
Proof.
  intros Hlen.
  pose proof (join_split chr_slash full_name) as Hjoin.
  unfold BinstarFile.user, BinstarFile.name, BinstarFile.version,
    BinstarFile.basename. cbn [BinstarFile.full_name].
  unfold Spec.segments in Hlen.
  destruct (split chr_slash full_name) as [| s0 [| s1 [| s2 [| s3 rest]]]];
    try (simpl in Hlen; lia).
  exists s0, s1, s2, (join "/" (s3 :: rest)).
  split; [now rewrite index_zero |].
  split; [apply (field_at (s0 :: s1 :: s2 :: s3 :: rest) 1 1 eq_refl);
          simpl; lia |].
  split; [apply (field_at (s0 :: s1 :: s2 :: s3 :: rest) 2 2 eq_refl);
          simpl; lia |].
  split; [reflexivity | exact Hjoin].
Qed.

(** X11. The four arguments [binstar_remove_file] hands to the hosting
    client name the file: for an identifier of at least four segments,
    [user], [name], [version] and [basename] joined by [/] give the
    identifier back, so two such identifiers with the same request are
    the same identifier. *)
Theorem removal_request_names_the_file :
  forall full_name : string,
    4 <= List.length (Spec.segments full_name) ->
    let f := BinstarFile.new full_name in
    (exists u n v b,
        BinstarFile.user f = Ok u /\ BinstarFile.name f = Ok n
        /\ BinstarFile.version f = Ok v /\ BinstarFile.basename f = Ok b
        /\ u ++ "/" ++ n ++ "/" ++ v ++ "/" ++ b = full_name)
    /\ (forall full_name' : string,
           4 <= List.length (Spec.segments full_name') ->
           removal_request (BinstarFile.new full_name') = removal_request f ->
           full_name' = full_name).
Proof.
  intros full_name Hlen f. subst f. split.
  - now apply four_segments_fields.
  - intros full_name' Hlen' Hreq.
    destruct (four_segments_fields _ Hlen)
      as (u & n & v & b & Hu & Hn & Hv & Hb & <-).
    destruct (four_segments_fields _ Hlen')
      as (u' & n' & v' & b' & Hu' & Hn' & Hv' & Hb' & <-).
    unfold removal_request in Hreq.
    rewrite Hu, Hn, Hv, Hb, Hu', Hn', Hv', Hb' in Hreq.
    cbn [field] in Hreq. now injection Hreq as -> -> -> ->.
Qed.

Lemma removal_request_names_the_file_witness :
  exists u n v b,
    BinstarFile.user (BinstarFile.new "acme/widget/1.3.0/widget-1.3.0.tar.gz")
    = Ok u
    /\ BinstarFile.name (BinstarFile.new "acme/widget/1.3.0/widget-1.3.0.tar.gz")
       = Ok n
    /\ BinstarFile.version
         (BinstarFile.new "acme/widget/1.3.0/widget-1.3.0.tar.gz") = Ok v
    /\ BinstarFile.basename
         (BinstarFile.new "acme/widget/1.3.0/widget-1.3.0.tar.gz") = Ok b
    /\ u ++ "/" ++ n ++ "/" ++ v ++ "/" ++ b
       = "acme/widget/1.3.0/widget-1.3.0.tar.gz".
Proof.
  apply (removal_request_names_the_file
           "acme/widget/1.3.0/widget-1.3.0.tar.gz").
  vm_compute. lia.
Defined.

Section Purge.

Context {O : Outside}.

(** Deleting one record: one request, with the fields of the record. *)
Lemma binstar_remove_file_eq (b : client) full_name (w : World) :
  Spec.is_record full_name ->
  let f := BinstarFile.new full_name in
  binstar_remove_file b f w
  = (let (x, r) := remove_dist b (field (BinstarFile.user f))
                     (field (BinstarFile.name f))
                     (field (BinstarFile.version f))
                     (field (BinstarFile.basename f)) (external w) in
     (mkWorld x (stdout w) (requests w ++ [removal_request f])%list, r)).
Proof.
  intros Hrec f.
  destruct (is_record_fields _ Hrec) as (n & v & p & c & Hn & Hv & _ & _).
  fold f in Hn, Hv.
  unfold binstar_remove_file, removal_request, bind, lift, call_remove_dist.
  assert (Hu : exists u, BinstarFile.user f = Ok u).
  { unfold BinstarFile.user. rewrite index_split_first. now eexists. }
  destruct Hu as (u & Hu). rewrite Hu, Hn, Hv.
  unfold BinstarFile.basename. cbn [field].
  destruct (remove_dist _ _ _ _ _ _). reflexivity.
Qed.

(** The loop of the purge asks for the deletion of the records in turn
    and stops at the first deletion that raises. *)
Lemma for_each_remove (b : client) (l : list string) :
  Forall Spec.is_record l ->
  forall w : World,
  exists (w' : World) (res : result unit) (k : nat),
    for_each (map BinstarFile.new l)
      (fun old_file =>
         print ("Removing '" ++ BinstarFile.str old_file ++ "'") ;;;
         binstar_remove_file b old_file) w = (w', res)
    /\ requests w'
       = (requests w
          ++ map removal_request (firstn k (map BinstarFile.new l)))%list
    /\ (deletions_succeed b (map BinstarFile.new l) (external w) ->
        res = Ok tt /\ k = List.length l).
Proof.
  intros Hall. induction Hall as [| full l Hrec Hall IH]; intros w.
  - exists w, (Ok tt), 0. cbn. rewrite app_nil_r. now repeat split.
  - cbn [map for_each deletions_succeed].
    unfold bind at 1. unfold bind at 1, print.
    rewrite (binstar_remove_file_eq b full _ Hrec). cbv zeta.
    cbn [external stdout requests].
    destruct (remove_dist _ _ _ _ _ _) as [x r]. cbn [fst snd].
    destruct r as [[] | e].
    + match goal with
      | |- context [for_each _ _ ?w0] =>
          destruct (IH w0) as (w' & res & k & E & R & Hs)
      end.
      exists w', res, (S k). split; [exact E |]. split.
      * rewrite R. cbn [requests firstn map]. now rewrite <- app_assoc.
      * intros [_ Hrest]. destruct (Hs Hrest) as [-> ->]. now split.
    + eexists _, (Raise e), 1. split; [reflexivity |]. split.
      * reflexivity.
      * intros [H _]. discriminate H.
Qed.

Lemma filter_records (p : BinstarFile.t -> bool) (hosted : list string) :
  Forall Spec.is_record hosted ->
  exists l, filter p (map BinstarFile.new hosted) = map BinstarFile.new l
            /\ Forall Spec.is_record l.
Proof.
  induction 1 as [| full hosted Hrec Hall (l & El & Hl)]; cbn.
  - now exists [].
  - destruct (p (BinstarFile.new full)).
    + exists (full :: l). cbn. rewrite El. split; [reflexivity | now constructor].
    + now exists l.
Qed.

(** X10. [purge_old_binstar_files], for the file [filename] (with a [-]
    in its name) of a directory named [platform_], asks the hosting client
    for the listing and then for the deletion of superseded records, in
    the order of the listing, and for nothing else: whatever the deletions
    answer, the requests made after the listing are the deletions of the
    first [k] superseded records, so that a record that is not superseded
    (a release, another platform, configuration or release line) is never
    named in a request.  When each deletion made returns normally, all the
    superseded records are deleted and the purge returns normally. *)
Theorem purge_deletes_exactly_the_superseded
        (b : client) (user channel filepath : string) (w : World)
        (hosted : list string) (platform_ filename : string) :
  Spec.is_build_path windows filepath platform_ filename ->
  Spec.has_char chr_dash filename = true ->
  show_channel b channel user (external w) = Ok hosted ->
  Forall Spec.is_record hosted ->
  let superseded :=
    filter (Spec.superseded (Spec.name_of_filename filename)
              (Spec.configuration_of_filename filename) platform_
              (Spec.version_of_filename filename))
      (map BinstarFile.new hosted) in
  let r := purge_old_binstar_files b user channel filepath w in
  (exists k : nat,
      requests (fst r)
      = (requests w
         ++ ShowChannel channel user
            :: map removal_request (firstn k superseded))%list)
  /\ (deletions_succeed b superseded (external w) ->
      snd r = Ok tt
      /\ requests (fst r)
         = (requests w
            ++ ShowChannel channel user
               :: map removal_request superseded)%list).
Proof.
  intros Hpath Hdash Hshow Hall. cbv zeta.
  destruct (files_to_remove_build_path b user channel filepath w hosted
              platform_ filename Hpath Hdash Hshow Hall)
    as (Hres & Hext & Hreq).
  destruct (filter_records
              (Spec.superseded (Spec.name_of_filename filename)
                 (Spec.configuration_of_filename filename) platform_
                 (Spec.version_of_filename filename))
              hosted Hall) as (l & El & Hl).
  rewrite El in Hres |- *.
  destruct (purge_old_binstar_files b user channel filepath w)
    as [w' res] eqn:E.
  unfold purge_old_binstar_files, bind at 1 in E.
  destruct (files_to_remove b user channel filepath w) as [w1 r1].
  cbn [fst snd] in Hres, Hreq, Hext. subst r1.
  unfold bind at 1, print in E.
  match type of E with
  | for_each _ _ ?w0 = _ =>
      destruct (for_each_remove b l Hl w0)
        as (w2 & res2 & k & Hfor & Hfreq & Hsucc)
  end.
  pose proof (eq_trans (eq_sym Hfor) E) as E2.
  injection E2 as <- <-. cbn [fst snd].
  cbn [requests external] in Hfreq, Hsucc. rewrite Hreq in Hfreq.
  rewrite Hext in Hsucc.
  split.
  - exists k. rewrite Hfreq. now rewrite <- app_assoc.
  - intros Hok. destruct (Hsucc Hok) as [-> ->]. split; [reflexivity |].
    rewrite Hfreq, <- app_assoc. cbn [app].
    rewrite <- (length_map BinstarFile.new l), firstn_all. reflexivity.
Qed.

(** X12. [files_to_remove] only reads: whatever the path and whatever the
    hosting client answers, even when it raises, it leaves the outside
    as it was and asks for nothing but, at most, the one listing. *)
Theorem files_to_remove_only_lists
        (b : client) (user channel filepath : string) (w : World) :
  external (fst (files_to_remove b user channel filepath w)) = external w
  /\ (requests (fst (files_to_remove b user channel filepath w)) = requests w
      \/ requests (fst (files_to_remove b user channel filepath w))
         = (requests w ++ [ShowChannel channel user])%list).
Proof.
  unfold files_to_remove, binstar_files_on_channel, call_show_channel,
    bind, lift, print, pprint, ret, platform_from_binstar_filepath.
  destruct (name_from_binstar_filename _); cbn [fst snd external requests];
    [| now split; [| left]].
  destruct (version_from_binstar_filename _); cbn [fst snd external requests];
    [| now split; [| left]].
  destruct (configuration_from_binstar_filename _);
    cbn [fst snd external requests]; [| now split; [| left]].
  destruct (show_channel b channel user (external w));
    cbn [fst snd external requests log_request]; [| now split; [| right]].
  destruct (comprehension BinstarFile.all_info _ _);
    cbn [fst snd external requests]; now split; [| right].
Qed.

End Purge.

(* ================================================================== *)
(** ** The names of an artifact                                        *)
(* ================================================================== *)

Lemma filename_tokens name version configuration ext :
  Spec.has_char chr_dash name = false ->
  Spec.has_char chr_dash version = false ->
  Spec.has_char chr_dash configuration = false ->
  Spec.has_char chr_dash ext = false ->
  split chr_dash (artifact_filename name version configuration ext)
  = [name; version; configuration ++ "." ++ ext].
Proof.
  intros Hn Hv Hc He.
  change (artifact_filename name version configuration ext)
    with (join (String chr_dash EmptyString)
            [name; version; configuration ++ "." ++ ext]).
  apply split_join; [discriminate |].
  repeat constructor; try assumption.
  rewrite has_char_app, Hc. cbn. exact He.
Qed.

Lemma filename_fields name version configuration ext :
  token_ok name -> token_ok version -> token_ok configuration ->
  Spec.has_char chr_dot configuration = false -> token_ok ext ->
  let filename := artifact_filename name version configuration ext in
  name_from_binstar_filename filename = Ok name
  /\ version_from_binstar_filename filename = Ok version
  /\ configuration_from_binstar_filename filename = Ok configuration
  /\ Spec.has_char chr_slash filename = false
  /\ Spec.has_char chr_backslash filename = false.
Proof.
  intros [[Hns Hnb] Hn] [[Hvs Hvb] Hv] [[Hcs Hcb] Hc] Hdot [[Hes Heb] He].
  cbv zeta.
  unfold name_from_binstar_filename, version_from_binstar_filename,
    configuration_from_binstar_filename.
  rewrite (filename_tokens _ _ _ _ Hn Hv Hc He).
  split; [reflexivity |]. split; [reflexivity |]. split.
  - cbn [rbind]. change (index [name; version; configuration ++ "." ++ ext] (-1))
      with (@Ok string (configuration ++ "." ++ ext)).
    cbn [rbind]. rewrite index_split_first.
    change ("." ++ ext) with (String chr_dot ext).
    now rewrite (before_first_app chr_dot configuration ext Hdot).
  - unfold artifact_filename.
    rewrite !has_char_app, Hns, Hvs, Hcs, Hes, Hnb, Hvb, Hcb, Heb.
    split; reflexivity.
Qed.

Lemma hosted_fields user name version platform filename :
  segment_ok user -> segment_ok name -> segment_ok version ->
  segment_ok platform -> segment_ok filename ->
  normalized_and_plain_segments_agree
    (hosted_identifier user name version platform filename)
    [user; name; version; platform; filename].
Proof.
  intros [Hus Hub] [Hns Hnb] [Hvs Hvb] [Hps Hpb] [Hfs Hfb].
  assert (Hseg : Spec.segments
                   (hosted_identifier user name version platform filename)
                 = [user; name; version; platform; filename]).
  { unfold Spec.segments.
    change (hosted_identifier user name version platform filename)
      with (join (String chr_slash EmptyString)
              [user; name; version; platform; filename]).
    apply split_join; [discriminate |]. repeat constructor; assumption. }
  split; [exact Hseg |].
  unfold Spec.normalized_segments. rewrite replace_no_backslash; [exact Hseg |].
  unfold hosted_identifier.
  rewrite !has_char_app, Hub, Hnb, Hvb, Hpb, Hfb. reflexivity.
Qed.

Lemma hosted_record_fields user name version configuration ext platform :
  artifact_ok user name version configuration ext platform ->
  let f := BinstarFile.new
             (hosted_identifier user name version platform
                (artifact_filename name version configuration ext)) in
  BinstarFile.user f = Ok user
  /\ BinstarFile.name f = Ok name
  /\ BinstarFile.version f = Ok version
  /\ BinstarFile.platform f = Ok platform
  /\ BinstarFile.configuration f = Ok configuration.
Proof.
  intros (Hu & Hn & Hv & Hc & Hdot & He & Hp & _). cbv zeta.
  destruct (filename_fields name version configuration ext Hn Hv Hc Hdot He)
    as (_ & _ & _ & Hfs & Hfb).
  destruct (hosted_fields user name version platform
              (artifact_filename name version configuration ext)
              Hu (proj1 Hn) (proj1 Hv) Hp (conj Hfs Hfb)) as [Hseg Hnseg].
  unfold BinstarFile.user, BinstarFile.name, BinstarFile.version,
    BinstarFile.platform, BinstarFile.configuration.
  cbn [BinstarFile.full_name].
  fold (Spec.segments (hosted_identifier user name version platform
                         (artifact_filename name version configuration ext))).
  fold (Spec.normalized_segments
          (hosted_identifier user name version platform
             (artifact_filename name version configuration ext))).
  rewrite Hseg, Hnseg.
  repeat (split; [reflexivity |]).
  change (index [user; name; version; platform;
                 artifact_filename name version configuration ext] 4)
    with (@Ok string (artifact_filename name version configuration ext)).
  cbn [rbind].
  rewrite (filename_tokens _ _ _ _ (proj2 Hn) (proj2 Hv) (proj2 Hc) (proj2 He)).
  change (index [name; version; configuration ++ "." ++ ext] 2)
    with (@Ok string (configuration ++ "." ++ ext)).
  cbn [rbind]. rewrite index_split_first.
  change ("." ++ ext) with (String chr_dot ext).
  now rewrite (before_first_app chr_dot configuration ext Hdot).
Qed.

Lemma hosted_record_is_record user name version configuration ext platform :
  artifact_ok user name version configuration ext platform ->
  Spec.is_record
    (hosted_identifier user name version platform
       (artifact_filename name version configuration ext)).
Proof.
  intros Hok.
  destruct (hosted_record_fields _ _ _ _ _ _ Hok) as (Hu & Hn & Hv & Hp & Hc).
  unfold Spec.is_record, BinstarFile.all_info.
  rewrite Hu, Hn, Hv, Hp, Hc. unfold BinstarFile.basename. cbn [rbind].
  now eexists.
Qed.

Section Supersession.

Context {O : Outside}.

(** X13. The two parsers agree on an artifact laid out as the hosting
    service lays it out.  When the name, the version, the configuration
    and the extension hold no [-], [/] or backslash (and the
    configuration no [.]), and the platform and the user no [/] or
    backslash, the file [name-version-configuration.ext] built in a
    directory named after the platform (on a POSIX host or on a Windows
    host) and hosted as [user/name/version/platform/file] gives the same
    name, version, configuration and platform whether read from the build
    path or from the hosted identifier: those it was made of. *)
Theorem build_path_and_hosted_identifier_agree :
  forall user name version configuration ext platform path : string,
    artifact_ok user name version configuration ext platform ->
    let filename := artifact_filename name version configuration ext in
    Spec.is_build_path windows path platform filename ->
    let f := BinstarFile.new
               (hosted_identifier user name version platform filename) in
    (name_from_binstar_filename (snd (os_path.split path)) = Ok name
     /\ BinstarFile.name f = Ok name)
    /\ (version_from_binstar_filename (snd (os_path.split path)) = Ok version
        /\ BinstarFile.version f = Ok version)
    /\ (configuration_from_binstar_filename (snd (os_path.split path))
        = Ok configuration
        /\ BinstarFile.configuration f = Ok configuration)
    /\ (platform_from_binstar_filepath path = Ok platform
        /\ BinstarFile.platform f = Ok platform)
    /\ BinstarFile.user f = Ok user.
Proof.
  intros user name version configuration ext platform path Hok filename Hpath.
  subst filename. cbv zeta.
  destruct (hosted_record_fields _ _ _ _ _ _ Hok) as (Hu & Hn & Hv & Hp & Hc).
  destruct Hok as (_ & Hname & Hversion & Hconf & Hdot & Hext & Hplat & Hne).
  destruct (filename_fields name version configuration ext
              Hname Hversion Hconf Hdot Hext)
    as (Fn & Fv & Fc & Fs & _).
  destruct (build_path_fields path platform _ Hpath) as [Ptail Pplat].
  rewrite Ptail. repeat apply conj; assumption.
Qed.

(** X14. A new build purges the build before it.  When a channel hosts a
    build of an artifact whose version is not a release tag (a build after
    a tag, but also a release-candidate or development tag), and a build
    of the same artifact (name, configuration, platform) with another
    version of the same base, the part before the [+], is uploaded from
    its build path (the file, in a directory named after the platform, on
    a POSIX host or on a Windows host), [files_to_remove] selects the
    hosted build. *)
Theorem new_build_supersedes_previous_build :
  forall (b : client) (user channel : string) (w : World)
         (hosted : list string)
         (owner name old_version new_version configuration ext platform
          filepath : string),
    artifact_ok owner name old_version configuration ext platform ->
    artifact_ok owner name new_version configuration ext platform ->
    Spec.is_build_path windows filepath platform
      (artifact_filename name new_version configuration ext) ->
    old_version <> new_version ->
    is_release_tag old_version = Ok false ->
    Spec.before_first chr_plus old_version
    = Spec.before_first chr_plus new_version ->
    show_channel b channel user (external w) = Ok hosted ->
    Forall Spec.is_record hosted ->
    In (hosted_identifier owner name old_version platform
          (artifact_filename name old_version configuration ext)) hosted ->
    exists removed,
      snd (files_to_remove b user channel filepath w) = Ok removed
      /\ In (BinstarFile.new
               (hosted_identifier owner name old_version platform
                  (artifact_filename name old_version configuration ext)))
            removed.
Proof.
  intros b user channel w hosted owner name old_version new_version
         configuration ext platform filepath Hold Hnew Hpath Hne Hrel Hbase
         Hshow Hall Hin.
  destruct (hosted_record_fields _ _ _ _ _ _ Hold) as (_ & Hn & Hv & Hp & Hc).
  destruct Hnew as (_ & Hname & Hversion & Hconf & Hdot & Hext & Hplat & Hnep).
  destruct (filename_fields name new_version configuration ext
              Hname Hversion Hconf Hdot Hext)
    as (Fn & Fv & Fc & Fs & _).
  destruct (build_path_fields filepath platform _ Hpath) as [Ptail Pplat].
  rewrite <- Ptail in Fn, Fv, Fc.
  destruct (files_to_remove_eq b user channel _ w hosted
              name new_version configuration platform
              Hshow Hall Fn Fv Fc Pplat) as (Hres & _).
  eexists. split; [exact Hres |].
  apply filter_In. split; [now apply in_map |].
  apply superseded_iff.
  split; [exact Hn |]. split; [exact Hc |]. split; [exact Hp |].
  exists old_version. split; [exact Hv |]. split; [exact Hne |]. split.
  - exact Hrel.
  - rewrite same_version_different_build_eq, <- Hbase.
    now rewrite before_first_prefix.
Qed.

End Supersession.

(* ================================================================== *)
(** ** Versions read from git                                          *)
(* ================================================================== *)

Section GitVersions.

Context {O : Outside}.

(** X15. A version rewritten from [git describe] is never a release.  When
    the output of [git describe --tags], stripped of surrounding whitespace
    (and, on Python 3, well-formed UTF-8, so that it is decoded), is
    [BASE-NCOMMITS-SHA], a leading [v] or [V] apart, the version returned
    has a [+] part: it is not a tag and not a release tag.  When [BASE] has
    no [+], [BASE] is its release line: every build described from the
    same tag is on it. *)
Theorem git_build_is_never_a_release :
  forall (w : World) (x : External) (out base n_commits sha : string),
    run ["git"; "describe"; "--tags"] (external w) = (x, (0%Z, out)) ->
    python3 = false \/ utf8_valid (strip out) = true ->
    Spec.has_char chr_dash base = false ->
    Spec.has_char chr_dash n_commits = false ->
    Spec.has_char chr_dash sha = false ->
    Spec.strip_v (strip out) = base ++ "-" ++ n_commits ++ "-" ++ sha ->
    exists v,
      snd (version_from_git_tags w) = Ok v
      /\ is_tag v = Ok false
      /\ is_release_tag v = Ok false
      /\ (Spec.has_char chr_plus base = false ->
          Spec.before_first chr_plus v = base
          /\ forall n_commits' sha' : string,
              same_version_different_build v
                (base ++ "+" ++ n_commits' ++ "." ++ sha') = Ok true).
Proof.
  intros w x out base n_commits sha Hrun Hdec Hb Hn Hs Hform.
  assert (Hne : strip out <> EmptyString).
  { intros E. rewrite E in Hform. simpl in Hform. destruct base; discriminate. }
  exists (base ++ "+" ++ n_commits ++ "." ++ sha).
  assert (Hplus : Spec.has_char chr_plus (base ++ "+" ++ n_commits ++ "." ++ sha)
                  = true).
  { rewrite has_char_app. cbn. now rewrite orb_true_r. }
  split.
  - rewrite (version_from_git_tags_eq w x out Hrun Hne Hdec), Hform.
    change (base ++ "-" ++ n_commits ++ "-" ++ sha)
      with (join (String chr_dash EmptyString) [base; n_commits; sha]).
    rewrite split_join; [reflexivity | discriminate |].
    repeat constructor; assumption.
  - split; [now rewrite is_tag_eq, Hplus |].
    split; [rewrite is_release_tag_eq; unfold Spec.release; now rewrite Hplus |].
    intros Hbase.
    assert (Hline : Spec.before_first chr_plus
                      (base ++ "+" ++ n_commits ++ "." ++ sha) = base).
    { change ("+" ++ n_commits ++ "." ++ sha)
        with (String chr_plus (n_commits ++ "." ++ sha)).
      now apply before_first_app. }
    split; [exact Hline |].
    intros n' sha'. rewrite same_version_different_build_eq, Hline.
    now rewrite startswith_app.
Qed.

(** X16. [set_condaci_version] publishes the version and swallows only
    the failure of git.  With a single versioneer version, the variable
    [CONDACI_VERSION] becomes that version and no other variable changes.
    Without one, when [git describe] exits with a non-zero status, it
    returns normally and leaves the environment as it was; when git
    succeeds with an empty output, the [IndexError] of [raw[0]] is not
    caught. *)
Theorem set_condaci_version_swallows_git_failure :
  forall (found : list (string + string)) (env : environ) (w : World),
    (forall v, versions_of found = [v] ->
       exists env',
         snd (set_condaci_version found env w) = Ok env'
         /\ env' "CONDACI_VERSION" = Some v
         /\ forall k, k <> "CONDACI_VERSION" -> env' k = env k)
    /\ (List.length (versions_of found) <> 1 ->
        fst (snd (run ["git"; "describe"; "--tags"] (external w))) <> 0%Z ->
        snd (set_condaci_version found env w) = Ok env)
    /\ (List.length (versions_of found) <> 1 ->
        fst (snd (run ["git"; "describe"; "--tags"] (external w))) = 0%Z ->
        strip (snd (snd (run ["git"; "describe"; "--tags"] (external w))))
        = EmptyString ->
        snd (set_condaci_version found env w) = Raise IndexError).
Proof.
  intros found env w. split; [| split].
  - intros v Hv. exists (env_set env "CONDACI_VERSION" v).
    split; [| split].
    + unfold set_condaci_version, try_except, bind.
      rewrite (get_version_single found v w Hv). reflexivity.
    + unfold env_set. now rewrite String.eqb_refl.
    + intros k Hk. unfold env_set. apply String.eqb_neq in Hk. now rewrite Hk.
  - intros Hlen Hstatus.
    unfold set_condaci_version, try_except, bind.
    rewrite (get_version_fallback found w Hlen).
    destruct (run ["git"; "describe"; "--tags"] (external w))
      as [x [status out]] eqn:Hrun.
    cbn [fst snd] in Hstatus.
    rewrite (version_from_git_tags_fails _ x status out); [reflexivity | | ].
    + exact Hrun.
    + exact Hstatus.
  - intros Hlen Hstatus Hempty.
    unfold set_condaci_version, try_except, bind.
    rewrite (get_version_fallback found w Hlen).
    destruct (run ["git"; "describe"; "--tags"] (external w))
      as [x [status out]] eqn:Hrun.
    cbn [fst snd] in Hstatus, Hempty. subst status.
    rewrite (version_from_git_tags_empty _ x out); [reflexivity | | ].
    + exact Hrun.
    + exact Hempty.
Qed.

End GitVersions.

(* ================================================================== *)
(** ** Runs of the added functions                                     *)
(* ================================================================== *)

Lemma can_upload_witness :
  let O := Memory.outside "" 0 in
  snd (@resolve_can_upload_from_ci O travis_tag_build (Memory.world O []))
  = Ok true.
Proof.
  cbv zeta.
  apply (proj1 (@can_upload_iff_not_pull_request (Memory.outside "" 0)
                  travis_tag_build (Memory.world (Memory.outside "" 0) []))).
  left. split; [discriminate | reflexivity].
Defined.

Lemma branch_from_ci_witness :
  let O := Memory.outside "" 0 in
  snd (@branch_from_ci O travis_tag_build (Memory.world O [])) = Ok "master"
  /\ snd (@branch_from_ci O travis_branch_build (Memory.world O []))
     = Ok "develop"
  /\ snd (@branch_from_ci O appveyor_pull_request (Memory.world O []))
     = Ok "master"
  /\ snd (@branch_from_ci O (env_of [("TRAVIS", "true")]) (Memory.world O []))
     = Raise KeyError
  /\ snd (@branch_from_ci O (env_of []) (Memory.world O []))
     = Raise ValueError.
Proof.
  cbv zeta. split; [| split; [| split; [| split]]].
  - destruct (@branch_from_ci_never_a_tag (Memory.outside "" 0)
                travis_tag_build (Memory.world (Memory.outside "" 0) []))
      as (Htravis & _).
    destruct (Htravis ltac:(discriminate)) as (Hboth & _).
    now rewrite (proj2 (Hboth "v1.2.0" "v1.2.0" eq_refl eq_refl) eq_refl).
  - destruct (@branch_from_ci_never_a_tag (Memory.outside "" 0)
                travis_branch_build (Memory.world (Memory.outside "" 0) []))
      as (Htravis & _).
    destruct (Htravis ltac:(discriminate)) as (Hboth & _).
    now rewrite (proj1 (Hboth "" "develop" eq_refl eq_refl)
                   ltac:(discriminate)).
  - destruct (@branch_from_ci_never_a_tag (Memory.outside "" 0)
                appveyor_pull_request (Memory.world (Memory.outside "" 0) []))
      as (_ & Happveyor & _).
    now rewrite (proj1 (Happveyor eq_refl ltac:(discriminate))
                   "master" eq_refl).
  - destruct (@branch_from_ci_never_a_tag (Memory.outside "" 0)
                (env_of [("TRAVIS", "true")])
                (Memory.world (Memory.outside "" 0) []))
      as (Htravis & _).
    destruct (Htravis ltac:(discriminate)) as (_ & Hmissing & _).
    now rewrite (Hmissing (or_introl eq_refl)).
  - destruct (@branch_from_ci_never_a_tag (Memory.outside "" 0)
                (env_of []) (Memory.world (Memory.outside "" 0) []))
      as (_ & _ & Hneither).
    now rewrite (Hneither eq_refl eq_refl).
Defined.


Lemma binstar_channel_from_ci_witness :
  let O := Memory.outside "" 0 in
  snd (@binstar_channel_from_ci O [inl "1.2.0"] travis_tag_build
         (Memory.world O [])) = Ok "main"
  /\ snd (@binstar_channel_from_ci O [inl "1.2.0rc1"] travis_tag_build
            (Memory.world O [])) = Ok "master".
Proof.
  cbv zeta. split.
  - rewrite (proj1 (@binstar_channel_from_ci_release_to_main
                      (Memory.outside "" 0) [inl "1.2.0"] travis_tag_build
                      (Memory.world (Memory.outside "" 0) [])
                      (fst (@get_version (Memory.outside "" 0) [inl "1.2.0"]
                              (Memory.world (Memory.outside "" 0) [])))
                      "1.2.0" eq_refl) eq_refl).
    reflexivity.
  - rewrite (proj2 (@binstar_channel_from_ci_release_to_main
                      (Memory.outside "" 0) [inl "1.2.0rc1"] travis_tag_build
                      (Memory.world (Memory.outside "" 0) [])
                      (fst (@get_version (Memory.outside "" 0) [inl "1.2.0rc1"]
                              (Memory.world (Memory.outside "" 0) [])))
                      "1.2.0rc1" eq_refl) eq_refl).
    reflexivity.
Defined.

Lemma no_upload_witness :
  let O := Memory.outside "" 0 in
  (let r := @binstar_upload_if_appropriate O (fun _ => Ok filepath_example)
              [] (fun _ => None) "/mc" "recipe" (Some "acme") None None
              (Memory.world O hosted_example) in
   snd r = Ok tt /\ external (fst r) = hosted_example /\ requests (fst r) = [])
  /\ (let r := @binstar_upload_if_appropriate O (fun _ => Ok filepath_example)
                 [] appveyor_pull_request "/mc" "recipe"
                 (Some "acme") (Some "key") (Some "dev")
                 (Memory.world O hosted_example) in
      snd r = Ok tt /\ external (fst r) = hosted_example
      /\ requests (fst r) = []).
Proof.
  cbv zeta. split.
  - apply (@no_upload_without_credentials_or_on_pull_request
             (Memory.outside "" 0) (fun _ => Ok filepath_example)
             [] (fun _ => None) "/mc" "recipe" (Some "acme") None None
             (Memory.world (Memory.outside "" 0) hosted_example)).
    right. left. reflexivity.
  - apply (@no_upload_without_credentials_or_on_pull_request
             (Memory.outside "" 0) (fun _ => Ok filepath_example)
             [] appveyor_pull_request "/mc" "recipe"
             (Some "acme") (Some "key") (Some "dev")
             (Memory.world (Memory.outside "" 0) hosted_example)).
    right. right. reflexivity.
Defined.

Lemma release_upload_witness :
  let O := Memory.outside "" 0 in
  let r := @binstar_upload_if_appropriate O (fun _ => Ok filepath_example)
             [inl "1.3.0"] travis_tag_build "/mc" "recipe"
             (Some "acme") (Some "key") None
             (Memory.world O hosted_example) in
  requests (fst r) = [] /\ external (fst r) = hosted_example.
Proof.
  cbv zeta.
  apply (@release_upload_never_purges
           (Memory.outside "" 0) (fun _ => Ok filepath_example)
           [inl "1.3.0"] travis_tag_build "/mc" "recipe" "acme" "key"
           filepath_example None
           (Memory.world (Memory.outside "" 0) hosted_example)).
  - reflexivity.
  - reflexivity.
  - right. split; [reflexivity |]. exists "1.3.0". split; reflexivity.
Defined.

Lemma windows_hosted_example_records :
  Forall Spec.is_record windows_hosted_example.
Proof. repeat constructor; eexists; reflexivity. Qed.

Lemma purge_witness :
  (let O := Memory.outside "" 0 in
   let r := @purge_old_binstar_files O (LetMeIn "key") "acme" "dev"
              filepath_example (Memory.world O hosted_example) in
   snd r = Ok tt
   /\ requests (fst r)
      = [ShowChannel "dev" "acme";
         RemoveDist "acme" "widget" "1.3.0+1.ccc"
           "linux-64/widget-1.3.0+1.ccc-py27.tar.bz2"])
  /\ (let O := Memory.windows_outside "" 0 in
      let r := @purge_old_binstar_files O (LetMeIn "key") "acme" "dev"
                 windows_filepath_example
                 (Memory.world O windows_hosted_example) in
      snd r = Ok tt
      /\ requests (fst r)
         = [ShowChannel "dev" "acme";
            RemoveDist "acme" "widget" "1.3.0+1.ccc"
              "win-64/widget-1.3.0+1.ccc-py27.tar.bz2"]).
Proof.
  cbv zeta. split.
  - destruct (@purge_deletes_exactly_the_superseded
                (Memory.outside "" 0) (LetMeIn "key") "acme" "dev"
                filepath_example
                (Memory.world (Memory.outside "" 0) hosted_example)
                hosted_example "linux-64" "widget-1.3.0+2.def-py27.tar.bz2"
                filepath_example_is_build_path eq_refl eq_refl
                hosted_example_records) as [_ Hok].
    destruct Hok as [Hres Hreq]; [vm_compute; repeat split |].
    split; [exact Hres |]. rewrite Hreq. reflexivity.
  - destruct (@purge_deletes_exactly_the_superseded
                (Memory.windows_outside "" 0) (LetMeIn "key") "acme" "dev"
                windows_filepath_example
                (Memory.world (Memory.windows_outside "" 0)
                   windows_hosted_example)
                windows_hosted_example
                "win-64" "widget-1.3.0+2.def-py27.tar.bz2"
                windows_filepath_example_is_build_path eq_refl eq_refl
                windows_hosted_example_records) as [_ Hok].
    destruct Hok as [Hres Hreq]; [vm_compute; repeat split |].
    split; [exact Hres |]. rewrite Hreq. reflexivity.
Defined.

Lemma widget_artifact_ok version platform :
  version = "1.3.0+1.ccc" \/ version = "1.3.0+2.def" ->
  platform = "linux-64" \/ platform = "win-64" ->
  artifact_ok "acme" "widget" version "py27" "tar.bz2" platform.
Proof.
  intros [-> | ->] [-> | ->]; unfold artifact_ok, token_ok, segment_ok;
    repeat apply conj; try reflexivity; discriminate.
Qed.

Lemma build_path_and_hosted_identifier_witness :
  (let O := Memory.outside "" 0 in
   @platform_from_binstar_filepath O filepath_example = Ok "linux-64"
   /\ BinstarFile.platform
        (BinstarFile.new
           "acme/widget/1.3.0+2.def/linux-64/widget-1.3.0+2.def-py27.tar.bz2")
      = Ok "linux-64")
  /\ (let O := Memory.windows_outside "" 0 in
      @platform_from_binstar_filepath O windows_filepath_example = Ok "win-64"
      /\ BinstarFile.platform
           (BinstarFile.new
              "acme/widget/1.3.0+2.def/win-64/widget-1.3.0+2.def-py27.tar.bz2")
         = Ok "win-64").
Proof.
  cbv zeta. split.
  - destruct (@build_path_and_hosted_identifier_agree (Memory.outside "" 0)
                "acme" "widget" "1.3.0+2.def" "py27" "tar.bz2" "linux-64"
                filepath_example
                (widget_artifact_ok "1.3.0+2.def" "linux-64"
                   (or_intror eq_refl) (or_introl eq_refl))
                filepath_example_is_build_path)
      as (_ & _ & _ & Hplat & _).
    exact Hplat.
  - destruct (@build_path_and_hosted_identifier_agree
                (Memory.windows_outside "" 0)
                "acme" "widget" "1.3.0+2.def" "py27" "tar.bz2" "win-64"
                windows_filepath_example
                (widget_artifact_ok "1.3.0+2.def" "win-64"
                   (or_intror eq_refl) (or_intror eq_refl))
                windows_filepath_example_is_build_path)
      as (_ & _ & _ & Hplat & _).
    exact Hplat.
Defined.

Lemma new_build_supersedes_witness :
  (let O := Memory.outside "" 0 in
   exists removed,
     snd (@files_to_remove O (LetMeIn "key") "acme" "dev" filepath_example
            (Memory.world O hosted_example)) = Ok removed
     /\ In (BinstarFile.new
              "acme/widget/1.3.0+1.ccc/linux-64/widget-1.3.0+1.ccc-py27.tar.bz2")
           removed)
  /\ (let O := Memory.windows_outside "" 0 in
      exists removed,
        snd (@files_to_remove O (LetMeIn "key") "acme" "dev"
               windows_filepath_example
               (Memory.world O windows_hosted_example)) = Ok removed
        /\ In (BinstarFile.new
                 "acme/widget/1.3.0+1.ccc/win-64/widget-1.3.0+1.ccc-py27.tar.bz2")
              removed).
Proof.
  cbv zeta. split.
  - apply (@new_build_supersedes_previous_build
             (Memory.outside "" 0) (LetMeIn "key") "acme" "dev"
             (Memory.world (Memory.outside "" 0) hosted_example)
             hosted_example "acme" "widget" "1.3.0+1.ccc" "1.3.0+2.def"
             "py27" "tar.bz2" "linux-64" filepath_example).
    + apply widget_artifact_ok; now left.
    + apply widget_artifact_ok; [now right | now left].
    + exact filepath_example_is_build_path.
    + discriminate.
    + reflexivity.
    + reflexivity.
    + reflexivity.
    + exact hosted_example_records.
    + right. left. reflexivity.
  - apply (@new_build_supersedes_previous_build
             (Memory.windows_outside "" 0) (LetMeIn "key") "acme" "dev"
             (Memory.world (Memory.windows_outside "" 0)
                windows_hosted_example)
             windows_hosted_example "acme" "widget" "1.3.0+1.ccc"
             "1.3.0+2.def" "py27" "tar.bz2" "win-64"
             windows_filepath_example).
    + apply widget_artifact_ok; [now left | now right].
    + apply widget_artifact_ok; now right.
    + exact windows_filepath_example_is_build_path.
    + discriminate.
    + reflexivity.
    + reflexivity.
    + reflexivity.
    + exact windows_hosted_example_records.
    + left. reflexivity.
Defined.

Lemma git_build_witness :
  let O := Memory.outside describe_after_tag 0 in
  exists v,
    snd (@version_from_git_tags O (Memory.world O [])) = Ok v
    /\ is_tag v = Ok false
    /\ is_release_tag v = Ok false
    /\ (Spec.has_char chr_plus "1.2.0" = false ->
        Spec.before_first chr_plus v = "1.2.0"
        /\ forall n_commits' sha' : string,
            same_version_different_build v
              ("1.2.0" ++ "+" ++ n_commits' ++ "." ++ sha') = Ok true).
Proof.
  cbv zeta.
  apply (@git_build_is_never_a_release
           (Memory.outside describe_after_tag 0)
           (Memory.world (Memory.outside describe_after_tag 0) [])
           [] describe_after_tag "1.2.0" "3" "gabc1234");
    try reflexivity.
  right. reflexivity.
Defined.

Lemma set_condaci_version_witness :
  let O := Memory.outside "" 0 in
  exists env',
    snd (@set_condaci_version O [inl "1.2.0"] travis_tag_build
           (Memory.world O [])) = Ok env'
    /\ env' "CONDACI_VERSION" = Some "1.2.0"
    /\ forall k, k <> "CONDACI_VERSION" -> env' k = travis_tag_build k.
Proof.
  cbv zeta.
  apply (proj1 (@set_condaci_version_swallows_git_failure
                  (Memory.outside "" 0) [inl "1.2.0"] travis_tag_build
                  (Memory.world (Memory.outside "" 0) []))).
  reflexivity.
Defined.

(* ================================================================== *)
(** ** A failed upload                                                 *)
(* ================================================================== *)

Section FailedUpload.

Context {O : Outside}.

Lemma binstar_upload_unchecked_eq (mc key user channel path : string)
      (w : World) :
  binstar_upload_unchecked mc key user channel path w
  = (let '(x, (status, _)) :=
       run (upload_command mc key user channel path) (external w) in
     (set_external x w,
      if (status =? 0)%Z then Ok tt
      else Raise (CalledProcessError status
                    (upload_command mc "BINSTAR_KEY" user channel path)))).
Proof.
  unfold binstar_upload_unchecked, try_except, check.
  destruct (run _ (external w)) as [x [status out]].
  destruct (status =? 0)%Z; reflexivity.
Qed.

(** X17. A failed upload purges nothing and does not tell the key.  When
    the upload command exits with a non-zero status, on any channel,
    [binstar_upload_and_purge] raises [CalledProcessError] with that
    status and the command line in which the key is replaced by
    [BINSTAR_KEY], and asks nothing of the hosting client: no listing and
    no deletion follow. *)
Theorem failed_upload_masks_key_and_purges_nothing :
  forall (mc key user channel filepath : string) (w : World),
    fst (snd (run (upload_command mc key user channel filepath) (external w)))
    <> 0%Z ->
    let status :=
      fst (snd (run (upload_command mc key user channel filepath)
                  (external w))) in
    let r := binstar_upload_and_purge mc key user channel filepath w in
    snd r = Raise (CalledProcessError status
                     [binstar mc; "-t"; "BINSTAR_KEY"; "upload"; "--force";
                      "-u"; user; "-c"; channel; filepath])
    /\ requests (fst r) = requests w
    /\ external (fst r)
       = fst (run (upload_command mc key user channel filepath) (external w)).
Proof.
  intros mc key user channel filepath w Hstatus. cbv zeta.
  destruct (binstar_upload_and_purge mc key user channel filepath w)
    as [w' res] eqn:E.
  unfold binstar_upload_and_purge, bind at 1, print in E.
  unfold bind at 1 in E.
  rewrite binstar_upload_unchecked_eq in E. cbn [external] in E.
  destruct (run _ (external w)) as [x [status out]].
  cbn [fst snd] in Hstatus |- *.
  apply Z.eqb_neq in Hstatus. rewrite Hstatus in E.
  injection E as <- <-. repeat apply conj; reflexivity.
Qed.

End FailedUpload.

Lemma failed_upload_witness :
  let O := Memory.outside "" 1 in
  let r := @binstar_upload_and_purge O "/mc" "secret" "acme" "dev"
             filepath_example (Memory.world O hosted_example) in
  snd r = Raise (CalledProcessError 1
                   ["/mc/bin/binstar"; "-t"; "BINSTAR_KEY"; "upload";
                    "--force"; "-u"; "acme"; "-c"; "dev"; filepath_example])
  /\ requests (fst r) = []
  /\ external (fst r) = hosted_example.
Proof.
  cbv zeta.
  apply (@failed_upload_masks_key_and_purges_nothing
           (Memory.outside "" 1) "/mc" "secret" "acme" "dev" filepath_example
           (Memory.world (Memory.outside "" 1) hosted_example)).
  discriminate.
Defined.
